(** * logseq-omnivore, [src/util.ts]: a shallow embedding and its properties

    The module is a thin data-access layer: three GraphQL fetchers, two
    decoders of a highlight's positional [patch], a comparator that puts
    highlights in reading order, and a few text helpers.

    Modelling choices, fixed once for the whole file:
    - a JavaScript string is the list of its UTF-16 code units;
    - a JavaScript number is an IEEE-754 binary64 value, represented with
      the Standard Library's executable specification [spec_float]
      (precision 53, infinities at exponent 1024);
    - a call that may throw (or a promise that may reject) returns an
      [outcome]: [Returns v] or [Throws e];
    - [JSON.parse] is part of the language and is embedded in full;
    - the npm libraries (diff-match-patch, luxon, markdown-escape,
      date-fns) and the network are not part of the repository, and the
      printing of a number ([Number::toString], on which
      [JSON.stringify] rests) is not embedded: the functions that call
      them take their behaviour as section variables, and what is proved
      of these functions holds for every such behaviour. *)

From Stdlib Require Import ZArith NArith PArith List Bool Ascii String Lia.
From Stdlib Require Import SpecFloat DecimalString Sorted.
Import ListNotations.

Set Implicit Arguments.
Open Scope Z_scope.

(** ** Strings *)

Module JsString.

Definition code_unit := N.
Definition jsstring := list code_unit.

Definition eqb (s t : jsstring) : bool :=
  if list_eq_dec N.eq_dec s t then true else false.

(** A literal of the source, as code units. *)
Definition js (s : string) : jsstring :=
  map N_of_ascii (list_ascii_of_string s).

(** The same, with every apostrophe read as a double quote, so that JSON
    texts can be written down as literals. *)
Definition jsq (s : string) : jsstring :=
  map (fun c => if N.eqb c 39 then 34%N else c) (js s).

(** JavaScript truthiness of a string: [''] is the only falsy one. *)
Definition nonempty (s : jsstring) : bool :=
  match s with [] => false | _ :: _ => true end.

End JsString.
Import JsString.

(** ** Exceptions *)

Inductive exn : Type :=
| SyntaxError
| TypeError
| OtherError (tag : jsstring).

Inductive outcome (A : Type) : Type :=
| Returns (a : A)
| Throws (e : exn).
Arguments Returns {A} a.
Arguments Throws {A} e.

Definition bind {A B : Type} (m : outcome A) (k : A -> outcome B) : outcome B :=
  match m with
  | Returns a => k a
  | Throws e => Throws e
  end.

Notation "x <- m ;; k" := (bind m (fun x => k))
  (at level 61, m at next level, right associativity).

(** ** Numbers *)

Module Number.

Definition number := spec_float.

Definition prec : Z := 53.
Definition emax : Z := 1024.

Definition NaN : number := S754_nan.
Definition pos_zero : number := S754_zero false.

Definition of_Z (z : Z) : number := binary_normalize prec emax z 0 false.

(** The double nearest to [m * 10 ^ e10], negated when [neg]: the value
    of a decimal literal.  A non-negative exponent gives an integer,
    which is rounded; a negative one gives a quotient, which is
    rounded from its first bits and the position of the remainder. *)
Definition of_decimal (neg : bool) (m : N) (e10 : Z) : number :=
  match m with
  | N0 => S754_zero neg
  | Npos p =>
      if 0 <=? e10
      then binary_round prec emax neg (p * Z.to_pos (10 ^ e10)) 0
      else
        let '(q, e, l) :=
          SFdiv_core_binary prec emax (Zpos p) 0 (10 ^ (- e10)) 0 in
        binary_round_aux prec emax neg q e l
  end.

Definition sub (x y : number) : number := SFsub prec emax x y.
Definition strict_eq (x y : number) : bool := SFeqb x y.
Definition ltb (x y : number) : bool := SFltb x y.

Definition is_nan (x : number) : bool :=
  match x with S754_nan => true | _ => false end.

Definition is_finite (x : number) : bool :=
  match x with S754_zero _ | S754_finite _ _ _ => true | _ => false end.

(** The three signs a comparator's result is read for. *)
Definition is_negative (x : number) : bool := ltb x pos_zero.
Definition is_positive (x : number) : bool := ltb pos_zero x.
Definition is_zero (x : number) : bool := strict_eq x pos_zero.

End Number.
Import Number.

(** ** JavaScript values that JSON texts denote *)

#[warnings="-register-all"]
Inductive JSVal : Type :=
| JUndefined
| JNull
| JBool (b : bool)
| JNum (x : number)
| JStr (s : jsstring)
| JArr (elems : list JSVal)
| JObj (fields : list (jsstring * JSVal)).

(** An object's fields are kept in the order in which the text lists
    them, repeated keys included; reading a property takes the last
    field of that name, as the parser's successive definitions leave it.
    The names that the module reads ([bbox], [length], [0], [1]) are not
    inherited from [Object.prototype]: without a field, they read as
    [undefined]. *)
Definition get_own (fields : list (jsstring * JSVal)) (key : jsstring) : JSVal :=
  match find (fun kv => JsString.eqb (fst kv) key) (rev fields) with
  | Some kv => snd kv
  | None => JUndefined
  end.

(** ** [JSON.parse] *)

Module JSON.

(** *** Tokens *)

#[warnings="-register-all"]
Inductive token : Type :=
| TLBrace | TRBrace | TLBracket | TRBracket | TColon | TComma
| TScalar (v : JSVal)
| TString (s : jsstring).

Definition is_ws (c : code_unit) : bool :=
  (c =? 9)%N || (c =? 10)%N || (c =? 13)%N || (c =? 32)%N.

Definition is_digit (c : code_unit) : bool := (48 <=? c)%N && (c <=? 57)%N.

Definition punctuation (c : code_unit) : option token :=
  match c with
  | 123%N => Some TLBrace
  | 125%N => Some TRBrace
  | 91%N => Some TLBracket
  | 93%N => Some TRBracket
  | 58%N => Some TColon
  | 44%N => Some TComma
  | _ => None
  end.

(** *** Numbers: an optional minus, an integer part without superfluous
    leading zero, an optional fraction, an optional exponent *)

Fixpoint span_digits (w : list code_unit) : list code_unit * list code_unit :=
  match w with
  | c :: w' =>
      if is_digit c
      then let '(ds, rest) := span_digits w' in (c :: ds, rest)
      else ([], w)
  | [] => ([], [])
  end.

Definition digits_value (ds : list code_unit) : N :=
  fold_left (fun acc c => (10 * acc + (c - 48))%N) ds 0%N.

Definition int_part_ok (ds : list code_unit) : bool :=
  match ds with
  | [] => false
  | [_] => true
  | c :: _ => negb (c =? 48)%N
  end.

Definition fraction (w : list code_unit)
  : option (list code_unit * list code_unit) :=
  match w with
  | 46%N :: w' =>
      match span_digits w' with
      | ([], _) => None
      | (ds, rest) => Some (ds, rest)
      end
  | _ => Some ([], w)
  end.

Definition exponent_digits (neg : bool) (w : list code_unit) : option Z :=
  match span_digits w with
  | (d :: ds, []) =>
      let e := Z.of_N (digits_value (d :: ds)) in
      Some (if neg then - e else e)
  | _ => None
  end.

Definition exponent (w : list code_unit) : option Z :=
  match w with
  | [] => Some 0
  | c :: w' =>
      if (c =? 101)%N || (c =? 69)%N
      then match w' with
           | 43%N :: w'' => exponent_digits false w''
           | 45%N :: w'' => exponent_digits true w''
           | _ => exponent_digits false w'
           end
      else None
  end.

Definition number_literal (w : list code_unit) : option number :=
  let '(neg, w1) :=
    match w with
    | 45%N :: w' => (true, w')
    | _ => (false, w)
    end in
  let '(ip, w2) := span_digits w1 in
  if int_part_ok ip then
    match fraction w2 with
    | Some (fp, w3) =>
        match exponent w3 with
        | Some e =>
            Some (of_decimal neg (digits_value (ip ++ fp))
                    (e - Z.of_nat (List.length fp)))
        | None => None
        end
    | None => None
    end
  else None.

(** A maximal run of characters that are neither white space,
    punctuation nor a quote is one of the three literals or a number. *)
Definition scalar (w : list code_unit) : option JSVal :=
  if JsString.eqb w (js "null") then Some JNull
  else if JsString.eqb w (js "true") then Some (JBool true)
  else if JsString.eqb w (js "false") then Some (JBool false)
  else option_map JNum (number_literal w).

(** *** Strings *)

Definition hex_digit (c : code_unit) : option N :=
  if is_digit c then Some (c - 48)%N
  else if (97 <=? c)%N && (c <=? 102)%N then Some (c - 87)%N
  else if (65 <=? c)%N && (c <=? 70)%N then Some (c - 55)%N
  else None.

Definition hex4 (a b c d : code_unit) : option code_unit :=
  match hex_digit a, hex_digit b, hex_digit c, hex_digit d with
  | Some x, Some y, Some z, Some t => Some (((x * 16 + y) * 16 + z) * 16 + t)%N
  | _, _, _, _ => None
  end.

Definition simple_escape (c : code_unit) : option code_unit :=
  match c with
  | 34%N => Some 34%N     (* quote *)
  | 92%N => Some 92%N     (* backslash *)
  | 47%N => Some 47%N     (* slash *)
  | 98%N => Some 8%N      (* b *)
  | 102%N => Some 12%N    (* f *)
  | 110%N => Some 10%N    (* n *)
  | 114%N => Some 13%N    (* r *)
  | 116%N => Some 9%N     (* t *)
  | _ => None
  end.

(** The code units a string token denotes, given what stands between
    its quotes: escapes are resolved, raw control characters refused. *)
Fixpoint unescape (raw : list code_unit) : option jsstring :=
  match raw with
  | [] => Some []
  | 92%N :: rest =>
      match rest with
      | 117%N :: a :: b :: c :: d :: rest' =>
          match hex4 a b c d, unescape rest' with
          | Some u, Some s => Some (u :: s)
          | _, _ => None
          end
      | e :: rest' =>
          match simple_escape e, unescape rest' with
          | Some u, Some s => Some (u :: s)
          | _, _ => None
          end
      | [] => None
      end
  | c :: rest =>
      if (c <? 32)%N then None
      else option_map (cons c) (unescape rest)
  end.

(** *** The tokenizer, one code unit at a time *)

Inductive lexer_state : Type :=
| Between
| InWord (rev_word : list code_unit)
| InString (rev_raw : list code_unit) (escaped : bool).

Definition end_word (rev_word : list code_unit) : option token :=
  option_map TScalar (scalar (rev rev_word)).

Definition lex_between (c : code_unit) : lexer_state * list token :=
  if is_ws c then (Between, [])
  else if (c =? 34)%N then (InString [] false, [])
  else match punctuation c with
       | Some t => (Between, [t])
       | None => (InWord [c], [])
       end.

Definition lex_step (st : lexer_state) (c : code_unit)
  : option (lexer_state * list token) :=
  match st with
  | Between => Some (lex_between c)
  | InWord w =>
      if is_ws c || (c =? 34)%N ||
         match punctuation c with Some _ => true | None => false end
      then match end_word w with
           | Some t => let '(st', ts) := lex_between c in Some (st', t :: ts)
           | None => None
           end
      else Some (InWord (c :: w), [])
  | InString raw true => Some (InString (c :: raw) false, [])
  | InString raw false =>
      if (c =? 34)%N
      then option_map (fun s => (Between, [TString s])) (unescape (rev raw))
      else Some (InString (c :: raw) (c =? 92)%N, [])
  end.

Fixpoint lex (st : lexer_state) (text : jsstring) : option (list token) :=
  match text with
  | [] =>
      match st with
      | Between => Some []
      | InWord w => option_map (fun t => [t]) (end_word w)
      | InString _ _ => None
      end
  | c :: text' =>
      match lex_step st c with
      | Some (st', ts) => option_map (app ts) (lex st' text')
      | None => None
      end
  end.

(** *** The parser, one token at a time *)

Inductive frame : Type :=
| FArr (rev_elems : list JSVal)
| FObj (rev_fields : list (jsstring * JSVal)) (key : jsstring).

Inductive parser_state : Type :=
| PValue (stack : list frame)
| PArrOpen (stack : list frame)
| PArrNext (rev_elems : list JSVal) (stack : list frame)
| PObjOpen (stack : list frame)
| PKey (rev_fields : list (jsstring * JSVal)) (stack : list frame)
| PColon (rev_fields : list (jsstring * JSVal)) (key : jsstring)
         (stack : list frame)
| PObjNext (rev_fields : list (jsstring * JSVal)) (stack : list frame)
| PDone (v : JSVal).

(** A value is complete: it goes into the innermost open container. *)
Definition complete (v : JSVal) (stack : list frame) : parser_state :=
  match stack with
  | [] => PDone v
  | FArr elems :: stack' => PArrNext (v :: elems) stack'
  | FObj fields key :: stack' => PObjNext ((key, v) :: fields) stack'
  end.

Definition start_value (t : token) (stack : list frame) : option parser_state :=
  match t with
  | TScalar v => Some (complete v stack)
  | TString s => Some (complete (JStr s) stack)
  | TLBracket => Some (PArrOpen stack)
  | TLBrace => Some (PObjOpen stack)
  | _ => None
  end.

Definition parse_step (st : parser_state) (t : token) : option parser_state :=
  match st, t with
  | PValue stack, _ => start_value t stack
  | PArrOpen stack, TRBracket => Some (complete (JArr []) stack)
  | PArrOpen stack, _ => start_value t (FArr [] :: stack)
  | PArrNext elems stack, TComma => Some (PValue (FArr elems :: stack))
  | PArrNext elems stack, TRBracket => Some (complete (JArr (rev elems)) stack)
  | PObjOpen stack, TRBrace => Some (complete (JObj []) stack)
  | PObjOpen stack, TString k => Some (PColon [] k stack)
  | PKey fields stack, TString k => Some (PColon fields k stack)
  | PColon fields k stack, TColon => Some (PValue (FObj fields k :: stack))
  | PObjNext fields stack, TComma => Some (PKey fields stack)
  | PObjNext fields stack, TRBrace => Some (complete (JObj (rev fields)) stack)
  | _, _ => None
  end.

Fixpoint run (st : parser_state) (ts : list token) : option JSVal :=
  match ts with
  | [] => match st with PDone v => Some v | _ => None end
  | t :: ts' =>
      match parse_step st t with
      | Some st' => run st' ts'
      | None => None
      end
  end.

(** [JSON.parse(text)]: the value of a JSON text, or a [SyntaxError]. *)
Definition parse (text : jsstring) : outcome JSVal :=
  match lex Between text with
  | Some ts =>
      match run (PValue []) ts with
      | Some v => Returns v
      | None => Throws SyntaxError
      end
  | None => Throws SyntaxError
  end.

End JSON.

(** ** The operations of the language that the module applies to parsed values *)

Module Js.

(** [ToBoolean]. *)
Definition truthy (v : JSVal) : bool :=
  match v with
  | JUndefined | JNull => false
  | JBool b => b
  | JNum (S754_zero _) | JNum S754_nan => false
  | JNum _ => true
  | JStr s => nonempty s
  | JArr _ | JObj _ => true
  end.

(** [const { bbox } = v]: destructuring reads the property of anything
    but [null] and [undefined], which make it throw.  An object has the
    property if its text gave it one; arrays, strings, numbers and
    booleans have no property of that name. *)
Definition destructure_bbox (v : JSVal) : outcome JSVal :=
  match v with
  | JUndefined | JNull => Throws TypeError
  | JObj fields => Returns (get_own fields (js "bbox"))
  | _ => Returns JUndefined
  end.

(** [v.length], for a [v] that is neither [null] nor [undefined]. *)
Definition length (v : JSVal) : JSVal :=
  match v with
  | JArr elems => JNum (of_Z (Z.of_nat (List.length elems)))
  | JStr s => JNum (of_Z (Z.of_nat (List.length s)))
  | JObj fields => get_own fields (js "length")
  | _ => JUndefined
  end.

(** The property name of an array index: its decimal numeral. *)
Definition index_key (i : nat) : jsstring :=
  js (NilZero.string_of_uint (Nat.to_uint i)).

(** [v[i]], for a [v] that is neither [null] nor [undefined]. *)
Definition index (v : JSVal) (i : nat) : JSVal :=
  match v with
  | JArr elems => nth i elems JUndefined
  | JStr s => match nth_error s i with
              | Some c => JStr [c]
              | None => JUndefined
              end
  | JObj fields => get_own fields (index_key i)
  | _ => JUndefined
  end.

(** [v !== x] for a number [x]: only a number equal to [x] is not
    different from it. *)
Definition differs_from_number (v : JSVal) (x : number) : bool :=
  match v with
  | JNum y => negb (Number.strict_eq y x)
  | _ => true
  end.

End Js.

(** ** The data model of the module *)

Inductive UpdateReason : Type := CREATED | UPDATED | DELETED.

Inductive PageType : Type :=
| PageArticle | PageBook | PageFile | PageProfile | PageUnknown
| PageWebsite | PageHighlights.

Inductive HighlightType : Type := TypeHighlight | TypeNote | TypeRedaction.

Record Label : Type := { name : jsstring }.

Record Highlight : Type := {
  id : jsstring;
  quote : jsstring;
  annotation : jsstring;
  patch : jsstring;
  highlight_updatedAt : jsstring;
  highlight_labels : option (list Label);
  type : HighlightType
}.

Record Article : Type := {
  title : jsstring;
  siteName : jsstring;
  originalArticleUrl : jsstring;
  author : jsstring;
  description : jsstring;
  slug : jsstring;
  labels : option (list Label);
  highlights : option (list Highlight);
  updatedAt : jsstring;
  savedAt : jsstring;
  pageType : PageType;
  content : option jsstring;
  publishedAt : option jsstring
}.

(** The interface declares both coordinates as numbers; what the decoder
    puts there is whatever the patch holds at [bbox[0]] and [bbox[1]]. *)
Record HighlightPoint : Type := { left : JSVal; top : JSVal }.

(** The three response envelopes, field for field; in the first,
    [data.article.article] has the same name twice, [article_result]
    stands for the outer one. *)
Module Search.
Record Edge : Type := { node : Article }.
Record PageInfo : Type := { hasNextPage : bool }.
Record Connection : Type := { edges : list Edge; pageInfo : PageInfo }.
Record Data : Type := { search : Connection }.
Record Response : Type := { data : Data }.
End Search.

Module UpdatesSince.
Record Node : Type := { slug : jsstring }.
Record Edge : Type := { updateReason : UpdateReason; node : Node }.
Record PageInfo : Type := { hasNextPage : bool }.
Record Connection : Type := { edges : list Edge; pageInfo : PageInfo }.
Record Data : Type := { updatesSince : Connection }.
Record Response : Type := { data : Data }.
End UpdatesSince.

Module GetArticle.
Record Payload : Type := { article : Article }.
Record Data : Type := { article_result : Payload }.
Record Response : Type := { data : Data }.
End GetArticle.

Definition GetArticleResponse : Type := GetArticle.Response.
Definition SearchResponse : Type := Search.Response.
Definition UpdatesSinceResponse : Type := UpdatesSince.Response.

(** ** Highlight geometry *)

Definition origin : HighlightPoint :=
  {| left := JNum pos_zero; top := JNum pos_zero |}.

Definition getHighlightPoint (patch : jsstring) : outcome HighlightPoint :=
  parsed <- JSON.parse patch ;;
  bbox <- Js.destructure_bbox parsed ;;
  if negb (Js.truthy bbox) || Js.differs_from_number (Js.length bbox) (of_Z 4)
  then Returns origin
  else Returns {| left := Js.index bbox 0; top := Js.index bbox 1 |}.

(** [x === y] for two values that come out of two different calls of
    [JSON.parse]: primitives are compared by value, while an array or an
    object is only ever identical to itself, which two parses never yield. *)
Definition strict_equal (x y : JSVal) : bool :=
  match x, y with
  | JUndefined, JUndefined => true
  | JNull, JNull => true
  | JBool a, JBool b => Bool.eqb a b
  | JNum a, JNum b => Number.strict_eq a b
  | JStr a, JStr b => JsString.eqb a b
  | _, _ => false
  end.

Section Comparator.

(** [ToNumber] of a string, an array or an object goes through the
    language's number grammar and through [toString]; neither is
    embedded, the conversion of those three kinds is a parameter. *)
Variable coerce : JSVal -> number.

Definition ToNumber (v : JSVal) : number :=
  match v with
  | JUndefined => NaN
  | JNull => pos_zero
  | JBool true => of_Z 1
  | JBool false => pos_zero
  | JNum x => x
  | JStr _ | JArr _ | JObj _ => coerce v
  end.

Definition minus (x y : JSVal) : number :=
  Number.sub (ToNumber x) (ToNumber y).

Definition compareHighlightsInFile (a b : Highlight) : outcome number :=
  (* get the position of the highlight in the file *)
  highlightPointA <- getHighlightPoint (patch a) ;;
  highlightPointB <- getHighlightPoint (patch b) ;;
  if strict_equal (top highlightPointA) (top highlightPointB)
  then (* if top is same, sort by left *)
    Returns (minus (left highlightPointA) (left highlightPointB))
  else (* sort by top *)
    Returns (minus (top highlightPointA) (top highlightPointB)).

End Comparator.

(** ** Highlight location in a text document *)

(** What diff-match-patch hands back for one [@@ ... @@] segment: its
    edits, each an operation (-1, 0 or 1) and a text, and where it
    applies; the library declares [start1] and [start2] as
    [number | null]. *)
Record patch_obj : Type := {
  diffs : list (Z * jsstring);
  start1 : option number;
  start2 : option number;
  length1 : number;
  length2 : number
}.

Section Location.

(** [new diff_match_patch().patch_fromText]: the segments of a patch
    text, or an exception when the text is not a patch. *)
Variable patch_fromText : jsstring -> outcome (list patch_obj).

(** [x || 0] for [x : number | null]. *)
Definition or_zero (x : option number) : number :=
  match x with
  | Some n => if Js.truthy (JNum n) then n else pos_zero
  | None => pos_zero
  end.

Definition getHighlightLocation (patch : jsstring) : outcome number :=
  patches <- patch_fromText patch ;;
  match nth_error patches 0 with
  | Some first => Returns (or_zero (start1 first))
  | None => Throws TypeError   (* [patches[0]] is [undefined] *)
  end.

End Location.

(** ** The three fetchers *)

Definition ENDPOINT : jsstring := js "https://api-prod.omnivore.app/api/graphql".

Record RequestInit : Type := {
  headers : list (jsstring * jsstring);
  body : jsstring;
  method : jsstring
}.

Definition requestHeaders (apiKey : jsstring) : list (jsstring * jsstring) :=
  [ (js "Content-Type", js "application/json");
    (js "authorization", apiKey);
    (js "X-OmnivoreClient", js "logseq-plugin") ].

(** The request body of the single-article query is one template
    literal; these are its parts before and after the slug. *)
Definition getArticle_body_to_slug : jsstring :=
  jsq "{'query':'\n  query GetArticle(\n    $username: String!\n    $slug: String!\n  ) {\n    article(username: $username, slug: $slug) {\n      ... on ArticleSuccess {\n        article {\n          ...ArticleFields\n          highlights {\n            ...HighlightFields\n          }\n          labels {\n            ...LabelFields\n          }\n        }\n      }\n      ... on ArticleError {\n        errorCodes\n      }\n    }\n  }\n  \n  fragment ArticleFields on Article {\n    savedAt\n  }\n\n  \n  fragment HighlightFields on Highlight {\n  id\n  quote\n  annotation\n  }\n\n  \n  fragment LabelFields on Label {\n    name\n  }\n\n','variables':{'username':'me','slug':'".
Definition getArticle_body_end : jsstring := jsq "'}}".

(** The GraphQL document of the search. *)
Definition search_document : jsstring :=
  js "
        query Search($after: String, $first: Int, $query: String, $includeContent: Boolean, $format: String) {
          search(first: $first, after: $after, query: $query, includeContent: $includeContent, format: $format) {
            ... on SearchSuccess {
              edges {
                node {
                  title
                  slug
                  siteName
                  originalArticleUrl
                  url
                  author
                  updatedAt
                  description
                  savedAt
                  pageType
                  content
                  publishedAt
                  highlights {
                    id
                    quote
                    annotation
                    patch
                    updatedAt
                    labels {
                      name
                    }
                    type
                  }
                  labels {
                    name
                  }
                }
              }
              pageInfo {
                hasNextPage
              }
            }
            ... on SearchError {
              errorCodes
            }
          }
        }".

(** The request body of the updates-since query is one template literal;
    these are its fixed parts, up to each interpolation. *)
Definition updatesSince_body_to_after : jsstring :=
  jsq "{'query':'\n    query UpdatesSince($after: String, $first: Int, $since: Date!) {\n      updatesSince(first: $first, after: $after, since: $since) {\n        ... on UpdatesSinceSuccess {\n          edges {\n       updateReason\n        node {\n              slug\n        }\n          }\n          pageInfo {\n            hasNextPage\n          }\n        }\n        ... on UpdatesSinceError {\n          errorCodes\n        }\n      }\n    }\n  ','variables':{'after':'".
Definition updatesSince_body_to_first : jsstring := jsq "','first':".
Definition updatesSince_body_to_since : jsstring := jsq ", 'since':'".
Definition updatesSince_body_end : jsstring := jsq "'}}".

(** A parameter with a default value: [None] is an argument left out. *)
Definition default {A : Type} (d : A) (arg : option A) : A :=
  match arg with
  | Some a => a
  | None => d
  end.

Definition is_deleted (r : UpdateReason) : bool :=
  match r with
  | DELETED => true
  | _ => false
  end.

Section Network.

(** The transport: [fetch], and [res.json()] read at the type the call
    site casts it to.  Either may fail, which rejects the promise. *)
Variable Response : Type.
Variable fetch : jsstring -> RequestInit -> outcome Response.
Variable json_as_GetArticleResponse : Response -> outcome GetArticleResponse.
Variable json_as_SearchResponse : Response -> outcome SearchResponse.
Variable json_as_UpdatesSinceResponse :
  Response -> outcome UpdatesSinceResponse.

(** [JSON.stringify] and the conversion of a number to a string, both
    of which rest on the shortest decimal form of a double. *)
Variable JSON_stringify : JSVal -> jsstring.
Variable Number_toString : number -> jsstring.

Definition loadArticle_request (slug apiKey : jsstring) : RequestInit :=
  {| headers := requestHeaders apiKey;
     body := getArticle_body_to_slug ++ slug ++ getArticle_body_end;
     method := js "POST" |}.

Definition loadArticle (slug apiKey : jsstring) : outcome Article :=
  res <- fetch ENDPOINT (loadArticle_request slug apiKey) ;;
  response <- json_as_GetArticleResponse res ;;
  Returns (GetArticle.article
             (GetArticle.article_result (GetArticle.data response))).

(** The [query] variable of the search. *)
Definition search_query (updatedAt query : jsstring) : jsstring :=
  (if nonempty updatedAt then js "updated:" ++ updatedAt else [])
    ++ js " sort:saved-asc " ++ query.

Definition loadArticles_request
    (apiKey : jsstring) (after first : option number)
    (updatedAt query : option jsstring) (includeContent : option bool)
    (format : option jsstring) : RequestInit :=
  let after := default pos_zero after in
  let first := default (of_Z 10) first in
  let updatedAt := default [] updatedAt in
  let query := default [] query in
  let includeContent := default false includeContent in
  let format := default (js "html") format in
  {| headers := requestHeaders apiKey;
     body :=
       JSON_stringify
         (JObj
            [ (js "query", JStr search_document);
              (js "variables",
               JObj
                 [ (js "after", JStr (Number_toString after));
                   (js "first", JNum first);
                   (js "query", JStr (search_query updatedAt query));
                   (js "includeContent", JBool includeContent);
                   (js "format", JStr format) ]) ]);
     method := js "POST" |}.

Definition loadArticles
    (apiKey : jsstring) (after first : option number)
    (updatedAt query : option jsstring) (includeContent : option bool)
    (format : option jsstring) : outcome (list Article * bool) :=
  res <- fetch ENDPOINT
           (loadArticles_request apiKey after first updatedAt query
              includeContent format) ;;
  jsonRes <- json_as_SearchResponse res ;;
  let articles :=
    map Search.node (Search.edges (Search.search (Search.data jsonRes))) in
  Returns (articles,
           Search.hasNextPage
             (Search.pageInfo (Search.search (Search.data jsonRes)))).

(** [updatedAt || '2021-01-01']. *)
Definition since (updatedAt : jsstring) : jsstring :=
  if nonempty updatedAt then updatedAt else js "2021-01-01".

Definition loadDeletedArticleSlugs_request
    (apiKey : jsstring) (after first : option number)
    (updatedAt : option jsstring) : RequestInit :=
  let after := default pos_zero after in
  let first := default (of_Z 10) first in
  let updatedAt := default [] updatedAt in
  {| headers := requestHeaders apiKey;
     body :=
       updatesSince_body_to_after ++ Number_toString after
         ++ updatesSince_body_to_first ++ Number_toString first
         ++ updatesSince_body_to_since ++ since updatedAt
         ++ updatesSince_body_end;
     method := js "POST" |}.

Definition loadDeletedArticleSlugs
    (apiKey : jsstring) (after first : option number)
    (updatedAt : option jsstring) : outcome (list jsstring * bool) :=
  res <- fetch ENDPOINT
           (loadDeletedArticleSlugs_request apiKey after first updatedAt) ;;
  jsonRes <- json_as_UpdatesSinceResponse res ;;
  let deletedArticleSlugs :=
    map (fun edge => UpdatesSince.slug (UpdatesSince.node edge))
      (filter (fun edge => is_deleted (UpdatesSince.updateReason edge))
         (UpdatesSince.edges
            (UpdatesSince.updatesSince (UpdatesSince.data jsonRes)))) in
  Returns (deletedArticleSlugs,
           UpdatesSince.hasNextPage
             (UpdatesSince.pageInfo
                (UpdatesSince.updatesSince (UpdatesSince.data jsonRes)))).

End Network.

(** ** Text helpers *)

Definition DATE_FORMAT_W_OUT_SECONDS : jsstring := js "yyyy-MM-dd'T'HH:mm".
Definition DATE_FORMAT : jsstring := DATE_FORMAT_W_OUT_SECONDS ++ js ":ss".

Section Luxon.

(** luxon's [DateTime], of which the module reads [isValid] only, and
    [DateTime.fromFormat(text, fmt)], which answers a mismatch with an
    invalid [DateTime]. *)
Variable DateTime : Type.
Variable isValid : DateTime -> bool.
Variable fromFormat : jsstring -> jsstring -> DateTime.

Definition parseDateTime (str : jsstring) : DateTime :=
  let res := fromFormat str DATE_FORMAT in
  if isValid res then res
  else fromFormat str DATE_FORMAT_W_OUT_SECONDS.

End Luxon.

Section DateFns.

(** [Date], and date-fns's [format] with both additional kinds of tokens
    accepted; it throws on a format that it does not understand. *)
Variable Date : Type.
Variable format : Date -> jsstring -> outcome jsstring.

Definition formatDate (date : Date) (preferredDateFormat : jsstring)
  : outcome jsstring :=
  formatted <- format date preferredDateFormat ;;
  Returns (js "[[" ++ formatted ++ js "]]").

End DateFns.

(** What [console.error] received, call after call. *)
Definition console : Type := list (jsstring * exn).

Section MarkdownEscape.

(** The default export of markdown-escape. *)
Variable escape : jsstring -> outcome jsstring.

(** The string returned, and what the call wrote to the console. *)
Definition markdownEscape (text : jsstring) : jsstring * console :=
  match escape text with
  | Returns escaped => (escaped, [])
  | Throws e => (text, [(js "markdownEscape error", e)])
  end.

End MarkdownEscape.

(** [text.replace(/c/g, replacement)] for a pattern that is the single
    character [c] and a replacement without [$]: every occurrence, from
    left to right, gives way to the replacement. *)
Fixpoint replace_every (c : code_unit) (replacement text : jsstring) : jsstring :=
  match text with
  | [] => []
  | d :: text' =>
      if (d =? c)%N
      then replacement ++ replace_every c replacement text'
      else d :: replace_every c replacement text'
  end.

Definition quotation_mark : code_unit := 34%N.
Definition backslash : code_unit := 92%N.

Definition escapeQuotationMarks (text : jsstring) : jsstring :=
  replace_every quotation_mark [backslash; quotation_mark] text.

(** * Definitions that the properties are stated with *)

(** ** Well-formed numbers and values *)

Abbreviation fexp := (SpecFloat.fexp prec emax).

(** A number as [JSON.parse] yields them: a well-formed double, not NaN. *)
Definition from_json (x : number) : bool :=
  valid_binary prec emax x && negb (is_nan x).

(** A value as [JSON.parse] yields them. *)
Fixpoint is_json (v : JSVal) : bool :=
  match v with
  | JNum x => from_json x
  | JArr elems => forallb is_json elems
  | JObj fields => forallb (fun kv => is_json (snd kv)) fields
  | JUndefined => false
  | JNull | JBool _ | JStr _ => true
  end.

Definition token_ok (t : JSON.token) : bool :=
  match t with
  | JSON.TScalar v => is_json v
  | _ => true
  end.

Definition frame_ok (f : JSON.frame) : bool :=
  match f with
  | JSON.FArr elems => forallb is_json elems
  | JSON.FObj fields _ => forallb (fun kv => is_json (snd kv)) fields
  end.

Definition state_ok (st : JSON.parser_state) : bool :=
  match st with
  | JSON.PValue stack | JSON.PArrOpen stack | JSON.PObjOpen stack =>
      forallb frame_ok stack
  | JSON.PArrNext elems stack =>
      forallb is_json elems && forallb frame_ok stack
  | JSON.PKey fields stack | JSON.PColon fields _ stack
  | JSON.PObjNext fields stack =>
      forallb (fun kv => is_json (snd kv)) fields && forallb frame_ok stack
  | JSON.PDone v => is_json v
  end.

(** The last step of a rounding: what is left after the second shift. *)
Definition finish (s : bool) (p : shr_record * Z) : number :=
  match shr_m (fst p) with
  | Z0 => S754_zero s
  | Zpos m =>
      if snd p <=? emax - prec then S754_finite s m (snd p) else S754_infinity s
  | Zneg _ => S754_nan
  end.

(** What a rounding of a non-zero quantity returns: a well-formed number
    of the given sign, at an exponent not below [e1], or an infinity. *)
Definition rounded_to (s : bool) (e1 : Z) (x : number) : Prop :=
  match x with
  | S754_finite s' m e => s' = s /\ bounded prec emax m e = true /\ e1 <= e
  | S754_infinity s' => s' = s
  | _ => False
  end.

Definition same_infinity (x y : number) : bool :=
  match x, y with
  | S754_infinity s, S754_infinity s' => Bool.eqb s s'
  | _, _ => false
  end.

(** ** Reading order *)

(** The lexicographic order on (top, left), with the comparisons of the
    language: [<] and [===]. *)
Definition before (p q : number * number) : bool :=
  Number.ltb (fst p) (fst q)
  || (Number.strict_eq (fst p) (fst q) && Number.ltb (snd p) (snd q)).

Definition same_place (p q : number * number) : bool :=
  Number.strict_eq (fst p) (fst q) && Number.strict_eq (snd p) (snd q).

(** A number that is negative, zero or positive, and only one of them. *)
Definition one_sign (r : number) : bool :=
  match is_negative r, is_zero r, is_positive r with
  | true, false, false | false, true, false | false, false, true => true
  | _, _, _ => false
  end.

(** ** Patches without a bounding box *)

(** What a parsed patch offers as its [bbox]. *)
Definition bbox_of (v : JSVal) : JSVal :=
  match v with
  | JObj fields => get_own fields (js "bbox")
  | _ => JUndefined
  end.

Definition is_object (v : JSVal) : bool :=
  match v with
  | JObj _ => true
  | _ => false
  end.

(** The ways in which a patch value has no bounding box to take a point
    from: the field is missing, or is falsy, or is not of length 4. *)
Inductive without_box : JSVal -> Prop :=
| no_bbox_field (fields : list (jsstring * JSVal)) :
    (forall kv, In kv fields -> fst kv <> js "bbox") ->
    without_box (JObj fields)
| not_an_object (v : JSVal) :
    is_object v = false -> without_box v
| falsy_bbox (v : JSVal) :
    Js.truthy (bbox_of v) = false -> without_box v
| array_of_other_length (v : JSVal) (elems : list JSVal) :
    bbox_of v = JArr elems -> List.length elems <> 4%nat -> without_box v
| other_length (v : JSVal) :
    Js.differs_from_number (Js.length (bbox_of v)) (of_Z 4) = true ->
    without_box v.

(** ** Deleted slugs, and positions kept by a filter *)

(** The parts of the two responses that the fetchers read. *)
Definition search_edges (r : SearchResponse) : list Search.Edge :=
  Search.edges (Search.search (Search.data r)).

Definition search_hasNextPage (r : SearchResponse) : bool :=
  Search.hasNextPage (Search.pageInfo (Search.search (Search.data r))).

Definition updatesSince_edges (r : UpdatesSinceResponse)
  : list UpdatesSince.Edge :=
  UpdatesSince.edges (UpdatesSince.updatesSince (UpdatesSince.data r)).

Definition updatesSince_hasNextPage (r : UpdatesSinceResponse) : bool :=
  UpdatesSince.hasNextPage
    (UpdatesSince.pageInfo (UpdatesSince.updatesSince (UpdatesSince.data r))).

Definition node_slug (edge : UpdatesSince.Edge) : jsstring :=
  UpdatesSince.slug (UpdatesSince.node edge).

Definition deleted (edge : UpdatesSince.Edge) : bool :=
  is_deleted (UpdatesSince.updateReason edge).

(** The slugs of the deleted edges, one edge at a time. *)
Fixpoint deleted_slugs (edges : list UpdatesSince.Edge) : list jsstring :=
  match edges with
  | [] => []
  | edge :: edges' =>
      match UpdatesSince.updateReason edge with
      | DELETED => node_slug edge :: deleted_slugs edges'
      | CREATED | UPDATED => deleted_slugs edges'
      end
  end.

(** The positions, counted from [k], of the elements that [f] keeps. *)
Fixpoint kept_positions {A : Type} (f : A -> bool) (l : list A) (k : nat)
  : list nat :=
  match l with
  | [] => []
  | a :: l' =>
      if f a then k :: kept_positions f l' (S k)
      else kept_positions f l' (S k)
  end.

(** ** Quotation marks *)

(** What the escaping does to one code unit. *)
Definition escaped_unit (c : code_unit) : jsstring :=
  if (c =? quotation_mark)%N then [backslash; quotation_mark] else [c].

(** ** Stand-ins for what lies outside the repository

    The properties below hold for every behaviour of the libraries and
    of the server.  These stand-ins only serve to run the functions on
    examples. *)

Module Standin.

Definition highlight (patch : jsstring) : Highlight :=
  {| id := js "h"; quote := []; annotation := []; patch := patch;
     highlight_updatedAt := []; highlight_labels := None;
     type := TypeHighlight |}.

(** A coercion for operands that the examples never have. *)
Definition coerce (_ : JSVal) : number := NaN.

(** diff-match-patch on a text without segments, as the empty text is:
    [patch_fromText] returns the empty list there. *)
Definition no_segments (_ : jsstring) : outcome (list patch_obj) := Returns [].

(** A decoder that finds one segment, starting where it is told. *)
Definition one_segment (start : option number) (_ : jsstring)
  : outcome (list patch_obj) :=
  Returns [ {| diffs := []; start1 := start; start2 := start;
               length1 := of_Z 1; length2 := of_Z 1 |} ].

(** The whole number that a double is, if it is one. *)
Definition whole (x : number) : option Z :=
  match x with
  | S754_zero _ => Some 0
  | S754_finite s m e =>
      if 0 <=? e then Some (cond_Zopp s (Z.pos m * 2 ^ e))
      else if Z.pos m mod 2 ^ (- e) =? 0
           then Some (cond_Zopp s (Z.pos m / 2 ^ (- e)))
           else None
  | _ => None
  end.

(** [Number::toString] on the whole numbers that offsets and page sizes are. *)
Definition print_whole (x : number) : jsstring :=
  match whole x with
  | Some z => js (NilZero.string_of_int (Z.to_int z))
  | None => js "NaN"
  end.

(** [JSON.stringify] on what the module serializes: an object of
    strings, whole numbers, booleans and objects of the same, with names
    that are not array indices, so that the fields are written in the
    order given. *)
Definition hex_digit (n : N) : code_unit :=
  if (n <? 10)%N then (48 + n)%N else (87 + n)%N.

Definition quote_unit (c : code_unit) : jsstring :=
  match c with
  | 34%N => [backslash; 34%N]
  | 92%N => [backslash; 92%N]
  | 8%N => [backslash; 98%N]
  | 12%N => [backslash; 102%N]
  | 10%N => [backslash; 110%N]
  | 13%N => [backslash; 114%N]
  | 9%N => [backslash; 116%N]
  | _ =>
      if (c <? 32)%N
      then [backslash; 117%N; 48%N; 48%N; hex_digit (c / 16); hex_digit (c mod 16)]
      else [c]
  end.

Definition quoted (s : jsstring) : jsstring :=
  [quotation_mark] ++ flat_map quote_unit s ++ [quotation_mark].

Fixpoint separated (items : list jsstring) : jsstring :=
  match items with
  | [] => []
  | [item] => item
  | item :: items' => item ++ js "," ++ separated items'
  end.

Fixpoint stringify (v : JSVal) : jsstring :=
  match v with
  | JUndefined | JNull => js "null"
  | JBool true => js "true"
  | JBool false => js "false"
  | JNum x => if is_finite x then print_whole x else js "null"
  | JStr s => quoted s
  | JArr elems => js "[" ++ separated (map stringify elems) ++ js "]"
  | JObj fields =>
      js "{"
      ++ separated (map (fun kv => quoted (fst kv) ++ js ":" ++ stringify (snd kv))
                      fields)
      ++ js "}"
  end.

(** A decoder that rejects every text. *)
Definition rejecting (_ : jsstring) : outcome (list patch_obj) :=
  Throws (OtherError (js "Invalid patch string")).

(** A server with one answer to each of the two queries. *)
Definition server : Type := SearchResponse * UpdatesSinceResponse.

Definition fetch (answers : server) (_ : jsstring) (_ : RequestInit)
  : outcome server := Returns answers.

(** The same server behind a transport that only lets a POST to the
    endpoint through. *)
Definition strict_fetch (answers : server) (url : jsstring) (init : RequestInit)
  : outcome server :=
  if JsString.eqb url ENDPOINT && JsString.eqb (method init) (js "POST")
  then Returns answers
  else Throws (OtherError (js "unexpected request")).

Definition search_json (res : server) : outcome SearchResponse :=
  Returns (fst res).

Definition updatesSince_json (res : server) : outcome UpdatesSinceResponse :=
  Returns (snd res).

Definition article (slug : jsstring) : Article :=
  {| title := []; siteName := []; originalArticleUrl := []; author := [];
     description := []; slug := slug; labels := None; highlights := None;
     updatedAt := []; savedAt := []; pageType := PageArticle;
     content := None; publishedAt := None |}.

Definition search_response (nodes : list Article) (more : bool)
  : SearchResponse :=
  {| Search.data :=
       {| Search.search :=
            {| Search.edges := map Search.Build_Edge nodes;
               Search.pageInfo := {| Search.hasNextPage := more |} |} |} |}.

Definition updatesSince_response
    (updates : list (UpdateReason * jsstring)) (more : bool)
  : UpdatesSinceResponse :=
  {| UpdatesSince.data :=
       {| UpdatesSince.updatesSince :=
            {| UpdatesSince.edges :=
                 map (fun u =>
                        {| UpdatesSince.updateReason := fst u;
                           UpdatesSince.node :=
                             {| UpdatesSince.slug := snd u |} |})
                   updates;
               UpdatesSince.pageInfo :=
                 {| UpdatesSince.hasNextPage := more |} |} |} |}.

Definition answers : server :=
  ( search_response [article (js "a"); article (js "b")] true,
    updatesSince_response [(DELETED, js "a"); (UPDATED, js "b")] false ).

(** An escaping library that fails on the empty text and escapes
    asterisks elsewhere. *)
Definition escape (text : jsstring) : outcome jsstring :=
  match text with
  | [] => Throws TypeError
  | _ => Returns (replace_every 42%N [backslash; 42%N] text)
  end.

(** luxon on the two formats of the module: four digits of year, two of
    each other field, the separators, and the ranges of the calendar and
    of the clock.  An invalid [DateTime] is [None]. *)
Record fields : Type := {
  year : N; month : N; day : N; hour : N; minute : N; second : N
}.

Definition DateTime : Type := option fields.

Definition isValid (d : DateTime) : bool :=
  match d with
  | Some _ => true
  | None => false
  end.

Definition number_of (ds : list code_unit) : option N :=
  if forallb JSON.is_digit ds then Some (JSON.digits_value ds) else None.

Definition leap (y : N) : bool :=
  ((y mod 4 =? 0) && negb (y mod 100 =? 0) || (y mod 400 =? 0))%N.

Definition days_in (y m : N) : N :=
  match m with
  | 2%N => if leap y then 29%N else 28%N
  | 4%N | 6%N | 9%N | 11%N => 30%N
  | _ => 31%N
  end.

Definition in_range (f : fields) : bool :=
  ((1 <=? month f) && (month f <=? 12) && (1 <=? day f)
   && (day f <=? days_in (year f) (month f))
   && ((hour f <=? 23) || (hour f =? 24) && (minute f =? 0) && (second f =? 0))
   && (minute f <=? 59) && (second f <=? 59))%N.

Definition checked (y mo d h mi s : option N) : DateTime :=
  match y, mo, d, h, mi, s with
  | Some y, Some mo, Some d, Some h, Some mi, Some s =>
      let f := {| year := y; month := mo; day := d;
                  hour := h; minute := mi; second := s |} in
      if in_range f then Some f else None
  | _, _, _, _, _, _ => None
  end.

Definition is_T (c : code_unit) : bool := ((c =? 84) || (c =? 116))%N.

Definition fromFormat (str fmt : jsstring) : DateTime :=
  if JsString.eqb fmt DATE_FORMAT then
    match str with
    | [y1; y2; y3; y4; 45; m1; m2; 45; d1; d2; t; h1; h2; 58; n1; n2; 58; s1; s2]%N =>
        if is_T t
        then checked (number_of [y1; y2; y3; y4]) (number_of [m1; m2])
               (number_of [d1; d2]) (number_of [h1; h2])
               (number_of [n1; n2]) (number_of [s1; s2])
        else None
    | _ => None
    end
  else if JsString.eqb fmt DATE_FORMAT_W_OUT_SECONDS then
    match str with
    | [y1; y2; y3; y4; 45; m1; m2; 45; d1; d2; t; h1; h2; 58; n1; n2]%N =>
        if is_T t
        then checked (number_of [y1; y2; y3; y4]) (number_of [m1; m2])
               (number_of [d1; d2]) (number_of [h1; h2])
               (number_of [n1; n2]) (Some 0%N)
        else None
    | _ => None
    end
  else None.

End Standin.

(** ** Texts between quotation marks, and the tokenizer run on a prefix *)

(** A code unit that a JSON string holds as it is: neither the quotation
    mark nor the backslash nor a control character. *)
Definition plain_unit (c : code_unit) : bool :=
  negb (c =? 34)%N && negb (c =? 92)%N && (32 <=? c)%N.

Definition plain (s : jsstring) : bool := forallb plain_unit s.

(** A text without quotation mark. *)
Definition no_mark (s : jsstring) : bool :=
  forallb (fun c => negb (c =? quotation_mark)%N) s.

(** A code unit that continues a word. *)
Definition word_unit (c : code_unit) : bool :=
  negb (JSON.is_ws c) && negb (c =? 34)%N
  && match JSON.punctuation c with Some _ => false | None => true end.

(** A code unit with which no JSON text begins: it is not white space,
    opens no string, array or object, and begins neither a number nor one
    of the three literals. *)
Definition begins_no_value (c : code_unit) : bool :=
  negb (JSON.is_ws c) && negb (c =? 34)%N && negb (c =? 91)%N
  && negb (c =? 123)%N && negb (c =? 45)%N && negb (JSON.is_digit c)
  && negb (c =? 110)%N && negb (c =? 116)%N && negb (c =? 102)%N.

(** The tokenizer on the first part of a text: where it stands after it,
    and the tokens it has found. *)
Fixpoint feed (st : JSON.lexer_state) (text : jsstring)
  : option (JSON.lexer_state * list JSON.token) :=
  match text with
  | [] => Some (st, [])
  | c :: text' =>
      match JSON.lex_step st c with
      | Some (st', ts) =>
          match feed st' text' with
          | Some (st'', ts') => Some (st'', ts ++ ts')
          | None => None
          end
      | None => None
      end
  end.

Definition then_feed (r : option (JSON.lexer_state * list JSON.token))
    (text : jsstring) : option (JSON.lexer_state * list JSON.token) :=
  match r with
  | Some (st, ts) =>
      match feed st text with
      | Some (st', ts') => Some (st', ts ++ ts')
      | None => None
      end
  | None => None
  end.

Definition at_end (st : JSON.lexer_state) : option (list JSON.token) :=
  JSON.lex st [].

(** The tokenizer is not inside a string. *)
Definition outside (st : JSON.lexer_state) : bool :=
  match st with
  | JSON.InString _ _ => false
  | _ => true
  end.

(** ** The GraphQL documents, as a server reads them in a request body *)

Definition query_of (text : jsstring) : jsstring :=
  match JSON.parse text with
  | Returns (JObj fields) =>
      match get_own fields (js "query") with
      | JStr document => document
      | _ => []
      end
  | _ => []
  end.

Definition getArticle_document : jsstring :=
  query_of (getArticle_body_to_slug ++ getArticle_body_end).

Definition updatesSince_document : jsstring :=
  query_of (updatesSince_body_to_after ++ js "0" ++ updatesSince_body_to_first
              ++ js "0" ++ updatesSince_body_to_since ++ updatesSince_body_end).

(** ** The order of the numbers *)

(** Where a number stands among the numbers: its class (infinities,
    negatives, zeros, positives), then its exponent, then its mantissa,
    the last two counted downwards for a negative number. *)
Definition rank (x : number) : Z * Z * Z :=
  match x with
  | S754_zero _ | S754_nan => (0, 0, 0)
  | S754_infinity s => (if s then -2 else 2, 0, 0)
  | S754_finite s m e =>
      if s then (-1, - e, - Z.pos m) else (1, e, Z.pos m)
  end.

Definition rank_lt (a b : Z * Z * Z) : Prop :=
  let '(a1, a2, a3) := a in
  let '(b1, b2, b3) := b in
  a1 < b1 \/ (a1 = b1 /\ (a2 < b2 \/ (a2 = b2 /\ a3 < b3))).

(** The result of the comparator on two numeric points, as a function of
    the coordinates. *)
Definition difference (ta la tb lb : number) : number :=
  if Number.strict_eq ta tb then Number.sub la lb else Number.sub ta tb.

(** ** More stand-ins *)

Module Sample.

Definition article_response (a : Article) : GetArticleResponse :=
  {| GetArticle.data :=
       {| GetArticle.article_result := {| GetArticle.article := a |} |} |}.

(** A server of articles: it reads the request body as JSON and answers
    with the article whose slug the [variables] name. *)
Definition article_server (url : jsstring) (init : RequestInit)
  : outcome GetArticleResponse :=
  if JsString.eqb url ENDPOINT && JsString.eqb (method init) (js "POST") then
    match JSON.parse (body init) with
    | Returns (JObj fields) =>
        match get_own fields (js "variables") with
        | JObj variables =>
            match get_own variables (js "slug") with
            | JStr slug =>
                Returns (article_response (Standin.article slug))
            | _ => Throws (OtherError (js "Bad Request"))
            end
        | _ => Throws (OtherError (js "Bad Request"))
        end
    | _ => Throws (OtherError (js "Bad Request"))
    end
  else Throws (OtherError (js "unexpected request")).

Definition article_json (res : GetArticleResponse)
  : outcome GetArticleResponse := Returns res.

(** A transport without network. *)
Definition offline (R : Type) (_ : jsstring) (_ : RequestInit) : outcome R :=
  Throws (OtherError (js "Failed to fetch")).

(** A response whose body is not JSON. *)
Definition undecodable (R T : Type) (_ : R) : outcome T := Throws SyntaxError.

(** A page of updates in which one article was deleted twice. *)
Definition deleted_twice : Standin.server :=
  ( Standin.search_response [] false,
    Standin.updatesSince_response
      [(DELETED, js "a"); (UPDATED, js "b"); (DELETED, js "a")] true ).

End Sample.

(** * Facts *)

(** ** Strings *)

Lemma JsString_eqb_eq (s t : jsstring) : JsString.eqb s t = true <-> s = t.
Proof.
  unfold JsString.eqb. destruct (list_eq_dec N.eq_dec s t); split; congruence.
Qed.

(** ** Binary digits and shifts *)

Lemma fexp_eq (x : Z) : fexp x = Z.max (x - 53) (-1074).
Proof. reflexivity. Qed.

Lemma digits2_pos_size (p : positive) : digits2_pos p = Pos.size p.
Proof. induction p; simpl; congruence. Qed.

Lemma Zdigits2_log2 (m : Z) : 0 < m -> Zdigits2 m = Z.log2 m + 1.
Proof.
  destruct m as [|p|p]; try lia. intros _. simpl.
  rewrite digits2_pos_size.
  destruct p; simpl; lia.
Qed.

Lemma Zdigits2_nonneg (m : Z) : 0 <= Zdigits2 m.
Proof. destruct m; simpl; lia. Qed.

Lemma Zdigits2_pos (m : Z) : 0 < m -> 0 < Zdigits2 m.
Proof. destruct m; simpl; lia. Qed.

Lemma Zdigits2_bounds (m : Z) :
  0 < m -> 2 ^ (Zdigits2 m - 1) <= m < 2 ^ Zdigits2 m.
Proof.
  intros H. rewrite Zdigits2_log2 by assumption.
  replace (Z.log2 m + 1 - 1) with (Z.log2 m) by lia.
  apply Z.log2_spec. assumption.
Qed.

Lemma Zdigits2_unique (m k : Z) :
  0 < k -> 2 ^ (k - 1) <= m < 2 ^ k -> Zdigits2 m = k.
Proof.
  intros Hk H.
  assert (0 < m) by (pose proof (Z.pow_pos_nonneg 2 (k - 1)); lia).
  rewrite Zdigits2_log2 by assumption.
  enough (Z.log2 m = k - 1) by lia.
  apply Z.log2_unique; [lia|]. replace (Z.succ (k - 1)) with k by lia. assumption.
Qed.

Lemma Zdigits2_shiftr (m n : Z) :
  0 < m -> 0 <= n -> Zdigits2 (Z.shiftr m n) = Z.max 0 (Zdigits2 m - n).
Proof.
  intros Hm Hn.
  destruct (Z.le_gt_cases (Zdigits2 m) n) as [Hle|Hgt].
  - pose proof (Zdigits2_bounds Hm) as [_ Hb].
    assert (Z.shiftr m n = 0) as ->.
    { rewrite Z.shiftr_div_pow2 by assumption. apply Z.div_small.
      split; [lia|]. eapply Z.lt_le_trans; [eassumption|].
      apply Z.pow_le_mono_r; lia. }
    simpl. lia.
  - rewrite Z.max_r by lia.
    apply Zdigits2_unique; [lia|].
    pose proof (Zdigits2_bounds Hm) as [Hlo Hhi].
    rewrite Z.shiftr_div_pow2 by assumption.
    assert (0 < 2 ^ n) by (apply Z.pow_pos_nonneg; lia).
    split.
    + apply Z.div_le_lower_bound; [assumption|].
      rewrite <- Z.pow_add_r by lia.
      replace (n + (Zdigits2 m - n - 1)) with (Zdigits2 m - 1) by lia. assumption.
    + apply Z.div_lt_upper_bound; [assumption|].
      rewrite <- Z.pow_add_r by lia.
      replace (n + (Zdigits2 m - n)) with (Zdigits2 m) by lia. assumption.
Qed.

Lemma shiftr_pos (m n : Z) :
  0 < m -> 0 <= n -> n < Zdigits2 m -> 0 < Z.shiftr m n.
Proof.
  intros Hm Hn Hlt.
  pose proof (Zdigits2_shiftr Hm Hn) as H.
  pose proof (Z.shiftr_nonneg m n) as [_ Hnn].
  specialize (Hnn ltac:(lia)).
  destruct (Z.eq_dec (Z.shiftr m n) 0) as [E|]; [|lia].
  rewrite E in H. simpl in H. lia.
Qed.

(** The digits of a successor: the same, or one more at a power of two. *)
Lemma Zdigits2_succ (m : Z) :
  0 < m ->
  Zdigits2 (m + 1) = Zdigits2 m \/
  (Zdigits2 (m + 1) = Zdigits2 m + 1 /\ m + 1 = 2 ^ Zdigits2 m).
Proof.
  intros Hm.
  pose proof (Zdigits2_bounds Hm) as [Hlo Hhi].
  destruct (Z.eq_dec (m + 1) (2 ^ Zdigits2 m)) as [E|NE].
  - right. split; [|assumption].
    apply Zdigits2_unique.
    + pose proof (Zdigits2_pos Hm). lia.
    + replace (Zdigits2 m + 1 - 1) with (Zdigits2 m) by lia.
      rewrite Z.pow_add_r by (pose proof (Zdigits2_nonneg m); lia). lia.
  - left. apply Zdigits2_unique.
    + apply Zdigits2_pos; assumption.
    + lia.
Qed.

(** ** Shifts to the right, as the rounding carries them out *)

Lemma shr_1_m (mrs : shr_record) :
  0 <= shr_m mrs -> shr_m (shr_1 mrs) = Z.shiftr (shr_m mrs) 1.
Proof.
  destruct mrs as [m r s]. simpl. intros H.
  rewrite Z.shiftr_div_pow2 by lia. change (2 ^ 1) with 2.
  destruct m as [|p|p]; try lia; [reflexivity|].
  destruct p; simpl shr_m.
  - rewrite Pos2Z.inj_xI. apply Z.div_unique with 1; lia.
  - rewrite Pos2Z.inj_xO. apply Z.div_unique with 0; lia.
  - reflexivity.
Qed.

Lemma iter_shr_1_m (p : positive) : forall mrs,
  0 <= shr_m mrs ->
  shr_m (iter_pos shr_1 p mrs) = Z.shiftr (shr_m mrs) (Zpos p).
Proof.
  induction p as [p IH|p IH|]; intros mrs H; simpl iter_pos.
  - assert (H1 : 0 <= shr_m (shr_1 mrs))
      by (rewrite shr_1_m by assumption; apply Z.shiftr_nonneg; assumption).
    assert (H2 : 0 <= shr_m (iter_pos shr_1 p (shr_1 mrs)))
      by (rewrite IH by assumption; apply Z.shiftr_nonneg; assumption).
    rewrite (IH _ H2), (IH _ H1), (shr_1_m _ H).
    rewrite !Z.shiftr_shiftr by lia. f_equal. lia.
  - assert (H2 : 0 <= shr_m (iter_pos shr_1 p mrs))
      by (rewrite IH by assumption; apply Z.shiftr_nonneg; assumption).
    rewrite (IH _ H2), (IH _ H).
    rewrite !Z.shiftr_shiftr by lia. f_equal. lia.
  - apply shr_1_m. assumption.
Qed.

Lemma shr_record_of_loc_m (m : Z) (l : location) : shr_m (shr_record_of_loc m l) = m.
Proof. destruct l as [|[]]; reflexivity. Qed.

Lemma round_nearest_even_cases (m : Z) (l : location) :
  round_nearest_even m l = m \/ round_nearest_even m l = m + 1.
Proof. destruct l as [|[]]; simpl; auto. destruct (Z.even m); auto. Qed.


(** ** Rounding *)

Lemma fexp_ge_emin (x : Z) : -1074 <= fexp x.
Proof. rewrite fexp_eq. lia. Qed.

Lemma fexp_mono (x y : Z) : x <= y -> fexp x <= fexp y.
Proof. rewrite !fexp_eq. lia. Qed.

Lemma shr_spec (mrs : shr_record) (e n : Z) :
  0 <= shr_m mrs ->
  shr_m (fst (shr mrs e n)) = Z.shiftr (shr_m mrs) (Z.max 0 n) /\
  snd (shr mrs e n) = e + Z.max 0 n.
Proof.
  intros Hm. destruct n as [|p|p]; simpl.
  - split; [reflexivity | lia].
  - split; [apply iter_shr_1_m; assumption | reflexivity].
  - split; [reflexivity | lia].
Qed.

Lemma shr_fexp_spec (m e : Z) (l : location) :
  0 <= m ->
  let n := Z.max 0 (fexp (Zdigits2 m + e) - e) in
  shr_m (fst (shr_fexp prec emax m e l)) = Z.shiftr m n /\
  snd (shr_fexp prec emax m e l) = e + n.
Proof.
  intros Hm n. unfold shr_fexp.
  pose proof (@shr_spec (shr_record_of_loc m l) e (fexp (Zdigits2 m + e) - e)) as H.
  rewrite shr_record_of_loc_m in H. apply H. assumption.
Qed.

Lemma binary_round_aux_finish (s : bool) (m e : Z) (l : location) :
  binary_round_aux prec emax s m e l =
  let p := shr_fexp prec emax m e l in
  finish s (shr_fexp prec emax
              (round_nearest_even (shr_m (fst p)) (loc_of_shr_record (fst p)))
              (snd p) loc_Exact).
Proof.
  unfold binary_round_aux, finish.
  destruct (shr_fexp prec emax m e l) as [mrs1 e1]. cbn [fst snd].
  destruct (shr_fexp prec emax _ e1 loc_Exact) as [mrs2 e2]. reflexivity.
Qed.

Lemma finish_positive (s : bool) (m2 e1 : Z) :
  0 < m2 -> -1074 <= e1 -> e1 <= fexp (Zdigits2 m2 + e1) ->
  rounded_to s e1 (finish s (shr_fexp prec emax m2 e1 loc_Exact)).
Proof.
  intros Hm Hlo Hhi.
  destruct (@shr_fexp_spec m2 e1 loc_Exact ltac:(lia)) as [Em Ee].
  set (n := Z.max 0 (fexp (Zdigits2 m2 + e1) - e1)) in *.
  assert (Hn : n = fexp (Zdigits2 m2 + e1) - e1) by lia.
  assert (Hnd : n < Zdigits2 m2).
  { pose proof (Zdigits2_pos Hm). rewrite Hn, fexp_eq. lia. }
  pose proof (@shiftr_pos m2 n Hm ltac:(lia) Hnd) as Hpos.
  pose proof (@Zdigits2_shiftr m2 n Hm ltac:(lia)) as Hd.
  unfold finish. rewrite Em, Ee.
  destruct (Z.shiftr m2 n) as [|q|q] eqn:Eq; try lia.
  destruct (e1 + n <=? emax - prec) eqn:Ele; simpl; [|reflexivity].
  split; [reflexivity|]. split; [|lia].
  unfold bounded, canonical_mantissa. rewrite Ele, andb_true_r.
  apply Z.eqb_eq.
  change (Z.pos (digits2_pos q)) with (Zdigits2 (Z.pos q)).
  rewrite Hd. replace (Z.max 0 (Zdigits2 m2 - n) + (e1 + n)) with (Zdigits2 m2 + e1) by lia.
  lia.
Qed.

Lemma finish_zero (s : bool) (e1 : Z) :
  e1 = -1074 -> finish s (shr_fexp prec emax 0 e1 loc_Exact) = S754_zero s.
Proof. intros ->. reflexivity. Qed.

(** The rounding of [m * 2 ^ e], given with at least the precision of the
    format: zero only if nothing is left of [m] at the exponent of the
    result, otherwise a well-formed number of the given sign. *)
Lemma binary_round_aux_cases (s : bool) (m e : Z) (l : location) :
  0 <= m -> e <= fexp (Zdigits2 m + e) ->
  let e1 := fexp (Zdigits2 m + e) in
  let x := binary_round_aux prec emax s m e l in
  (x = S754_zero s /\ Z.shiftr m (e1 - e) = 0) \/ rounded_to s e1 x.
Proof.
  intros Hm He e1 x. subst x. rewrite binary_round_aux_finish. cbn zeta.
  destruct (@shr_fexp_spec m e l Hm) as [Em Ee].
  replace (Z.max 0 (fexp (Zdigits2 m + e) - e)) with (e1 - e) in * by (subst e1; lia).
  rewrite Ee. replace (e + (e1 - e)) with e1 by lia.
  set (m1 := shr_m (fst (shr_fexp prec emax m e l))) in *.
  assert (Hm1 : 0 <= m1) by (rewrite Em; apply Z.shiftr_nonneg; assumption).
  assert (He1 : -1074 <= e1) by apply fexp_ge_emin.
  set (m2 := round_nearest_even m1 _).
  assert (Hm2 : m2 = m1 \/ m2 = m1 + 1) by apply round_nearest_even_cases.
  (* the exponent of the result is canonical for whatever is left of [m] *)
  assert (Hcan : 0 < m1 -> fexp (Zdigits2 m1 + e1) = e1).
  { intros Hpos. assert (0 < m) by (destruct (Z.eq_dec m 0) as [->|]; [rewrite Z.shiftr_0_l in Em|]; lia).
    rewrite Em, Zdigits2_shiftr by lia.
    assert (e1 - e < Zdigits2 m).
    { destruct (Z.le_gt_cases (Zdigits2 m) (e1 - e)); [|lia].
      rewrite Em in Hpos. pose proof (@Zdigits2_shiftr m (e1 - e) ltac:(lia) ltac:(lia)) as Hd.
      rewrite Z.max_l in Hd by lia. pose proof (Zdigits2_pos Hpos). lia. }
    replace (Z.max 0 (Zdigits2 m - (e1 - e)) + e1) with (Zdigits2 m + e) by lia.
    reflexivity. }
  assert (Hlow : m1 = 0 -> e1 = -1074).
  { intros H0. destruct (Z.eq_dec m 0) as [->|Hne].
    - subst e1. simpl Zdigits2 in *. rewrite fexp_eq in *. lia.
    - assert (0 < m) by lia.
      pose proof (@Zdigits2_shiftr m (e1 - e) ltac:(lia) ltac:(lia)) as Hd.
      rewrite <- Em, H0 in Hd. simpl in Hd.
      subst e1. rewrite fexp_eq in *. lia. }
  destruct (Z.eq_dec m2 0) as [E0|NE].
  - left. assert (m1 = 0) by lia. split; [|lia].
    rewrite E0. apply finish_zero. auto.
  - right. apply finish_positive; [lia|lia|].
    destruct (Z.eq_dec m1 0) as [E1|NE1].
    + rewrite (Hlow E1). apply fexp_ge_emin.
    + rewrite <- (Hcan ltac:(lia)) at 1. apply fexp_mono.
      destruct Hm2 as [->| ->]; [lia|].
      destruct (@Zdigits2_succ m1 ltac:(lia)) as [->|[-> _]]; lia.
Qed.


(** ** Alignment *)

Lemma Zdigits2_mul_pow2 (m k : Z) :
  0 < m -> 0 <= k -> Zdigits2 (m * 2 ^ k) = Zdigits2 m + k.
Proof.
  intros Hm Hk. pose proof (Zdigits2_bounds Hm) as [Hlo Hhi].
  pose proof (Zdigits2_pos Hm).
  assert (0 < 2 ^ k) by (apply Z.pow_pos_nonneg; lia).
  apply Zdigits2_unique; [lia|].
  replace (Zdigits2 m + k - 1) with (Zdigits2 m - 1 + k) by lia.
  rewrite !Z.pow_add_r by lia. split; nia.
Qed.

Lemma iter_xO (d p : positive) : Z.pos (Pos.iter xO p d) = Z.pos p * 2 ^ Z.pos d.
Proof.
  induction d as [|d IH] using Pos.peano_ind.
  - simpl. lia.
  - rewrite Pos.iter_succ, Pos2Z.inj_xO, IH, Pos2Z.inj_succ, Z.pow_succ_r by lia.
    lia.
Qed.

Lemma shl_align_spec (p : positive) (e e' : Z) :
  let ez := Z.min e e' in
  snd (shl_align p e e') = ez /\
  Z.pos (fst (shl_align p e e')) = Z.pos p * 2 ^ (e - ez).
Proof.
  intros ez. subst ez. unfold shl_align.
  destruct (e' - e) as [|d|d] eqn:E; cbn [fst snd].
  - rewrite Z.min_l by lia. rewrite Z.sub_diag. split; [reflexivity|lia].
  - rewrite Z.min_l by lia. rewrite Z.sub_diag. split; [reflexivity|lia].
  - rewrite Z.min_r by lia. split; [reflexivity|].
    rewrite iter_xO. do 2 f_equal. lia.
Qed.

Lemma binary_round_cases (s : bool) (p : positive) (e : Z) :
  let e1 := fexp (Zdigits2 (Z.pos p) + e) in
  let x := binary_round prec emax s p e in
  (x = S754_zero s /\ e < -1074) \/ rounded_to s e1 x.
Proof.
  intros e1 x. subst x. unfold binary_round.
  change (Z.pos (digits2_pos p)) with (Zdigits2 (Z.pos p)). fold e1.
  destruct (shl_align_spec p e e1) as [Ee Em].
  destruct (shl_align p e e1) as [mz ez]. cbn [fst snd] in *.
  assert (Hk : 0 <= e - ez) by lia.
  assert (Hd : Zdigits2 (Z.pos mz) + ez = Zdigits2 (Z.pos p) + e).
  { rewrite Em, Zdigits2_mul_pow2 by lia. lia. }
  pose proof (@binary_round_aux_cases s (Z.pos mz) ez loc_Exact ltac:(lia)) as H.
  rewrite Hd in H. fold e1 in H. specialize (H ltac:(lia)). cbn zeta in H.
  destruct H as [[H0 Hz]|H]; [left|right; exact H].
  split; [exact H0|].
  destruct (Z.lt_ge_cases e (-1074)) as [|Hge]; [assumption|exfalso].
  assert (e1 - ez < Zdigits2 (Z.pos mz)).
  { pose proof (@Zdigits2_pos (Z.pos p) ltac:(lia)).
    subst e1. rewrite fexp_eq in *. lia. }
  pose proof (@shiftr_pos (Z.pos mz) (e1 - ez) ltac:(lia) ltac:(lia) ltac:(lia)). lia.
Qed.

(** ** The numbers of a JSON text are well formed *)

Lemma rounded_to_from_json (s : bool) (e1 : Z) (x : number) :
  rounded_to s e1 x -> from_json x = true.
Proof.
  destruct x; simpl; try tauto. intros (_ & H & _). unfold from_json.
  simpl. rewrite H. reflexivity.
Qed.

Lemma binary_round_from_json (s : bool) (p : positive) (e : Z) :
  from_json (binary_round prec emax s p e) = true.
Proof.
  destruct (binary_round_cases s p e) as [[-> _]|H]; [reflexivity|].
  eapply rounded_to_from_json; eassumption.
Qed.

(** The quotient that a division hands to the rounding has at least the
    precision of the format. *)
Lemma Zdigits2_lower (q k : Z) : 0 <= k -> 2 ^ k <= q -> k + 1 <= Zdigits2 q.
Proof.
  intros Hk H. assert (Hq : 0 < q) by (pose proof (Z.pow_pos_nonneg 2 k); lia).
  pose proof (Zdigits2_bounds Hq) as [_ Hhi].
  assert (2 ^ k < 2 ^ Zdigits2 q) by lia.
  apply Z.pow_lt_mono_r_iff in H0; try lia. apply Zdigits2_nonneg.
Qed.

Lemma div_core_precise (m1 m2 : Z) :
  0 < m1 -> 0 < m2 ->
  let '(q, e, _) := SFdiv_core_binary prec emax m1 0 m2 0 in
  0 <= q /\ e <= fexp (Zdigits2 q + e).
Proof.
  intros H1 H2. unfold SFdiv_core_binary.
  set (d1 := Zdigits2 m1). set (d2 := Zdigits2 m2).
  replace (d1 + 0 - (d2 + 0)) with (d1 - d2) by lia.
  set (e' := Z.min (fexp (d1 - d2)) (0 - 0)).
  set (s := 0 - 0 - e').
  assert (Hs : 0 <= s) by (subst s e'; lia).
  assert (He' : e' = - s) by (subst s; lia).
  assert (Hm' : match s with Z.pos _ => Z.shiftl m1 s | 0 => m1 | Z.neg _ => 0 end = m1 * 2 ^ s).
  { destruct s; try lia. rewrite Z.shiftl_mul_pow2; lia. }
  rewrite Hm'.
  assert (Hp : 0 < 2 ^ s) by (apply Z.pow_pos_nonneg; lia).
  pose proof (Z_div_mod (m1 * 2 ^ s) m2 ltac:(lia)) as Hdiv.
  destruct (Z.div_eucl (m1 * 2 ^ s) m2) as [q r]. destruct Hdiv as [Hq Hr].
  assert (Hq0 : 0 <= q) by nia.
  split; [assumption|].
  pose proof (Zdigits2_bounds H1) as [Hlo1 _]. fold d1 in Hlo1.
  pose proof (Zdigits2_bounds H2) as [_ Hhi2]. fold d2 in Hhi2.
  pose proof (Zdigits2_pos H1) as Hd1. fold d1 in Hd1.
  pose proof (Zdigits2_pos H2) as Hd2. fold d2 in Hd2.
  assert (Hdig : d1 - d2 <= Zdigits2 q + e').
  { destruct (Z.le_gt_cases (d1 + s - d2) 0) as [Hsmall|Hbig].
    - pose proof (Zdigits2_nonneg q). lia.
    - enough (d1 + s - d2 - 1 + 1 <= Zdigits2 q) by lia.
      apply Zdigits2_lower; [lia|].
      (* 2^(d1-1+s) <= m1 * 2^s < (q+1) * m2 < (q+1) * 2^d2 *)
      assert (Hlow : 2 ^ (d1 - 1 + s) <= m1 * 2 ^ s)
        by (rewrite Z.pow_add_r by lia; nia).
      assert (Hsplit : 2 ^ (d1 - 1 + s) = 2 ^ (d1 + s - d2 - 1) * 2 ^ d2)
        by (rewrite <- Z.pow_add_r by lia; f_equal; lia).
      assert (0 < 2 ^ (d1 + s - d2 - 1)) by (apply Z.pow_pos_nonneg; lia).
      assert (0 < 2 ^ d2) by (apply Z.pow_pos_nonneg; lia).
      nia. }
  etransitivity; [|apply fexp_mono; exact Hdig].
  subst e'. lia.
Qed.

Lemma of_decimal_from_json (neg : bool) (m : N) (e10 : Z) :
  from_json (of_decimal neg m e10) = true.
Proof.
  unfold of_decimal. destruct m as [|p]; [reflexivity|].
  destruct (0 <=? e10) eqn:E; [apply binary_round_from_json|].
  assert (H10 : 0 < 10 ^ (- e10)) by (apply Z.pow_pos_nonneg; lia).
  pose proof (@div_core_precise (Z.pos p) (10 ^ (- e10)) ltac:(lia) H10) as H.
  destruct (SFdiv_core_binary prec emax (Z.pos p) 0 (10 ^ (- e10)) 0) as [[q e] l].
  destruct H as [Hq He].
  destruct (@binary_round_aux_cases neg q e l Hq He) as [[-> _]|H]; [reflexivity|].
  eapply rounded_to_from_json; eassumption.
Qed.


(** ** The order of two numbers and the sign of their difference *)

Lemma bounded_inv (m : positive) (e : Z) :
  bounded prec emax m e = true ->
  -1074 <= e <= 971 /\ Zdigits2 (Z.pos m) <= 53 /\
  (-1074 < e -> Zdigits2 (Z.pos m) = 53).
Proof.
  unfold bounded, canonical_mantissa. intros H.
  apply andb_true_iff in H. destruct H as [Hc He].
  apply Z.eqb_eq in Hc. apply Z.leb_le in He.
  change (Z.pos (digits2_pos m)) with (Zdigits2 (Z.pos m)) in Hc.
  rewrite fexp_eq in Hc. change (emax - prec) with 971 in He. lia.
Qed.

(** Two well-formed mantissas, brought to the smaller of their exponents,
    compare as the numbers do: by exponent first. *)
Lemma aligned_compare (mx my : positive) (ex ey : Z) :
  bounded prec emax mx ex = true -> bounded prec emax my ey = true ->
  let ez := Z.min ex ey in
  (Z.pos (fst (shl_align mx ex ez)) ?= Z.pos (fst (shl_align my ey ez))) =
  match ex ?= ey with
  | Lt => Lt
  | Gt => Gt
  | Eq => Pos.compare_cont Eq mx my
  end.
Proof.
  intros Hx Hy ez.
  destruct (@bounded_inv _ _ Hx) as (Hex & Hdx & Hnx).
  destruct (@bounded_inv _ _ Hy) as (Hey & Hdy & Hny).
  destruct (shl_align_spec mx ex ez) as [_ ->].
  destruct (shl_align_spec my ey ez) as [_ ->].
  pose proof (@Zdigits2_bounds (Z.pos mx) ltac:(lia)) as [Hlx Hhx].
  pose proof (@Zdigits2_bounds (Z.pos my) ltac:(lia)) as [Hly Hhy].
  assert (P53 : forall d, 0 <= d <= 53 -> 2 ^ d <= 2 ^ 53)
    by (intros; apply Z.pow_le_mono_r; lia).
  assert (P1 : forall k, 0 < k -> 2 <= 2 ^ k).
  { intros k Hk. change 2 with (2 ^ 1) at 1. apply Z.pow_le_mono_r; lia. }
  pose proof (@Zdigits2_nonneg (Z.pos mx)). pose proof (@Zdigits2_nonneg (Z.pos my)).
  destruct (Z.compare_spec ex ey) as [E|L|G]; subst ez.
  - subst ey. rewrite !Z.min_id, Z.sub_diag. simpl (2 ^ 0). rewrite !Z.mul_1_r.
    reflexivity.
  - replace (ex - Z.min ex (Z.min ex ey)) with 0 by lia.
    replace (ey - Z.min ey (Z.min ex ey)) with (ey - ex) by lia.
    simpl (2 ^ 0). rewrite Z.mul_1_r. apply Z.compare_lt_iff.
    specialize (Hny ltac:(lia)). rewrite Hny in Hly.
    change (2 ^ (53 - 1)) with (2 ^ 52) in Hly.
    specialize (P53 _ (conj H Hdx)). specialize (P1 (ey - ex) ltac:(lia)).
    change (2 ^ 53) with (2 * 2 ^ 52) in P53. nia.
  - replace (ey - Z.min ey (Z.min ex ey)) with 0 by lia.
    replace (ex - Z.min ex (Z.min ex ey)) with (ex - ey) by lia.
    simpl (2 ^ 0). rewrite Z.mul_1_r. apply Z.compare_gt_iff.
    specialize (Hnx ltac:(lia)). rewrite Hnx in Hlx.
    change (2 ^ (53 - 1)) with (2 ^ 52) in Hlx.
    specialize (P53 _ (conj H0 Hdy)). specialize (P1 (ex - ey) ltac:(lia)).
    change (2 ^ 53) with (2 * 2 ^ 52) in P53. nia.
Qed.

Lemma binary_normalize_sign (M e : Z) :
  -1074 <= e ->
  SFcompare (binary_normalize prec emax M e false) pos_zero = Some (M ?= 0).
Proof.
  intros He. destruct M as [|p|p]; [reflexivity| |]; simpl binary_normalize.
  - destruct (binary_round_cases false p e) as [[_ Hlt]|H]; [lia|].
    destruct (binary_round prec emax false p e); simpl in H; try tauto.
    + subst. reflexivity.
    + destruct H as [-> _]. reflexivity.
  - destruct (binary_round_cases true p e) as [[_ Hlt]|H]; [lia|].
    destruct (binary_round prec emax true p e); simpl in H; try tauto.
    + subst. reflexivity.
    + destruct H as [-> _]. reflexivity.
Qed.

(** The sign of a difference is the order of its operands, unless the
    difference is that of an infinity with itself. *)
Lemma sub_sign (x y : number) :
  from_json x = true -> from_json y = true -> same_infinity x y = false ->
  SFcompare (Number.sub x y) pos_zero = SFcompare x y.
Proof.
  unfold from_json. intros Hx Hy Hinf.
  apply andb_true_iff in Hx, Hy. destruct Hx as [Vx Nx], Hy as [Vy Ny].
  destruct x as [sx|sx| |sx mx ex], y as [sy|sy| |sy my ey];
    try discriminate; simpl in Vx, Vy.
  9: {
    unfold Number.sub, SFsub.
    destruct (@bounded_inv _ _ Vx) as (Hex & _).
    destruct (@bounded_inv _ _ Vy) as (Hey & _).
    rewrite binary_normalize_sign by lia.
    pose proof (@aligned_compare _ _ _ _ Vx Vy) as H. cbn zeta in H.
    set (X := Z.pos (fst (shl_align mx ex (Z.min ex ey)))) in *.
    set (Y := Z.pos (fst (shl_align my ey (Z.min ex ey)))) in *.
    assert (0 < X) by (subst X; lia). assert (0 < Y) by (subst Y; lia).
    unfold SFcompare. f_equal.
    destruct sx, sy; unfold cond_Zopp.
    + transitivity (CompOpp (X ?= Y)).
      * rewrite <- Z.compare_antisym, <- (Z.compare_opp X Y).
        symmetry. apply Z.compare_sub.
      * rewrite H. destruct (ex ?= ey); reflexivity.
    + apply Z.compare_lt_iff. lia.
    + apply Z.compare_gt_iff. lia.
    + rewrite <- H. symmetry. apply Z.compare_sub. }
  all: destruct sx; try destruct sy; try reflexivity; discriminate.
Qed.


(** ** The values of a JSON text *)

Lemma forallb_rev (A : Type) (f : A -> bool) (l : list A) :
  forallb f (rev l) = forallb f l.
Proof.
  induction l as [|a l IH]; [reflexivity|]. simpl.
  rewrite forallb_app, IH. simpl. rewrite andb_true_r. apply andb_comm.
Qed.

Lemma scalar_ok (w : list code_unit) (v : JSVal) :
  JSON.scalar w = Some v -> is_json v = true.
Proof.
  unfold JSON.scalar.
  destruct (JsString.eqb w (js "null")); [intros [= <-]; reflexivity|].
  destruct (JsString.eqb w (js "true")); [intros [= <-]; reflexivity|].
  destruct (JsString.eqb w (js "false")); [intros [= <-]; reflexivity|].
  destruct (JSON.number_literal w) as [x|] eqn:E; [|discriminate].
  intros [= <-]. simpl. revert E. unfold JSON.number_literal.
  destruct (match w with 45%N :: w' => (true, w') | _ => (false, w) end) as [neg w1].
  destruct (JSON.span_digits w1) as [ip w2].
  destruct (JSON.int_part_ok ip); [|discriminate].
  destruct (JSON.fraction w2) as [[fp w3]|]; [|discriminate].
  destruct (JSON.exponent w3) as [e|]; [|discriminate].
  intros [= <-]. apply of_decimal_from_json.
Qed.

Lemma end_word_ok (w : list code_unit) (t : JSON.token) :
  JSON.end_word w = Some t -> token_ok t = true.
Proof.
  unfold JSON.end_word. destruct (JSON.scalar (rev w)) as [v|] eqn:E; [|discriminate].
  intros [= <-]. simpl. eapply scalar_ok; eassumption.
Qed.

Lemma lex_between_ok (c : code_unit) :
  forallb token_ok (snd (JSON.lex_between c)) = true.
Proof.
  unfold JSON.lex_between.
  destruct (JSON.is_ws c); [reflexivity|].
  destruct (c =? 34)%N; [reflexivity|].
  destruct (JSON.punctuation c) as [t|] eqn:E; [|reflexivity].
  simpl. rewrite andb_true_r. unfold JSON.punctuation in E.
  repeat (match type of E with
          | match ?x with _ => _ end = _ => destruct x; try discriminate
          end); injection E as <-; reflexivity.
Qed.

Lemma lex_step_ok (st st' : JSON.lexer_state) (c : code_unit) (ts : list JSON.token) :
  JSON.lex_step st c = Some (st', ts) -> forallb token_ok ts = true.
Proof.
  destruct st as [|w|raw [|]]; simpl.
  - intros [= E]. pose proof (lex_between_ok c) as H. rewrite E in H. exact H.
  - destruct (_ || _).
    + destruct (JSON.end_word w) as [t|] eqn:E; [|discriminate].
      pose proof (lex_between_ok c) as H.
      destruct (JSON.lex_between c) as [st1 ts1]. intros [= _ <-].
      simpl. rewrite (end_word_ok _ E). exact H.
    + intros [= _ <-]. reflexivity.
  - intros [= _ <-]. reflexivity.
  - destruct (c =? 34)%N.
    + destruct (JSON.unescape (rev raw)); [|discriminate].
      intros [= _ <-]. reflexivity.
    + intros [= _ <-]. reflexivity.
Qed.

Lemma lex_ok (text : jsstring) : forall st ts,
  JSON.lex st text = Some ts -> forallb token_ok ts = true.
Proof.
  induction text as [|c text IH]; intros st ts; simpl.
  - destruct st as [|w|]; try discriminate.
    + intros [= <-]. reflexivity.
    + destruct (JSON.end_word w) as [t|] eqn:E; [|discriminate].
      intros [= <-]. simpl. rewrite (end_word_ok _ E). reflexivity.
  - destruct (JSON.lex_step st c) as [[st' ts1]|] eqn:E; [|discriminate].
    destruct (JSON.lex st' text) as [ts2|] eqn:E2; [|discriminate].
    intros [= <-]. rewrite forallb_app, (lex_step_ok _ _ E), (IH _ _ E2). reflexivity.
Qed.

Lemma complete_ok (v : JSVal) (stack : list JSON.frame) :
  is_json v = true -> forallb frame_ok stack = true ->
  state_ok (JSON.complete v stack) = true.
Proof.
  intros Hv Hs. destruct stack as [|[elems|fields key] stack]; simpl in *.
  - assumption.
  - rewrite Hv. simpl. assumption.
  - rewrite Hv. simpl. assumption.
Qed.

Lemma start_value_ok (t : JSON.token) (stack : list JSON.frame) (st : JSON.parser_state) :
  token_ok t = true -> forallb frame_ok stack = true ->
  JSON.start_value t stack = Some st -> state_ok st = true.
Proof.
  intros Ht Hs. destruct t; simpl; try discriminate; intros [= <-]; simpl; auto.
  - apply complete_ok; assumption.
  - apply complete_ok; auto.
Qed.

Lemma parse_step_ok (st st' : JSON.parser_state) (t : JSON.token) :
  state_ok st = true -> token_ok t = true ->
  JSON.parse_step st t = Some st' -> state_ok st' = true.
Proof.
  intros Hst Ht.
  destruct st; simpl in Hst; try apply andb_true_iff in Hst as [H1 H2].
  - apply start_value_ok; assumption.
  - destruct t; simpl; try discriminate;
      try (intros H; eapply (@start_value_ok _ (JSON.FArr [] :: stack)); [exact Ht| |exact H]; simpl; assumption).
    intros [= <-]. apply complete_ok; auto.
  - destruct t; simpl; try discriminate; intros [= <-].
    + apply complete_ok; [simpl; rewrite forallb_rev|]; assumption.
    + simpl. rewrite H1. assumption.
  - destruct t; simpl; try discriminate; intros [= <-].
    + apply complete_ok; auto.
    + simpl. assumption.
  - destruct t; simpl; try discriminate; intros [= <-]. simpl. rewrite H1. assumption.
  - destruct t; simpl; try discriminate; intros [= <-]. simpl. rewrite H1. assumption.
  - destruct t; simpl; try discriminate; intros [= <-].
    + apply complete_ok; [simpl; rewrite forallb_rev|]; assumption.
    + simpl. rewrite H1. assumption.
  - destruct t; discriminate.
Qed.

Lemma run_ok (ts : list JSON.token) : forall st v,
  state_ok st = true -> forallb token_ok ts = true ->
  JSON.run st ts = Some v -> is_json v = true.
Proof.
  induction ts as [|t ts IH]; intros st v Hst Hts; simpl.
  - destruct st; try discriminate. intros [= <-]. exact Hst.
  - simpl in Hts. apply andb_true_iff in Hts as [Ht Hts].
    destruct (JSON.parse_step st t) as [st'|] eqn:E; [|discriminate].
    apply IH; [|assumption]. eapply parse_step_ok; eassumption.
Qed.

(** A parsed text is never [undefined], and every number in it is a
    well-formed double other than NaN. *)
Lemma parse_is_json (text : jsstring) (v : JSVal) :
  JSON.parse text = Returns v -> is_json v = true.
Proof.
  unfold JSON.parse.
  destruct (JSON.lex JSON.Between text) as [ts|] eqn:El; [|discriminate].
  destruct (JSON.run (JSON.PValue []) ts) as [v'|] eqn:Er; [|discriminate].
  intros [= <-]. eapply run_ok; [|eapply lex_ok; eassumption|eassumption]. reflexivity.
Qed.

Lemma get_own_ok (fields : list (jsstring * JSVal)) (key : jsstring) :
  forallb (fun kv => is_json (snd kv)) fields = true ->
  get_own fields key = JUndefined \/ is_json (get_own fields key) = true.
Proof.
  intros H. unfold get_own.
  destruct (find _ (rev fields)) as [kv|] eqn:E; [right|left; reflexivity].
  apply find_some in E. destruct E as [Hin _]. apply in_rev in Hin.
  rewrite forallb_forall in H. apply (H kv Hin).
Qed.

Lemma index_ok (v : JSVal) (i : nat) :
  is_json v = true ->
  Js.index v i = JUndefined \/ is_json (Js.index v i) = true.
Proof.
  destruct v; simpl; auto.
  - intros _. destruct (nth_error s i); auto.
  - intros H. rewrite forallb_forall in H.
    destruct (nth_in_or_default i elems JUndefined) as [Hin| ->]; auto.
  - apply get_own_ok.
Qed.

Lemma destructure_ok (v bbox : JSVal) :
  is_json v = true -> Js.destructure_bbox v = Returns bbox ->
  bbox = JUndefined \/ is_json bbox = true.
Proof.
  destruct v; simpl; intros H E; try discriminate; injection E as <-; auto.
  apply get_own_ok. assumption.
Qed.

(** The coordinates of a decoded point are values of the patch, or
    [undefined] where the patch has nothing at that index. *)
Lemma getHighlightPoint_ok (patch : jsstring) (p : HighlightPoint) :
  getHighlightPoint patch = Returns p ->
  (left p = JUndefined \/ is_json (left p) = true) /\
  (top p = JUndefined \/ is_json (top p) = true).
Proof.
  unfold getHighlightPoint.
  destruct (JSON.parse patch) as [v|] eqn:Ep; [|discriminate]. simpl.
  pose proof (parse_is_json _ Ep) as Hv.
  destruct (Js.destructure_bbox v) as [bbox|] eqn:Ed; [|discriminate]. simpl.
  destruct (destructure_ok _ Hv Ed) as [-> |Hb].
  - intros [= <-]. simpl. auto.
  - destruct (_ || _); intros [= <-]; simpl.
    + auto.
    + split; apply index_ok; assumption.
Qed.

Lemma getHighlightPoint_numbers (patch : jsstring) (l t : number) :
  getHighlightPoint patch = Returns {| left := JNum l; top := JNum t |} ->
  from_json l = true /\ from_json t = true.
Proof.
  intros H. apply getHighlightPoint_ok in H. simpl in H.
  destruct H as [[Hl|Hl] [Ht|Ht]]; try discriminate. auto.
Qed.


(** ** The tokenizer on the parts of a text *)





Lemma feed_app (a : jsstring) : forall st b,
  feed st (a ++ b) = then_feed (feed st a) b.
Proof.
  induction a as [|c a IH]; intros st b; simpl.
  - destruct (feed st b) as [[st' ts]|]; reflexivity.
  - destruct (JSON.lex_step st c) as [[st' ts]|]; [|reflexivity].
    rewrite IH. destruct (feed st' a) as [[st'' ts']|]; simpl; [|reflexivity].
    destruct (feed st'' b) as [[st3 ts3]|]; [|reflexivity].
    rewrite app_assoc. reflexivity.
Qed.


Lemma lex_feed (text : jsstring) : forall st,
  JSON.lex st text =
  match feed st text with
  | Some (st', ts) => option_map (app ts) (at_end st')
  | None => None
  end.
Proof.
  induction text as [|c text IH]; intros st.
  - unfold at_end. simpl. destruct st as [|w|raw esc]; try reflexivity.
    destruct (JSON.end_word w); reflexivity.
  - cbn [JSON.lex feed].
    destruct (JSON.lex_step st c) as [[st' ts]|]; [|reflexivity].
    rewrite IH. destruct (feed st' text) as [[st'' ts']|]; [|reflexivity].
    destruct (at_end st'') as [ts3|]; simpl; [|reflexivity].
    rewrite app_assoc. reflexivity.
Qed.

Lemma unescape_cons (c : code_unit) (rest : jsstring) :
  c <> 92%N ->
  JSON.unescape (c :: rest) =
  if (c <? 32)%N then None else option_map (cons c) (JSON.unescape rest).
Proof.
  intros H. destruct c as [|p]; [reflexivity|].
  do 7 (try (destruct p as [p|p|]; try reflexivity)).
  contradiction H. reflexivity.
Qed.

Lemma plain_unit_inv (c : code_unit) :
  plain_unit c = true -> c <> 34%N /\ c <> 92%N /\ (c <? 32)%N = false.
Proof.
  unfold plain_unit. intros H.
  apply andb_true_iff in H as [H H32]. apply andb_true_iff in H as [H34 H92].
  apply negb_true_iff in H34, H92. apply N.eqb_neq in H34, H92.
  apply N.leb_le in H32. repeat split; try assumption.
  apply N.ltb_ge. assumption.
Qed.

Lemma unescape_plain (s : jsstring) : plain s = true -> JSON.unescape s = Some s.
Proof.
  induction s as [|c s IH]; [reflexivity|]. intros H.
  apply andb_true_iff in H as [Hc Hs].
  destruct (@plain_unit_inv c Hc) as (_ & H92 & H32).
  rewrite unescape_cons, H32, (IH Hs) by assumption. reflexivity.
Qed.

Lemma feed_plain (s : jsstring) : forall raw,
  plain s = true ->
  feed (JSON.InString raw false) s = Some (JSON.InString (rev s ++ raw) false, []).
Proof.
  induction s as [|c s IH]; intros raw H; [reflexivity|].
  apply andb_true_iff in H as [Hc Hs].
  destruct (@plain_unit_inv c Hc) as (H34 & H92 & _).
  apply N.eqb_neq in H34, H92.
  cbn [feed JSON.lex_step]. rewrite H34, H92, (IH _ Hs).
  simpl. rewrite <- app_assoc. reflexivity.
Qed.

Lemma feed_close (raw rest : jsstring) :
  feed (JSON.InString raw false) (34%N :: rest) =
  match JSON.unescape (rev raw) with
  | Some s => then_feed (Some (JSON.Between, [JSON.TString s])) rest
  | None => None
  end.
Proof.
  cbn [feed JSON.lex_step]. change (34 =? 34)%N with true. cbv iota.
  destruct (JSON.unescape (rev raw)); reflexivity.
Qed.


Lemma lex_app (a : jsstring) (st : JSON.lexer_state) (b : jsstring) :
  JSON.lex st (a ++ b) =
  match feed st a with
  | Some (st', ts) => option_map (app ts) (JSON.lex st' b)
  | None => None
  end.
Proof.
  rewrite lex_feed, feed_app. destruct (feed st a) as [[st' ts]|]; [|reflexivity].
  cbn [then_feed]. rewrite (lex_feed b).
  destruct (feed st' b) as [[st'' ts']|]; [|reflexivity].
  destruct (at_end st''); [|reflexivity]. cbn [option_map].
  rewrite app_assoc. reflexivity.
Qed.

Lemma word_unit_inv (c : code_unit) :
  word_unit c = true ->
  JSON.is_ws c = false /\ (c =? 34)%N = false /\ JSON.punctuation c = None.
Proof.
  unfold word_unit. intros H.
  apply andb_true_iff in H as [H Hp]. apply andb_true_iff in H as [Hws Hq].
  apply negb_true_iff in Hws, Hq.
  destruct (JSON.punctuation c); [discriminate|]. auto.
Qed.

Lemma feed_word (w : jsstring) : forall rev_word,
  forallb word_unit w = true ->
  feed (JSON.InWord rev_word) w = Some (JSON.InWord (rev w ++ rev_word), []).
Proof.
  induction w as [|c w IH]; intros rw H; [reflexivity|].
  apply andb_true_iff in H as [Hc Hw].
  destruct (@word_unit_inv c Hc) as (Hws & Hq & Hp).
  cbn [feed JSON.lex_step]. rewrite Hws, Hq, Hp. cbn [orb].
  rewrite (IH _ Hw). cbn [app rev]. rewrite <- app_assoc. reflexivity.
Qed.

Lemma feed_begin_word (c : code_unit) (w : jsstring) :
  forallb word_unit (c :: w) = true ->
  feed JSON.Between (c :: w) = Some (JSON.InWord (rev (c :: w)), []).
Proof.
  intros H. apply andb_true_iff in H as [Hc Hw].
  destruct (@word_unit_inv c Hc) as (Hws & Hq & Hp).
  cbn [feed JSON.lex_step]. unfold JSON.lex_between. rewrite Hws, Hq, Hp.
  rewrite (@feed_word w [c] Hw). reflexivity.
Qed.

Lemma feed_end_word (w rest : jsstring) :
  feed (JSON.InWord (rev w)) (44%N :: rest) =
  match JSON.scalar w with
  | Some v => then_feed (Some (JSON.Between, [JSON.TScalar v; JSON.TComma])) rest
  | None => None
  end.
Proof.
  cbn [feed JSON.lex_step]. unfold JSON.end_word. rewrite rev_involutive.
  change (JSON.is_ws 44%N || (44 =? 34)%N ||
          match JSON.punctuation 44%N with Some _ => true | None => false end)
    with true. cbv iota.
  destruct (JSON.scalar w) as [v|]; [|reflexivity].
  cbn [option_map]. change (JSON.lex_between 44%N) with (JSON.Between, [JSON.TComma]).
  cbv iota beta. cbn [then_feed].
  destruct (feed JSON.Between rest) as [[st ts]|]; reflexivity.
Qed.

Lemma lex_string_end (s : jsstring) :
  plain s = true ->
  JSON.lex (JSON.InString [] false) (s ++ jsq "'}}")
  = Some [JSON.TString s; JSON.TRBrace; JSON.TRBrace].
Proof.
  intros Hs. rewrite lex_app, (@feed_plain s _ Hs). rewrite app_nil_r.
  change (jsq "'}}") with [34; 125; 125]%N.
  cbn [JSON.lex JSON.lex_step]. change (34 =? 34)%N with true. cbv iota.
  rewrite rev_involutive, (@unescape_plain s Hs). reflexivity.
Qed.

Lemma since_plain (updatedAt : jsstring) :
  plain updatedAt = true -> plain (since updatedAt) = true.
Proof. intros H. unfold since. destruct (nonempty updatedAt); [exact H|reflexivity]. Qed.

Section BodyFacts.

Variable Number_toString : number -> jsstring.

(** The body of the updates-since request, read as a JSON text. *)
Lemma updatesSince_body_parse
    (apiKey : jsstring) (after first : option number)
    (updatedAt : option jsstring) :
  plain (Number_toString (default pos_zero after)) = true ->
  forallb word_unit (Number_toString (default (of_Z 10) first)) = true ->
  plain (default [] updatedAt) = true ->
  JSON.parse
    (body (loadDeletedArticleSlugs_request Number_toString apiKey after first
             updatedAt))
  = match JSON.scalar (Number_toString (default (of_Z 10) first)) with
    | Some page_size =>
        Returns
          (JObj [ (js "query", JStr updatesSince_document);
                  (js "variables",
                   JObj [ (js "after",
                           JStr (Number_toString (default pos_zero after)));
                          (js "first", page_size);
                          (js "since", JStr (since (default [] updatedAt))) ]) ])
    | None => Throws SyntaxError
    end.
Proof.
  intros Ha Hf Hu. apply since_plain in Hu.
  unfold loadDeletedArticleSlugs_request, body, JSON.parse.
  set (A := Number_toString (default pos_zero after)) in *.
  remember (Number_toString (default (of_Z 10) first)) as F eqn:EF. clear EF.
  set (S := since (default [] updatedAt)) in *.
  rewrite lex_app.
  set (P := feed JSON.Between updatesSince_body_to_after). vm_compute in P. subst P.
  cbv iota beta.
  rewrite lex_app, (@feed_plain A _ Ha), app_nil_r. cbv iota beta.
  change updatesSince_body_to_first with (34%N :: jsq ",'first':").
  change ((34%N :: jsq ",'first':") ++ F ++ updatesSince_body_to_since ++ S
            ++ updatesSince_body_end)
    with ((34%N :: jsq ",'first':") ++ (F ++ updatesSince_body_to_since ++ S
            ++ updatesSince_body_end)).
  rewrite lex_app, feed_close, rev_involutive, (@unescape_plain A Ha).
  set (P := then_feed _ (jsq ",'first':")). vm_compute in P. subst P.
  cbv iota beta.
  change updatesSince_body_end with (jsq "'}}").
  destruct F as [|c w].
  - cbn [app]. rewrite lex_app.
    set (P := feed JSON.Between updatesSince_body_to_since). vm_compute in P. subst P.
    cbv iota beta. rewrite (@lex_string_end S Hu).
    vm_compute. reflexivity.
  - rewrite lex_app, (@feed_begin_word c w Hf). cbv iota beta.
    change updatesSince_body_to_since with (44%N :: jsq " 'since':'").
    change ((44%N :: jsq " 'since':'") ++ S ++ jsq "'}}")
      with ((44%N :: jsq " 'since':'") ++ (S ++ jsq "'}}")).
    rewrite lex_app, feed_end_word.
    destruct (JSON.scalar (c :: w)) as [v|]; [|reflexivity].
    set (P := then_feed _ (jsq " 'since':'")). vm_compute in P. subst P.
    cbv iota beta. rewrite (@lex_string_end S Hu).
    vm_compute. reflexivity.
Qed.

End BodyFacts.

(** ** Comparisons of numbers *)

Lemma compare_defined (x y : number) :
  from_json x = true -> from_json y = true ->
  exists c, SFcompare x y = Some c.
Proof.
  unfold from_json. intros Hx Hy.
  apply andb_true_iff in Hx as [_ Hx], Hy as [_ Hy].
  destruct x, y; try discriminate; simpl; eauto.
Qed.

Lemma compare_antisym (x y : number) (c : comparison) :
  SFcompare x y = Some c -> SFcompare y x = Some (CompOpp c).
Proof.
  destruct x as [sx|sx| |sx mx ex], y as [sy|sy| |sy my ey]; simpl;
    try discriminate; intros [= <-];
    try (destruct sx; try destruct sy; reflexivity).
  f_equal. pose proof (Pos.compare_cont_antisym mx my Eq) as Hm. simpl in Hm.
  destruct sx, sy; try reflexivity;
    rewrite (Z.compare_antisym ex ey);
    destruct (ex ?= ey); simpl; try reflexivity; rewrite Hm; reflexivity.
Qed.

Lemma same_infinity_sym (x y : number) : same_infinity x y = same_infinity y x.
Proof. destruct x as [| [|] | |], y as [| [|] | |]; reflexivity. Qed.

Lemma same_infinity_equal (x y : number) :
  same_infinity x y = true -> Number.strict_eq x y = true.
Proof.
  destruct x as [| [|] | |], y as [| [|] | |]; simpl; intros H;
    try discriminate H; reflexivity.
Qed.

(** The three readings of the sign of a difference. *)
Lemma sub_signs (x y : number) :
  from_json x = true -> from_json y = true -> same_infinity x y = false ->
  is_negative (Number.sub x y) = Number.ltb x y /\
  is_positive (Number.sub x y) = Number.ltb y x /\
  is_zero (Number.sub x y) = Number.strict_eq x y.
Proof.
  intros Hx Hy Hinf.
  pose proof (sub_sign _ _ Hx Hy Hinf) as H.
  destruct (compare_defined _ _ Hx Hy) as [c Hc].
  rewrite Hc in H.
  pose proof (compare_antisym _ _ H) as H'.
  pose proof (compare_antisym _ _ Hc) as Hc'.
  unfold is_negative, is_positive, is_zero, Number.ltb, Number.strict_eq,
    SFltb, SFeqb.
  rewrite H, H', Hc, Hc'. destruct c; auto.
Qed.

(** ** The length of an array, as a number *)

Lemma four_is : of_Z 4 = S754_finite false 4503599627370496 (-50).
Proof. reflexivity. Qed.

Lemma length_is_four (n : nat) :
  Number.strict_eq (of_Z (Z.of_nat n)) (of_Z 4) = true -> n = 4%nat.
Proof.
  intros H. destruct (le_lt_dec 8 n) as [Hbig|Hsmall].
  - exfalso. revert H. rewrite four_is. unfold of_Z.
    destruct (Z.of_nat n) as [|p|p] eqn:Ep; try lia. simpl binary_normalize.
    assert (Hd : 4 <= Zdigits2 (Z.pos p))
      by (apply (@Zdigits2_lower (Z.pos p) 3); [lia|change (2 ^ 3) with 8; lia]).
    destruct (binary_round_cases false p 0) as [[_ Hlt]|Hr]; [lia|].
    destruct (binary_round prec emax false p 0) as [| | |s m e];
      simpl in Hr; try tauto.
    + subst. discriminate.
    + destruct Hr as (-> & _ & He). rewrite fexp_eq in He.
      simpl Zdigits2 in Hd, He.
      unfold Number.strict_eq, SFeqb, SFcompare.
      destruct (Z.compare_spec e (-50)); try lia; cbv iota; discriminate.
  - do 8 (destruct n as [|n];
          [try reflexivity; vm_compute in H; discriminate H|]).
    lia.
Qed.

(** ** Claims on the decoding of a bounding box *)

Lemma find_none_all (A : Type) (f : A -> bool) (l : list A) :
  (forall a, In a l -> f a = false) -> find f l = None.
Proof.
  induction l as [|a l IH]; intros H; [reflexivity|]. simpl.
  rewrite (H a) by (now left). apply IH. intros b Hb. apply H. now right.
Qed.

Lemma get_own_missing (fields : list (jsstring * JSVal)) (key : jsstring) :
  (forall kv, In kv fields -> fst kv <> key) -> get_own fields key = JUndefined.
Proof.
  intros H. unfold get_own. rewrite find_none_all; [reflexivity|].
  intros kv Hin. apply in_rev in Hin.
  destruct (JsString.eqb (fst kv) key) eqn:E; [|reflexivity].
  apply JsString_eqb_eq in E. now apply H in Hin.
Qed.

Lemma destructure_bbox_of (v : JSVal) :
  v <> JNull -> v <> JUndefined ->
  Js.destructure_bbox v = Returns (bbox_of v).
Proof. destruct v; simpl; congruence. Qed.

Lemma without_box_guard (v : JSVal) :
  without_box v ->
  negb (Js.truthy (bbox_of v))
  || Js.differs_from_number (Js.length (bbox_of v)) (of_Z 4) = true.
Proof.
  intros [fields H|v' H|v' H|v' elems H Hn|v' H].
  - simpl. rewrite get_own_missing by assumption. reflexivity.
  - destruct v'; try discriminate; reflexivity.
  - rewrite H. reflexivity.
  - rewrite H. simpl.
    destruct (Number.strict_eq _ _) eqn:E; [|reflexivity].
    apply length_is_four in E. contradiction.
  - rewrite H. apply orb_true_r.
Qed.

Lemma parse_defined (patch : jsstring) (v : JSVal) :
  JSON.parse patch = Returns v -> v <> JUndefined.
Proof. intros H ->. apply parse_is_json in H. discriminate. Qed.

Lemma parse_throws (patch : jsstring) (e : exn) :
  JSON.parse patch = Throws e -> e = SyntaxError.
Proof.
  unfold JSON.parse. destruct (JSON.lex JSON.Between patch) as [ts|].
  - destruct (JSON.run _ ts); congruence.
  - congruence.
Qed.

(** C1, as amended.  A patch that is a JSON text with a value other than
    [null] always decodes to a point, and to exactly [{left: 0, top: 0}]
    when that value has no [bbox] field, a falsy one, or one whose length
    is not 4.  A patch that is not a JSON text makes the decoder throw the
    parser's [SyntaxError], and the text [null] a [TypeError]. *)
Theorem getHighlightPoint_default (patch : jsstring) :
  (forall v, JSON.parse patch = Returns v -> v <> JNull ->
     (exists p, getHighlightPoint patch = Returns p) /\
     (without_box v -> getHighlightPoint patch = Returns origin)) /\
  (forall e, JSON.parse patch = Throws e ->
     e = SyntaxError /\ getHighlightPoint patch = Throws SyntaxError) /\
  (JSON.parse patch = Returns JNull ->
     getHighlightPoint patch = Throws TypeError).
Proof.
  unfold getHighlightPoint. repeat split.
  - rewrite H. cbn [bind].
    rewrite destructure_bbox_of; eauto using parse_defined.
    cbn [bind]. destruct (_ || _); eauto.
  - intros Hw. rewrite H. cbn [bind].
    rewrite destructure_bbox_of; eauto using parse_defined.
    cbn [bind]. rewrite (without_box_guard Hw). reflexivity.
  - eapply parse_throws; eassumption.
  - rewrite H. apply parse_throws in H. subst. reflexivity.
  - intros ->. reflexivity.
Qed.

(** The theorem at work: an object without the field, an array of three,
    a patch in the text-diff encoding and the text [null]. *)
Lemma getHighlightPoint_default_witness :
  getHighlightPoint (jsq "{'quote':'q'}") = Returns origin /\
  getHighlightPoint (jsq "{'bbox':[1,2,3]}") = Returns origin /\
  getHighlightPoint (js "@@ -10,4 +10,4 @@") = Throws SyntaxError /\
  getHighlightPoint (js "null") = Throws TypeError.
Proof.
  split; [|split; [|split]].
  - apply (proj1 (getHighlightPoint_default (jsq "{'quote':'q'}"))
             (JObj [(js "quote", JStr (js "q"))])).
    + reflexivity.
    + discriminate.
    + apply no_bbox_field. intros kv [<-|[]]. discriminate.
  - apply (proj1 (getHighlightPoint_default (jsq "{'bbox':[1,2,3]}"))
             (JObj [(js "bbox", JArr [JNum (of_Z 1); JNum (of_Z 2); JNum (of_Z 3)])])).
    + reflexivity.
    + discriminate.
    + apply array_of_other_length
        with (elems := [JNum (of_Z 1); JNum (of_Z 2); JNum (of_Z 3)]).
      * reflexivity.
      * simpl. lia.
  - apply (proj1 (proj2 (getHighlightPoint_default (js "@@ -10,4 +10,4 @@")))
             SyntaxError).
    reflexivity.
  - apply (proj2 (proj2 (getHighlightPoint_default (js "null")))).
    reflexivity.
Defined.

(** C1 as stated fails: a malformed patch does not give [{0, 0}], the
    decoder throws on it. *)
Lemma getHighlightPoint_throws_on_malformed_patch :
  getHighlightPoint (js "@@ -10,4 +10,4 @@") = Throws SyntaxError /\
  getHighlightPoint (js "@@ -10,4 +10,4 @@") <> Returns origin.
Proof. split; [reflexivity | discriminate]. Qed.

(** C4.  A patch that parses to an object whose [bbox] is an array of
    exactly four numbers [[x, y, w, h]] decodes to [{left: x, top: y}]. *)
Theorem getHighlightPoint_bbox
    (patch : jsstring) (fields : list (jsstring * JSVal)) (x y w h : number) :
  JSON.parse patch = Returns (JObj fields) ->
  get_own fields (js "bbox") = JArr [JNum x; JNum y; JNum w; JNum h] ->
  getHighlightPoint patch = Returns {| left := JNum x; top := JNum y |}.
Proof.
  intros Hp Hb. unfold getHighlightPoint. rewrite Hp. simpl. rewrite Hb.
  reflexivity.
Qed.

Lemma getHighlightPoint_bbox_witness :
  JSON.parse (jsq "{'bbox':[12.5,40,100,18]}") =
    Returns (JObj [(js "bbox",
                    JArr [JNum (of_decimal false 125 (-1)); JNum (of_Z 40);
                          JNum (of_Z 100); JNum (of_Z 18)])]) /\
  getHighlightPoint (jsq "{'bbox':[12.5,40,100,18]}") =
    Returns {| left := JNum (of_decimal false 125 (-1)); top := JNum (of_Z 40) |}.
Proof.
  split; [reflexivity|].
  apply (@getHighlightPoint_bbox (jsq "{'bbox':[12.5,40,100,18]}")
           [(js "bbox",
             JArr [JNum (of_decimal false 125 (-1)); JNum (of_Z 40);
                   JNum (of_Z 100); JNum (of_Z 18)])]
           (of_decimal false 125 (-1)) (of_Z 40) (of_Z 100) (of_Z 18));
    reflexivity.
Defined.

(** ** Claims on the reading order *)

Lemma equal_not_before (x y : number) :
  Number.strict_eq x y = true -> Number.ltb x y = false.
Proof.
  unfold Number.strict_eq, Number.ltb, SFeqb, SFltb.
  destruct (SFcompare x y) as [[| |]|]; congruence.
Qed.

Lemma equal_sym (x y : number) : Number.strict_eq x y = Number.strict_eq y x.
Proof.
  unfold Number.strict_eq, SFeqb.
  destruct (SFcompare x y) as [c|] eqn:E.
  - rewrite (compare_antisym _ _ E). destruct c; reflexivity.
  - destruct (SFcompare y x) as [c'|] eqn:E'; [|reflexivity].
    apply compare_antisym in E'. congruence.
Qed.

Section Order.

Variable coerce : JSVal -> number.

(** What the comparator returns on two numeric points. *)
Lemma compare_points (a b : Highlight) (ta la tb lb : number) :
  getHighlightPoint (patch a) = Returns {| left := JNum la; top := JNum ta |} ->
  getHighlightPoint (patch b) = Returns {| left := JNum lb; top := JNum tb |} ->
  compareHighlightsInFile coerce a b =
  Returns (if Number.strict_eq ta tb then Number.sub la lb
           else Number.sub ta tb).
Proof.
  intros Ha Hb. unfold compareHighlightsInFile. rewrite Ha, Hb. simpl.
  destruct (Number.strict_eq ta tb); reflexivity.
Qed.

(** The signs of that result, read against the order on (top, left). *)
Lemma result_signs (ta la tb lb : number) :
  from_json ta = true -> from_json la = true ->
  from_json tb = true -> from_json lb = true ->
  Number.strict_eq ta tb && same_infinity la lb = false ->
  let r := if Number.strict_eq ta tb then Number.sub la lb
           else Number.sub ta tb in
  is_negative r = before (ta, la) (tb, lb) /\
  is_positive r = before (tb, lb) (ta, la) /\
  is_zero r = same_place (ta, la) (tb, lb).
Proof.
  intros Hta Hla Htb Hlb Hinf r. subst r. unfold before, same_place. simpl.
  rewrite (equal_sym tb ta).
  destruct (Number.strict_eq ta tb) eqn:E; simpl in *.
  - rewrite (equal_not_before _ _ E).
    rewrite equal_sym in E. rewrite (equal_not_before _ _ E). simpl.
    apply sub_signs; assumption.
  - rewrite !orb_false_r. rewrite <- E. apply sub_signs; try assumption.
    destruct (same_infinity ta tb) eqn:S; [|reflexivity].
    apply same_infinity_equal in S. congruence.
Qed.

(** C3, as amended.  For two highlights whose patches decode to numeric
    points (topA, leftA) and (topB, leftB), and unless the tops are equal
    and the lefts are one and the same infinity: the comparator returns
    a number that is negative exactly when (topA, leftA) comes before
    (topB, leftB) in the lexicographic order, positive exactly when it
    comes after, and zero exactly when both components are equal; exactly
    one of the three holds; and swapping the arguments swaps negative
    and positive and keeps zero. *)
Theorem compareHighlightsInFile_order (a b : Highlight) (ta la tb lb : number) :
  getHighlightPoint (patch a) = Returns {| left := JNum la; top := JNum ta |} ->
  getHighlightPoint (patch b) = Returns {| left := JNum lb; top := JNum tb |} ->
  Number.strict_eq ta tb && same_infinity la lb = false ->
  exists r r',
    compareHighlightsInFile coerce a b = Returns r /\
    compareHighlightsInFile coerce b a = Returns r' /\
    is_negative r = before (ta, la) (tb, lb) /\
    is_positive r = before (tb, lb) (ta, la) /\
    is_zero r = same_place (ta, la) (tb, lb) /\
    one_sign r = true /\
    is_negative r' = is_positive r /\
    is_positive r' = is_negative r /\
    is_zero r' = is_zero r.
Proof.
  intros Ha Hb Hinf.
  destruct (getHighlightPoint_numbers _ Ha) as [Hla Hta].
  destruct (getHighlightPoint_numbers _ Hb) as [Hlb Htb].
  assert (Hinf' : Number.strict_eq tb ta && same_infinity lb la = false)
    by (rewrite equal_sym, same_infinity_sym; assumption).
  destruct (@result_signs ta la tb lb Hta Hla Htb Hlb Hinf) as (N & P & Z0).
  destruct (@result_signs tb lb ta la Htb Hlb Hta Hla Hinf') as (N' & P' & Z').
  do 2 eexists.
  split; [apply (@compare_points a b ta la tb lb Ha Hb)|].
  split; [apply (@compare_points b a tb lb ta la Hb Ha)|].
  cbn zeta in *. unfold one_sign. rewrite N, P, Z0, N', P', Z'.
  repeat split.
  - unfold before, same_place, Number.ltb, Number.strict_eq, SFltb, SFeqb. simpl.
    destruct (compare_defined _ _ Hta Htb) as [c Hc].
    destruct (compare_defined _ _ Hla Hlb) as [d Hd].
    rewrite (compare_antisym _ _ Hc), (compare_antisym _ _ Hd), Hc, Hd.
    destruct c, d; reflexivity.
  - unfold same_place. simpl.
    rewrite (equal_sym tb ta), (equal_sym lb la). reflexivity.
Qed.

End Order.

Lemma compareHighlightsInFile_order_witness :
  getHighlightPoint (jsq "{'bbox':[10,5,0,0]}") =
    Returns {| left := JNum (of_Z 10); top := JNum (of_Z 5) |} /\
  getHighlightPoint (jsq "{'bbox':[3,5,0,0]}") =
    Returns {| left := JNum (of_Z 3); top := JNum (of_Z 5) |} /\
  exists r r',
    compareHighlightsInFile Standin.coerce
      (Standin.highlight (jsq "{'bbox':[10,5,0,0]}"))
      (Standin.highlight (jsq "{'bbox':[3,5,0,0]}")) = Returns r /\
    compareHighlightsInFile Standin.coerce
      (Standin.highlight (jsq "{'bbox':[3,5,0,0]}"))
      (Standin.highlight (jsq "{'bbox':[10,5,0,0]}")) = Returns r' /\
    is_negative r = before (of_Z 5, of_Z 10) (of_Z 5, of_Z 3) /\
    is_positive r = before (of_Z 5, of_Z 3) (of_Z 5, of_Z 10) /\
    is_zero r = same_place (of_Z 5, of_Z 10) (of_Z 5, of_Z 3) /\
    one_sign r = true /\
    is_negative r' = is_positive r /\
    is_positive r' = is_negative r /\
    is_zero r' = is_zero r.
Proof.
  split; [reflexivity|]. split; [reflexivity|].
  apply (@compareHighlightsInFile_order Standin.coerce
           (Standin.highlight (jsq "{'bbox':[10,5,0,0]}"))
           (Standin.highlight (jsq "{'bbox':[3,5,0,0]}"))
           (of_Z 5) (of_Z 10) (of_Z 5) (of_Z 3)); reflexivity.
Defined.

(** The two examples of the specification: equal tops are ordered by
    left, different tops by top. *)
Example compare_same_top :
  option_map is_positive
    (match compareHighlightsInFile Standin.coerce
             (Standin.highlight (jsq "{'bbox':[10,5,0,0]}"))
             (Standin.highlight (jsq "{'bbox':[3,5,0,0]}")) with
     | Returns r => Some r
     | Throws _ => None
     end) = Some true.
Proof. reflexivity. Qed.

Example compare_different_top :
  option_map is_negative
    (match compareHighlightsInFile Standin.coerce
             (Standin.highlight (jsq "{'bbox':[7,2,0,0]}"))
             (Standin.highlight (jsq "{'bbox':[1,9,0,0]}")) with
     | Returns r => Some r
     | Throws _ => None
     end) = Some true.
Proof. reflexivity. Qed.

(** C3 as stated fails where a coordinate is infinite: [1e999] is read as
    [Infinity], and a highlight at such a left compared with itself gives
    [Infinity - Infinity], which is NaN: not zero, although both
    components are equal. *)
Lemma compareHighlightsInFile_infinite_left :
  getHighlightPoint (jsq "{'bbox':[1e999,0,0,0]}") =
    Returns {| left := JNum (S754_infinity false); top := JNum pos_zero |} /\
  same_place (pos_zero, S754_infinity false) (pos_zero, S754_infinity false)
    = true /\
  compareHighlightsInFile Standin.coerce
    (Standin.highlight (jsq "{'bbox':[1e999,0,0,0]}"))
    (Standin.highlight (jsq "{'bbox':[1e999,0,0,0]}")) = Returns NaN /\
  is_zero NaN = false.
Proof. vm_compute. repeat split. Qed.

(** ** Claims on the location in a text *)

Section LocationFacts.

Variable patch_fromText : jsstring -> outcome (list patch_obj).

(** C2, as amended.  When the decoder finds at least one segment, the
    location is the [start1] of the first one, with 0 in the place of a
    [start1] that is [null], zero or NaN.  When the decoder finds no
    segment the call throws a [TypeError], and when the decoder throws,
    so does the call. *)
Theorem getHighlightLocation_first_segment (patch : jsstring) :
  (forall first rest,
     patch_fromText patch = Returns (first :: rest) ->
     (forall x, start1 first = Some x -> Js.truthy (JNum x) = true ->
        getHighlightLocation patch_fromText patch = Returns x) /\
     (forall x, start1 first = Some x -> Js.truthy (JNum x) = false ->
        getHighlightLocation patch_fromText patch = Returns pos_zero) /\
     (start1 first = None ->
        getHighlightLocation patch_fromText patch = Returns pos_zero)) /\
  (patch_fromText patch = Returns [] ->
     getHighlightLocation patch_fromText patch = Throws TypeError) /\
  (forall e, patch_fromText patch = Throws e ->
     getHighlightLocation patch_fromText patch = Throws e).
Proof.
  unfold getHighlightLocation. repeat split.
  - intros x Hx Ht. rewrite H. simpl. rewrite Hx. simpl.
    simpl in Ht. rewrite Ht. reflexivity.
  - intros x Hx Ht. rewrite H. simpl. rewrite Hx. simpl.
    simpl in Ht. rewrite Ht. reflexivity.
  - intros Hx. rewrite H. simpl. rewrite Hx. reflexivity.
  - intros ->. reflexivity.
  - intros e ->. reflexivity.
Qed.

End LocationFacts.

Lemma getHighlightLocation_first_segment_witness :
  getHighlightLocation (Standin.one_segment (Some (of_Z 9))) (js "@@ -10,4 +10,4 @@")
    = Returns (of_Z 9) /\
  getHighlightLocation (Standin.one_segment (Some pos_zero)) (js "@@ -1,4 +1,4 @@")
    = Returns pos_zero /\
  getHighlightLocation (Standin.one_segment None) (js "@@ -10,4 +10,4 @@")
    = Returns pos_zero /\
  getHighlightLocation Standin.no_segments [] = Throws TypeError /\
  getHighlightLocation Standin.rejecting (js "{}")
    = Throws (OtherError (js "Invalid patch string")).
Proof.
  pose proof (getHighlightLocation_first_segment
                (Standin.one_segment (Some (of_Z 9))) (js "@@ -10,4 +10,4 @@"))
    as (H1 & _ & _).
  pose proof (getHighlightLocation_first_segment
                (Standin.one_segment (Some pos_zero)) (js "@@ -1,4 +1,4 @@"))
    as (H2 & _ & _).
  pose proof (getHighlightLocation_first_segment
                (Standin.one_segment None) (js "@@ -10,4 +10,4 @@"))
    as (H3 & _ & _).
  pose proof (getHighlightLocation_first_segment Standin.no_segments [])
    as (_ & H4 & _).
  pose proof (getHighlightLocation_first_segment Standin.rejecting (js "{}"))
    as (_ & _ & H5).
  refine (conj _ (conj _ (conj _ (conj _ _)))).
  - eapply (proj1 (H1 _ _ eq_refl)); reflexivity.
  - eapply (proj1 (proj2 (H2 _ _ eq_refl))); reflexivity.
  - eapply (proj2 (proj2 (H3 _ _ eq_refl))). reflexivity.
  - apply H4. reflexivity.
  - apply H5. reflexivity.
Defined.

(** C2 as stated fails where the decoder finds no segment, as it does on
    the empty patch: the call does not return 0, it throws. *)
Lemma getHighlightLocation_no_segment :
  Standin.no_segments [] = Returns [] /\
  getHighlightLocation Standin.no_segments [] = Throws TypeError /\
  getHighlightLocation Standin.no_segments [] <> Returns pos_zero.
Proof. repeat split. discriminate. Qed.

(** ** Claims on the fetchers *)

Lemma deleted_slugs_filter (edges : list UpdatesSince.Edge) :
  map (fun edge => UpdatesSince.slug (UpdatesSince.node edge))
    (filter (fun edge => is_deleted (UpdatesSince.updateReason edge)) edges)
  = deleted_slugs edges.
Proof.
  induction edges as [|edge edges IH]; [reflexivity|]. simpl.
  destruct (UpdatesSince.updateReason edge); simpl; unfold node_slug; congruence.
Qed.

Lemma deleted_slugs_in (edges : list UpdatesSince.Edge) (s : jsstring) :
  In s (deleted_slugs edges) <->
  exists edge, In edge edges /\ UpdatesSince.updateReason edge = DELETED /\ node_slug edge = s.
Proof.
  induction edges as [|edge edges IH]; simpl.
  - split; [intros [] | intros (e & [] & _)].
  - destruct (UpdatesSince.updateReason edge) eqn:E; simpl; rewrite ?IH; split.
    + intros (e & H & R & S). exists e. auto.
    + intros (e & [<-|H] & R & S); [congruence|]. exists e. auto.
    + intros (e & H & R & S). exists e. auto.
    + intros (e & [<-|H] & R & S); [congruence|]. exists e. auto.
    + intros [<-|(e & H & R & S)]; [exists edge; auto|exists e; auto].
    + intros (e & [<-|H] & R & S); [now left|right; exists e; auto].
Qed.

(** The positions that a filter keeps: increasing, exactly those of the
    elements kept, and the elements kept are read off in that order. *)
Lemma kept_positions_from (A : Type) (f : A -> bool) (l : list A) : forall k i,
  In i (kept_positions f l k) -> (k <= i)%nat.
Proof.
  induction l as [|a l IH]; intros k i; simpl; [intros []|].
  destruct (f a); simpl.
  - intros [<-|H]; [lia|]. apply IH in H. lia.
  - intros H. apply IH in H. lia.
Qed.

Lemma kept_positions_sorted (A : Type) (f : A -> bool) (l : list A) : forall k,
  StronglySorted lt (kept_positions f l k).
Proof.
  induction l as [|a l IH]; intros k; simpl; [constructor|].
  destruct (f a); [|apply IH].
  constructor; [apply IH|].
  apply Forall_forall. intros i H. apply kept_positions_from in H. lia.
Qed.

Lemma kept_positions_in (A : Type) (f : A -> bool) (l : list A) : forall k i,
  In i (kept_positions f l k) <->
  exists a, (k <= i)%nat /\ nth_error l (i - k) = Some a /\ f a = true.
Proof.
  induction l as [|a l IH]; intros k i; simpl.
  - split; [intros []|]. intros (a & _ & H & _).
    destruct (i - k)%nat; discriminate.
  - assert (Hstep : forall b,
              (S k <= i)%nat /\ nth_error l (i - S k) = Some b /\ f b = true <->
              (k < i)%nat /\ nth_error (a :: l) (i - k) = Some b /\ f b = true).
    { intros b. split; intros (Hle & Hn & Hf); repeat split; try lia; try assumption.
      - replace (i - k)%nat with (S (i - S k)) by lia. assumption.
      - replace (i - k)%nat with (S (i - S k)) in Hn by lia. assumption. }
    destruct (f a) eqn:Fa; simpl; rewrite IH; split.
    + intros [<-|(b & H)].
      * exists a. rewrite Nat.sub_diag. auto.
      * apply Hstep in H. exists b. intuition lia.
    + intros (b & Hle & Hn & Hf).
      destruct (Nat.eq_dec i k) as [->|Hne]; [now left|right].
      exists b. apply Hstep. intuition lia.
    + intros (b & H). apply Hstep in H. exists b. intuition lia.
    + intros (b & Hle & Hn & Hf).
      destruct (Nat.eq_dec i k) as [->|Hne].
      * rewrite Nat.sub_diag in Hn. simpl in Hn. congruence.
      * exists b. apply Hstep. intuition lia.
Qed.

Lemma kept_positions_read (A : Type) (f : A -> bool) (l : list A) :
  forall (before_l : list A),
  map (nth_error (before_l ++ l)) (kept_positions f l (List.length before_l))
  = map Some (filter f l).
Proof.
  induction l as [|a l IH]; intros before_l; [reflexivity|]. simpl.
  specialize (IH (before_l ++ [a])).
  rewrite <- app_assoc, length_app in IH. simpl in IH.
  rewrite Nat.add_1_r in IH.
  destruct (f a); simpl; [|exact IH].
  rewrite IH. f_equal.
  rewrite nth_error_app2 by lia. rewrite Nat.sub_diag. reflexivity.
Qed.

Section NetworkFacts.

Variable Response : Type.
Variable fetch : jsstring -> RequestInit -> outcome Response.
Variable json_as_SearchResponse : Response -> outcome SearchResponse.
Variable json_as_UpdatesSinceResponse : Response -> outcome UpdatesSinceResponse.
Variable JSON_stringify : JSVal -> jsstring.
Variable Number_toString : number -> jsstring.

(** C5.  The request carries ['2021-01-01'] as its [since] when the
    caller passes no [updatedAt] or the empty string, and the caller's
    [updatedAt] otherwise: that date stands in the body, and whenever the
    offset and the date are of plain code units and the page size prints
    as a JSON scalar, the body is a JSON text whose [variables] hold it
    under the name [since].  For every response to that request, the
    function returns the slugs of exactly the edges whose reason is
    [DELETED], with the [hasNextPage] of the response; and the network is
    consulted for that request only. *)
Theorem loadDeletedArticleSlugs_deleted_only
    (apiKey : jsstring) (after first : option number)
    (updatedAt : option jsstring) :
  let request :=
    loadDeletedArticleSlugs_request Number_toString apiKey after first updatedAt in
  (exists sent,
     body request =
       updatesSince_body_to_after ++ Number_toString (default pos_zero after)
         ++ updatesSince_body_to_first
         ++ Number_toString (default (of_Z 10) first)
         ++ updatesSince_body_to_since ++ sent ++ updatesSince_body_end /\
     (updatedAt = None \/ updatedAt = Some [] -> sent = js "2021-01-01") /\
     (forall c u, updatedAt = Some (c :: u) -> sent = c :: u) /\
     (forall page_size,
        plain (Number_toString (default pos_zero after)) = true ->
        forallb word_unit (Number_toString (default (of_Z 10) first)) = true ->
        JSON.scalar (Number_toString (default (of_Z 10) first))
        = Some page_size ->
        plain (default [] updatedAt) = true ->
        JSON.parse (body request)
        = Returns
            (JObj [ (js "query", JStr updatesSince_document);
                    (js "variables",
                     JObj [ (js "after",
                             JStr (Number_toString (default pos_zero after)));
                            (js "first", page_size);
                            (js "since", JStr sent) ]) ]))) /\
  (forall res jsonRes,
     fetch ENDPOINT request = Returns res ->
     json_as_UpdatesSinceResponse res = Returns jsonRes ->
     exists slugs,
       loadDeletedArticleSlugs fetch json_as_UpdatesSinceResponse
         Number_toString apiKey after first updatedAt
       = Returns (slugs, updatesSince_hasNextPage jsonRes) /\
       slugs = deleted_slugs (updatesSince_edges jsonRes) /\
       (forall s, In s slugs <->
          exists edge, In edge (updatesSince_edges jsonRes) /\
                       UpdatesSince.updateReason edge = DELETED /\ node_slug edge = s)) /\
  (forall fetch' : jsstring -> RequestInit -> outcome Response,
     fetch' ENDPOINT request = fetch ENDPOINT request ->
     loadDeletedArticleSlugs fetch' json_as_UpdatesSinceResponse
       Number_toString apiKey after first updatedAt
     = loadDeletedArticleSlugs fetch json_as_UpdatesSinceResponse
         Number_toString apiKey after first updatedAt).
Proof.
  intros request. split; [|split].
  3: { intros fetch' H. unfold loadDeletedArticleSlugs. fold request.
       rewrite H. reflexivity. }
  - exists (since (default [] updatedAt)). split; [reflexivity|].
    split; [|split].
    + intros [-> | ->]; reflexivity.
    + intros c u ->. reflexivity.
    + intros page_size Ha Hf Hs Hu. unfold request.
      rewrite (@updatesSince_body_parse Number_toString apiKey after first
                 updatedAt Ha Hf Hu), Hs.
      reflexivity.
  - intros res jsonRes Hf Hj. eexists. split; [|split].
    + unfold loadDeletedArticleSlugs. fold request. rewrite Hf. simpl.
      rewrite Hj. simpl. reflexivity.
    + apply deleted_slugs_filter.
    + intros s. rewrite deleted_slugs_filter. apply deleted_slugs_in.
Qed.

(** C8.  The search request is sent to the endpoint with, as its body,
    the serialization of an object whose [variables] hold, as [query],
    the [updated:] filter (present exactly when the caller's [updatedAt]
    is not empty), then the clause [sort:saved-asc] with one space before
    it and one after it, then the caller's query; and, as [first], the
    caller's page size, which is 10 when the caller leaves it out.  What
    the function returns is read off the answer to that request, a
    failure of the transport on it is the failure of the function, and
    the network is consulted for that request only. *)
Theorem loadArticles_request_variables
    (apiKey : jsstring) (after first : option number)
    (updatedAt query : option jsstring) (includeContent : option bool)
    (format : option jsstring) :
  let request :=
    loadArticles_request JSON_stringify Number_toString apiKey after first
      updatedAt query includeContent format in
  (exists filter page_size,
     body request
     = JSON_stringify
         (JObj
            [ (js "query", JStr search_document);
              (js "variables",
               JObj
                 [ (js "after", JStr (Number_toString (default pos_zero after)));
                   (js "first", JNum page_size);
                   (js "query",
                    JStr (filter ++ js " sort:saved-asc " ++ default [] query));
                   (js "includeContent", JBool (default false includeContent));
                   (js "format", JStr (default (js "html") format)) ]) ]) /\
     (updatedAt = None \/ updatedAt = Some [] -> filter = []) /\
     (forall c u, updatedAt = Some (c :: u) -> filter = js "updated:" ++ c :: u) /\
     (first = None -> page_size = of_Z 10) /\
     (forall n, first = Some n -> page_size = n)) /\
  (forall res jsonRes,
     fetch ENDPOINT request = Returns res ->
     json_as_SearchResponse res = Returns jsonRes ->
     loadArticles fetch json_as_SearchResponse JSON_stringify Number_toString
       apiKey after first updatedAt query includeContent format
     = Returns (map Search.node (search_edges jsonRes),
                search_hasNextPage jsonRes)) /\
  (forall e,
     fetch ENDPOINT request = Throws e ->
     loadArticles fetch json_as_SearchResponse JSON_stringify Number_toString
       apiKey after first updatedAt query includeContent format
     = Throws e) /\
  (forall fetch' : jsstring -> RequestInit -> outcome Response,
     fetch' ENDPOINT request = fetch ENDPOINT request ->
     loadArticles fetch' json_as_SearchResponse JSON_stringify Number_toString
       apiKey after first updatedAt query includeContent format
     = loadArticles fetch json_as_SearchResponse JSON_stringify Number_toString
         apiKey after first updatedAt query includeContent format).
Proof.
  intros request. split; [|split; [|split]].
  - exists (if nonempty (default [] updatedAt)
            then js "updated:" ++ default [] updatedAt else []).
    exists (default (of_Z 10) first).
    split; [reflexivity|]. repeat split.
    + intros [-> | ->]; reflexivity.
    + intros c u ->. reflexivity.
    + intros ->. reflexivity.
    + intros n ->. reflexivity.
  - intros res jsonRes Hf Hj. unfold loadArticles. fold request.
    rewrite Hf. cbn [bind]. rewrite Hj. reflexivity.
  - intros e Hf. unfold loadArticles. fold request. rewrite Hf. reflexivity.
  - intros fetch' H. unfold loadArticles. fold request. rewrite H. reflexivity.
Qed.

(** C10.  Both fetchers keep the order of the response: the articles are
    the nodes of the search edges, position by position; and the deleted
    slugs are those at an increasing sequence of positions of the
    updates-since edges, namely the positions of the [DELETED] edges. *)
Theorem fetchers_preserve_order
    (apiKey : jsstring) (after first : option number)
    (updatedAt query : option jsstring) (includeContent : option bool)
    (format : option jsstring) :
  (forall res jsonRes,
     fetch ENDPOINT
       (loadArticles_request JSON_stringify Number_toString apiKey after first
          updatedAt query includeContent format) = Returns res ->
     json_as_SearchResponse res = Returns jsonRes ->
     exists articles,
       loadArticles fetch json_as_SearchResponse JSON_stringify Number_toString
         apiKey after first updatedAt query includeContent format
       = Returns (articles, search_hasNextPage jsonRes) /\
       List.length articles = List.length (search_edges jsonRes) /\
       forall i, nth_error articles i
                 = option_map Search.node (nth_error (search_edges jsonRes) i)) /\
  (forall res jsonRes,
     fetch ENDPOINT
       (loadDeletedArticleSlugs_request Number_toString apiKey after first
          updatedAt) = Returns res ->
     json_as_UpdatesSinceResponse res = Returns jsonRes ->
     exists slugs positions,
       loadDeletedArticleSlugs fetch json_as_UpdatesSinceResponse
         Number_toString apiKey after first updatedAt
       = Returns (slugs, updatesSince_hasNextPage jsonRes) /\
       StronglySorted lt positions /\
       (forall i, In i positions <->
          exists edge, nth_error (updatesSince_edges jsonRes) i = Some edge /\
                       UpdatesSince.updateReason edge = DELETED) /\
       map (fun i => option_map node_slug
                       (nth_error (updatesSince_edges jsonRes) i)) positions
       = map Some slugs).
Proof.
  split; intros res jsonRes Hf Hj.
  - eexists. split; [|split].
    + unfold loadArticles. rewrite Hf. simpl. rewrite Hj. reflexivity.
    + apply length_map.
    + intros i. apply nth_error_map.
  - exists (map node_slug (filter deleted (updatesSince_edges jsonRes))).
    exists (kept_positions deleted (updatesSince_edges jsonRes) 0).
    split; [|split; [|split]].
    + unfold loadDeletedArticleSlugs. rewrite Hf. simpl. rewrite Hj. reflexivity.
    + apply kept_positions_sorted.
    + intros i. rewrite kept_positions_in. rewrite Nat.sub_0_r.
      split.
      * intros (edge & _ & Hn & Hd). exists edge. split; [assumption|].
        unfold deleted in Hd. destruct (UpdatesSince.updateReason edge); try discriminate.
        reflexivity.
      * intros (edge & Hn & Hd). exists edge. repeat split; [lia|assumption|].
        unfold deleted. rewrite Hd. reflexivity.
    + pose proof (kept_positions_read deleted (updatesSince_edges jsonRes) [])
        as H. simpl in H.
      rewrite map_map.
      rewrite <- (map_map (nth_error (updatesSince_edges jsonRes))
                    (option_map node_slug)).
      rewrite H, !map_map. reflexivity.
Qed.

End NetworkFacts.

Lemma loadDeletedArticleSlugs_deleted_only_witness :
  body (loadDeletedArticleSlugs_request Standin.print_whole (js "key")
          None None None)
  = updatesSince_body_to_after ++ js "0" ++ updatesSince_body_to_first
      ++ js "10" ++ updatesSince_body_to_since ++ js "2021-01-01"
      ++ updatesSince_body_end /\
  body (loadDeletedArticleSlugs_request Standin.print_whole (js "key")
          None None (Some (js "2023-01-05")))
  = updatesSince_body_to_after ++ js "0" ++ updatesSince_body_to_first
      ++ js "10" ++ updatesSince_body_to_since ++ js "2023-01-05"
      ++ updatesSince_body_end /\
  JSON.parse
    (body (loadDeletedArticleSlugs_request Standin.print_whole (js "key")
             None None None))
  = Returns
      (JObj [ (js "query", JStr updatesSince_document);
              (js "variables",
               JObj [ (js "after", JStr (js "0"));
                      (js "first", JNum (of_Z 10));
                      (js "since", JStr (js "2021-01-01")) ]) ]) /\
  JSON.parse
    (body (loadDeletedArticleSlugs_request Standin.print_whole (js "key")
             None None (Some (js "2023-01-05"))))
  = Returns
      (JObj [ (js "query", JStr updatesSince_document);
              (js "variables",
               JObj [ (js "after", JStr (js "0"));
                      (js "first", JNum (of_Z 10));
                      (js "since", JStr (js "2023-01-05")) ]) ]) /\
  loadDeletedArticleSlugs (Standin.fetch Standin.answers)
    Standin.updatesSince_json Standin.print_whole (js "key") None None None
  = Returns ([js "a"], false) /\
  loadDeletedArticleSlugs (Standin.strict_fetch Standin.answers)
    Standin.updatesSince_json Standin.print_whole (js "key") None None None
  = Returns ([js "a"], false).
Proof.
  pose proof (@loadDeletedArticleSlugs_deleted_only Standin.server
                (Standin.fetch Standin.answers) Standin.updatesSince_json
                Standin.print_whole (js "key") None None None)
    as ((sent & Hb & Hs & _ & Hj) & H & Hf).
  pose proof (@loadDeletedArticleSlugs_deleted_only Standin.server
                (Standin.fetch Standin.answers) Standin.updatesSince_json
                Standin.print_whole (js "key") None None
                (Some (js "2023-01-05")))
    as ((sent' & Hb' & _ & Hs' & Hj') & _ & _).
  destruct (H Standin.answers (snd Standin.answers) eq_refl eq_refl)
    as (slugs & Hr & Hd & _).
  refine (conj _ (conj _ (conj _ (conj _ (conj _ _))))).
  - rewrite Hb, (Hs (or_introl eq_refl)). reflexivity.
  - rewrite Hb', (Hs' _ _ eq_refl). reflexivity.
  - rewrite (Hj (JNum (of_Z 10)) eq_refl eq_refl eq_refl eq_refl),
            (Hs (or_introl eq_refl)).
    reflexivity.
  - rewrite (Hj' (JNum (of_Z 10)) eq_refl eq_refl eq_refl eq_refl),
            (Hs' _ _ eq_refl).
    reflexivity.
  - rewrite Hr, Hd. reflexivity.
  - rewrite (Hf (Standin.strict_fetch Standin.answers) eq_refl), Hr, Hd.
    reflexivity.
Defined.

(** The body of the first example above is a JSON text, and what the
    server reads in it as [since] is the default date. *)
Example updatesSince_body_since :
  match JSON.parse
          (body (loadDeletedArticleSlugs_request Standin.print_whole (js "key")
                   None None None))
  with
  | Returns (JObj fields) =>
      match get_own fields (js "variables") with
      | JObj variables => Some (get_own variables (js "since"))
      | _ => None
      end
  | _ => None
  end
  = Some (JStr (js "2021-01-01")).
Proof. vm_compute. reflexivity. Qed.

Lemma loadArticles_request_variables_witness :
  body (loadArticles_request Standin.stringify Standin.print_whole (js "key")
          None None (Some (js "2023-01-05")) (Some (js "in:inbox")) None None)
  = Standin.stringify
      (JObj
         [ (js "query", JStr search_document);
           (js "variables",
            JObj
              [ (js "after", JStr (js "0"));
                (js "first", JNum (of_Z 10));
                (js "query",
                 JStr (js "updated:2023-01-05 sort:saved-asc in:inbox"));
                (js "includeContent", JBool false);
                (js "format", JStr (js "html")) ]) ]) /\
  body (loadArticles_request Standin.stringify Standin.print_whole (js "key")
          (Some (of_Z 50)) (Some (of_Z 25)) None None (Some true)
          (Some (js "markdown")))
  = Standin.stringify
      (JObj
         [ (js "query", JStr search_document);
           (js "variables",
            JObj
              [ (js "after", JStr (js "50"));
                (js "first", JNum (of_Z 25));
                (js "query", JStr (js " sort:saved-asc "));
                (js "includeContent", JBool true);
                (js "format", JStr (js "markdown")) ]) ]) /\
  loadArticles (Standin.fetch Standin.answers) Standin.search_json
    Standin.stringify Standin.print_whole (js "key") None None None None
    None None
  = Returns ([Standin.article (js "a"); Standin.article (js "b")], true) /\
  loadArticles (Sample.offline Standin.server) Standin.search_json
    Standin.stringify Standin.print_whole (js "key") None None None None
    None None
  = Throws (OtherError (js "Failed to fetch")) /\
  loadArticles (Standin.strict_fetch Standin.answers) Standin.search_json
    Standin.stringify Standin.print_whole (js "key") None None None None
    None None
  = loadArticles (Standin.fetch Standin.answers) Standin.search_json
      Standin.stringify Standin.print_whole (js "key") None None None None
      None None.
Proof.
  pose proof (@loadArticles_request_variables Standin.server
                (Standin.fetch Standin.answers) Standin.search_json
                Standin.stringify Standin.print_whole (js "key")
                None None (Some (js "2023-01-05")) (Some (js "in:inbox"))
                None None)
    as ((filter & page_size & Hb & _ & Hf & Hp & _) & _).
  pose proof (@loadArticles_request_variables Standin.server
                (Standin.fetch Standin.answers) Standin.search_json
                Standin.stringify Standin.print_whole (js "key")
                (Some (of_Z 50)) (Some (of_Z 25)) None None (Some true)
                (Some (js "markdown")))
    as ((filter' & page_size' & Hb' & Hf' & _ & _ & Hp') & _).
  pose proof (@loadArticles_request_variables Standin.server
                (Standin.fetch Standin.answers) Standin.search_json
                Standin.stringify Standin.print_whole (js "key")
                None None None None None None)
    as (_ & Hres & _ & Hfetch).
  pose proof (@loadArticles_request_variables Standin.server
                (Sample.offline Standin.server) Standin.search_json
                Standin.stringify Standin.print_whole (js "key")
                None None None None None None)
    as (_ & _ & Hthrow & _).
  refine (conj _ (conj _ (conj _ (conj _ _)))).
  - rewrite Hb, (Hp eq_refl), (Hf _ _ eq_refl). reflexivity.
  - rewrite Hb', (Hp' _ eq_refl), (Hf' (or_introl eq_refl)). reflexivity.
  - rewrite (Hres Standin.answers (fst Standin.answers) eq_refl eq_refl).
    reflexivity.
  - apply Hthrow. reflexivity.
  - apply (Hfetch (Standin.strict_fetch Standin.answers)). reflexivity.
Defined.

(** C8 as stated fails: the string sent is not the three parts put end
    to end.  The clause comes with a space on each side, also when the
    filter and the query are empty. *)
Lemma loadArticles_query_spaces :
  search_query [] [] = js " sort:saved-asc " /\
  search_query [] [] <> [] ++ js "sort:saved-asc" ++ [] /\
  search_query (js "2023-01-05") (js "in:inbox")
  = js "updated:2023-01-05 sort:saved-asc in:inbox" /\
  search_query (js "2023-01-05") (js "in:inbox")
  <> js "updated:2023-01-05" ++ js "sort:saved-asc" ++ js "in:inbox" /\
  body (loadArticles_request Standin.stringify Standin.print_whole (js "key")
          None None None None None None)
  = Standin.stringify
      (JObj
         [ (js "query", JStr search_document);
           (js "variables",
            JObj
              [ (js "after", JStr (js "0"));
                (js "first", JNum (of_Z 10));
                (js "query", JStr (js " sort:saved-asc "));
                (js "includeContent", JBool false);
                (js "format", JStr (js "html")) ]) ]).
Proof.
  refine (conj _ (conj _ (conj _ (conj _ _))));
    try reflexivity; discriminate.
Qed.


(** The body of the first example above is a JSON text, in which the
    server reads the search query and the page size. *)
Example search_body_variables :
  match JSON.parse
          (body (loadArticles_request Standin.stringify Standin.print_whole
                   (js "key") None None (Some (js "2023-01-05"))
                   (Some (js "in:inbox")) None None))
  with
  | Returns (JObj fields) =>
      match get_own fields (js "variables") with
      | JObj variables =>
          Some (get_own variables (js "query"), get_own variables (js "first"))
      | _ => None
      end
  | _ => None
  end
  = Some (JStr (js "updated:2023-01-05 sort:saved-asc in:inbox"),
          JNum (of_Z 10)).
Proof. vm_compute. reflexivity. Qed.

Lemma fetchers_preserve_order_witness :
  loadArticles (Standin.fetch Standin.answers) Standin.search_json
    Standin.stringify Standin.print_whole (js "key") None None None None
    None None
  = Returns ([Standin.article (js "a"); Standin.article (js "b")], true) /\
  loadDeletedArticleSlugs (Standin.fetch Standin.answers)
    Standin.updatesSince_json Standin.print_whole (js "key") None None None
  = Returns ([js "a"], false).
Proof.
  pose proof (@fetchers_preserve_order Standin.server
                (Standin.fetch Standin.answers) Standin.search_json
                Standin.updatesSince_json Standin.stringify
                Standin.print_whole (js "key") None None None None None None)
    as (H1 & H2).
  destruct (H1 Standin.answers (fst Standin.answers) eq_refl eq_refl)
    as (articles & Hr & _ & _).
  destruct (H2 Standin.answers (snd Standin.answers) eq_refl eq_refl)
    as (slugs & positions & Hr' & _ & _ & _).
  split; reflexivity.
Defined.

(** The example of the specification, on the response itself. *)
Example deleted_slugs_example :
  deleted_slugs
    (updatesSince_edges
       (Standin.updatesSince_response
          [(DELETED, js "a"); (UPDATED, js "b")] true))
  = [js "a"].
Proof. reflexivity. Qed.

(** ** Claims on the text helpers *)

Section LuxonFacts.

Variable DateTime : Type.
Variable isValid : DateTime -> bool.
Variable fromFormat : jsstring -> jsstring -> DateTime.

(** C6.  The result is that of the format with seconds when that one is
    valid, and otherwise that of the format without seconds, so that it
    is invalid when neither format matches; no outcome is an exception. *)
Theorem parseDateTime_fallback (str : jsstring) :
  let with_seconds := fromFormat str (js "yyyy-MM-dd'T'HH:mm:ss") in
  let without_seconds := fromFormat str (js "yyyy-MM-dd'T'HH:mm") in
  (isValid with_seconds = true ->
     parseDateTime isValid fromFormat str = with_seconds) /\
  (isValid with_seconds = false ->
     parseDateTime isValid fromFormat str = without_seconds) /\
  (isValid with_seconds = false -> isValid without_seconds = false ->
     isValid (parseDateTime isValid fromFormat str) = false).
Proof.
  intros with_seconds without_seconds. unfold parseDateTime.
  change DATE_FORMAT with (js "yyyy-MM-dd'T'HH:mm:ss").
  change DATE_FORMAT_W_OUT_SECONDS with (js "yyyy-MM-dd'T'HH:mm").
  fold with_seconds without_seconds.
  repeat split.
  - intros ->. reflexivity.
  - intros ->. reflexivity.
  - intros -> H. exact H.
Qed.

End LuxonFacts.

Lemma parseDateTime_fallback_witness :
  Standin.isValid
    (parseDateTime Standin.isValid Standin.fromFormat (js "2023-01-05T10:30:00"))
  = true /\
  parseDateTime Standin.isValid Standin.fromFormat (js "2023-01-05T10:30")
  = Standin.fromFormat (js "2023-01-05T10:30") (js "yyyy-MM-dd'T'HH:mm") /\
  Standin.isValid
    (parseDateTime Standin.isValid Standin.fromFormat (js "not-a-date"))
  = false.
Proof.
  pose proof (@parseDateTime_fallback Standin.DateTime Standin.isValid
                Standin.fromFormat (js "2023-01-05T10:30:00")) as (H1 & _ & _).
  pose proof (@parseDateTime_fallback Standin.DateTime Standin.isValid
                Standin.fromFormat (js "2023-01-05T10:30")) as (_ & H2 & _).
  pose proof (@parseDateTime_fallback Standin.DateTime Standin.isValid
                Standin.fromFormat (js "not-a-date")) as (_ & _ & H3).
  split; [|split].
  - rewrite (H1 eq_refl). reflexivity.
  - apply H2. reflexivity.
  - apply H3; reflexivity.
Defined.

Section MarkdownEscapeFacts.

Variable escape : jsstring -> outcome jsstring.

(** C7.  When the escaping library throws, the text comes back as it
    was given (and the failure goes to the console, not to the caller);
    otherwise what the library returns comes back. *)
Theorem markdownEscape_fail_open (text : jsstring) :
  (forall e, escape text = Throws e ->
     markdownEscape escape text = (text, [(js "markdownEscape error", e)])) /\
  (forall escaped, escape text = Returns escaped ->
     markdownEscape escape text = (escaped, [])).
Proof.
  unfold markdownEscape. split.
  - intros e ->. reflexivity.
  - intros escaped ->. reflexivity.
Qed.

End MarkdownEscapeFacts.

Lemma markdownEscape_fail_open_witness :
  fst (markdownEscape Standin.escape []) = [] /\
  fst (markdownEscape Standin.escape (js "2 * 3")) = js "2 \* 3".
Proof.
  pose proof (markdownEscape_fail_open Standin.escape []) as (H1 & _).
  pose proof (markdownEscape_fail_open Standin.escape (js "2 * 3")) as (_ & H2).
  split.
  - rewrite (H1 TypeError eq_refl). reflexivity.
  - rewrite (H2 _ eq_refl). reflexivity.
Defined.

Lemma replace_every_app (c : code_unit) (replacement s t : jsstring) :
  replace_every c replacement (s ++ t)
  = replace_every c replacement s ++ replace_every c replacement t.
Proof.
  induction s as [|d s IH]; [reflexivity|]. simpl.
  destruct (d =? c)%N; rewrite IH; [apply app_assoc | reflexivity].
Qed.

(** C9.  Every quotation mark gives way to a backslash and a quotation
    mark, every other code unit stays, and the order is kept; a text
    without quotation marks comes back unchanged. *)
Theorem escapeQuotationMarks_every_mark (text : jsstring) :
  escapeQuotationMarks text = flat_map escaped_unit text /\
  escaped_unit quotation_mark = [backslash; quotation_mark] /\
  (forall c, c <> quotation_mark -> escaped_unit c = [c]) /\
  (forall s t, escapeQuotationMarks (s ++ t)
               = escapeQuotationMarks s ++ escapeQuotationMarks t) /\
  (~ In quotation_mark text -> escapeQuotationMarks text = text).
Proof.
  unfold escapeQuotationMarks. repeat split.
  - induction text as [|d text IH]; [reflexivity|]. simpl.
    unfold escaped_unit at 1. destruct (d =? quotation_mark)%N; rewrite IH; reflexivity.
  - intros c Hc. unfold escaped_unit.
    destruct (N.eqb_spec c quotation_mark); [contradiction|reflexivity].
  - intros s t. apply replace_every_app.
  - induction text as [|d text IH]; intros Hn; [reflexivity|]. simpl.
    destruct (N.eqb_spec d quotation_mark) as [->|Hd].
    + exfalso. apply Hn. now left.
    + rewrite IH; [reflexivity|]. intros H. apply Hn. now right.
Qed.

Lemma escapeQuotationMarks_every_mark_witness :
  escapeQuotationMarks (jsq "say 'hi'") = jsq "say \'hi\'" /\
  escaped_unit 97%N = [97%N] /\
  escapeQuotationMarks (js "say hi") = js "say hi".
Proof.
  pose proof (escapeQuotationMarks_every_mark (jsq "say 'hi'"))
    as (H1 & _ & H3 & _ & _).
  pose proof (escapeQuotationMarks_every_mark (js "say hi"))
    as (_ & _ & _ & _ & H5).
  refine (conj _ (conj _ _)).
  - rewrite H1. reflexivity.
  - apply H3. discriminate.
  - apply H5. simpl.
    intros H. repeat (destruct H as [H|H]; [discriminate H|]). exact H.
Defined.

(** * Further properties *)

(** ** Texts that are not JSON *)

Lemma number_literal_cons (c : code_unit) (w : list code_unit) :
  c <> 45%N -> JSON.is_digit c = false -> JSON.number_literal (c :: w) = None.
Proof.
  intros H45 Hd. unfold JSON.number_literal.
  assert (E : match c :: w with
              | 45%N :: w' => (true, w')
              | _ => (false, c :: w)
              end = (false, c :: w)).
  { destruct c as [|p]; [reflexivity|].
    do 6 (try (destruct p as [p|p|]; try reflexivity)).
    contradiction H45. reflexivity. }
  rewrite E. cbn [JSON.span_digits]. rewrite Hd. reflexivity.
Qed.

Lemma begins_no_value_inv (c : code_unit) :
  begins_no_value c = true ->
  (JSON.is_ws c = false /\ (c =? 34)%N = false /\ c <> 91%N /\ c <> 123%N) /\
  c <> 45%N /\ JSON.is_digit c = false /\
  c <> 110%N /\ c <> 116%N /\ c <> 102%N.
Proof.
  unfold begins_no_value. intros H.
  apply andb_true_iff in H as [H Hf]. apply andb_true_iff in H as [H Ht].
  apply andb_true_iff in H as [H Hn]. apply andb_true_iff in H as [H Hd].
  apply andb_true_iff in H as [H H45]. apply andb_true_iff in H as [H H123].
  apply andb_true_iff in H as [H H91]. apply andb_true_iff in H as [Hws Hq].
  apply negb_true_iff in Hf, Ht, Hn, Hd, H45, H123, H91, Hws, Hq.
  apply N.eqb_neq in Hf, Ht, Hn, H45, H123, H91. auto 12.
Qed.

Lemma scalar_begins_no_value (c : code_unit) (w : list code_unit) :
  begins_no_value c = true -> JSON.scalar (c :: w) = None.
Proof.
  intros H. destruct (@begins_no_value_inv c H) as (_ & H45 & Hd & Hn & Ht & Hf).
  unfold JSON.scalar.
  destruct (JsString.eqb (c :: w) (js "null")) eqn:E1;
    [apply JsString_eqb_eq in E1; injection E1 as E1 _; contradiction|].
  destruct (JsString.eqb (c :: w) (js "true")) eqn:E2;
    [apply JsString_eqb_eq in E2; injection E2 as E2 _; contradiction|].
  destruct (JsString.eqb (c :: w) (js "false")) eqn:E3;
    [apply JsString_eqb_eq in E3; injection E3 as E3 _; contradiction|].
  rewrite number_literal_cons by assumption. reflexivity.
Qed.

Lemma lex_word_begins_no_value (c : code_unit) (rest : jsstring) :
  begins_no_value c = true ->
  forall w, JSON.lex (JSON.InWord (rev (c :: w))) rest = None.
Proof.
  intros H. induction rest as [|d rest IH]; intros w.
  - cbn [JSON.lex]. unfold JSON.end_word. rewrite rev_involutive.
    rewrite scalar_begins_no_value by assumption. reflexivity.
  - cbn [JSON.lex JSON.lex_step]. unfold JSON.end_word. rewrite rev_involutive.
    rewrite scalar_begins_no_value by assumption. cbn [option_map].
    destruct (_ || _); [reflexivity|].
    change (d :: rev (c :: w)) with (rev [d] ++ rev (c :: w)).
    rewrite <- rev_app_distr. cbn [app]. change (c :: w ++ [d]) with (c :: (w ++ [d])).
    rewrite (IH (w ++ [d])). reflexivity.
Qed.

(** The four marks with which no value begins. *)
Lemma punctuation_closing (c : code_unit) (t : JSON.token) :
  JSON.punctuation c = Some t -> c <> 91%N -> c <> 123%N ->
  JSON.start_value t [] = None.
Proof.
  intros Hp H91 H123. destruct c as [|p]; [discriminate|].
  do 7 (try (destruct p as [p|p|]; try discriminate)); cbn in Hp;
    injection Hp as <-; try reflexivity; contradiction.
Qed.

Lemma parse_begins_no_value (c : code_unit) (rest : jsstring) :
  begins_no_value c = true -> JSON.parse (c :: rest) = Throws SyntaxError.
Proof.
  intros H. destruct (@begins_no_value_inv c H) as ((Hws & Hq & H91 & H123) & _).
  unfold JSON.parse. cbn [JSON.lex JSON.lex_step].
  unfold JSON.lex_between. rewrite Hws, Hq.
  destruct (JSON.punctuation c) as [t|] eqn:Hp.
  - destruct (JSON.lex JSON.Between rest) as [ts|]; [|reflexivity].
    cbn [option_map app JSON.run JSON.parse_step].
    rewrite (@punctuation_closing c t Hp H91 H123). reflexivity.
  - change [c] with (rev (c :: [])).
    rewrite lex_word_begins_no_value by assumption. reflexivity.
Qed.

Lemma lex_between_outside (c : code_unit) :
  (c =? 34)%N = false -> outside (fst (JSON.lex_between c)) = true.
Proof.
  intros H. unfold JSON.lex_between. rewrite H.
  destruct (JSON.is_ws c); [reflexivity|].
  destruct (JSON.punctuation c); reflexivity.
Qed.

Lemma lex_step_outside (st st' : JSON.lexer_state) (c : code_unit)
    (ts : list JSON.token) :
  outside st = true -> (c =? 34)%N = false ->
  JSON.lex_step st c = Some (st', ts) -> outside st' = true.
Proof.
  intros Ho Hc. pose proof (lex_between_outside c Hc) as Hb.
  destruct st as [|w|raw esc]; [| |discriminate]; cbn [JSON.lex_step].
  - intros [= E]. rewrite E in Hb. exact Hb.
  - destruct (_ || _).
    + destruct (JSON.end_word w); [|discriminate].
      destruct (JSON.lex_between c) as [st0 ts0]. intros [= <- _]. exact Hb.
    + intros [= <- _]. reflexivity.
Qed.

Lemma feed_outside (s : jsstring) : forall st st' ts,
  outside st = true -> no_mark s = true ->
  feed st s = Some (st', ts) -> outside st' = true.
Proof.
  induction s as [|c s IH]; intros st st' ts Ho Hs.
  - intros [= <- _]. exact Ho.
  - apply andb_true_iff in Hs as [Hc Hs]. apply negb_true_iff in Hc.
    cbn [feed]. destruct (JSON.lex_step st c) as [[st1 ts1]|] eqn:E; [|discriminate].
    pose proof (@lex_step_outside _ _ _ _ Ho Hc E) as Ho1.
    destruct (feed st1 s) as [[st2 ts2]|] eqn:E2; [|discriminate].
    intros [= <- _]. exact (IH _ _ _ Ho1 Hs E2).
Qed.

Lemma lex_unclosed (st : JSON.lexer_state) :
  outside st = true -> JSON.lex st (jsq "'}}") = None.
Proof.
  destruct st as [|w|raw esc]; [reflexivity| |discriminate]. intros _.
  change (jsq "'}}") with [34; 125; 125]%N.
  cbn [JSON.lex JSON.lex_step].
  change (JSON.is_ws 34%N || (34 =? 34)%N ||
          match JSON.punctuation 34%N with Some _ => true | None => false end)
    with true. cbv iota.
  destruct (JSON.end_word w); reflexivity.
Qed.

(** ** The request bodies as JSON texts *)



Lemma loadArticle_body (slug apiKey : jsstring) :
  plain slug = true ->
  JSON.parse (body (loadArticle_request slug apiKey)) =
  Returns (JObj [ (js "query", JStr getArticle_document);
                  (js "variables",
                   JObj [ (js "username", JStr (js "me"));
                          (js "slug", JStr slug) ]) ]).
Proof.
  intros Hs. unfold loadArticle_request, body, JSON.parse.
  rewrite lex_feed, feed_app.
  set (P := feed JSON.Between getArticle_body_to_slug). vm_compute in P. subst P.
  cbn [then_feed]. rewrite feed_app, (@feed_plain slug _ Hs). cbn [then_feed].
  change getArticle_body_end with [34; 125; 125]%N.
  rewrite feed_close, app_nil_r, rev_involutive, (@unescape_plain slug Hs).
  cbn [then_feed feed JSON.lex_step JSON.lex_between JSON.is_ws JSON.punctuation
       N.eqb Pos.eqb orb app].
  unfold at_end. cbn [JSON.lex option_map].
  vm_compute. reflexivity.
Qed.

Lemma loadArticle_body_mark (s1 s2 apiKey : jsstring) :
  plain s1 = true -> no_mark s2 = true ->
  JSON.parse (body (loadArticle_request (s1 ++ quotation_mark :: s2) apiKey))
  = Throws SyntaxError.
Proof.
  intros H1 H2. unfold loadArticle_request, body, JSON.parse.
  rewrite lex_app.
  set (P := feed JSON.Between getArticle_body_to_slug). vm_compute in P. subst P.
  cbv iota beta. rewrite <- app_assoc.
  rewrite lex_app, (@feed_plain s1 _ H1), app_nil_r. cbv iota beta.
  change ((quotation_mark :: s2) ++ getArticle_body_end)
    with (34%N :: (s2 ++ jsq "'}}")).
  cbn [JSON.lex JSON.lex_step]. change (34 =? 34)%N with true. cbv iota.
  rewrite rev_involutive, (@unescape_plain s1 H1). cbn [option_map].
  rewrite lex_app.
  destruct (feed JSON.Between s2) as [[st' ts]|] eqn:E; [|reflexivity].
  rewrite (lex_unclosed _ (@feed_outside s2 JSON.Between st' ts eq_refl H2 E)).
  reflexivity.
Qed.

Lemma loadArticle_body_second_slug (s1 s2 apiKey : jsstring) :
  plain s1 = true -> plain s2 = true ->
  JSON.parse
    (body (loadArticle_request (s1 ++ jsq "','slug':'" ++ s2) apiKey))
  = Returns (JObj [ (js "query", JStr getArticle_document);
                    (js "variables",
                     JObj [ (js "username", JStr (js "me"));
                            (js "slug", JStr s1);
                            (js "slug", JStr s2) ]) ]).
Proof.
  intros H1 H2. unfold loadArticle_request, body, JSON.parse.
  rewrite lex_app.
  set (P := feed JSON.Between getArticle_body_to_slug). vm_compute in P. subst P.
  cbv iota beta. rewrite <- !app_assoc.
  rewrite lex_app, (@feed_plain s1 _ H1), app_nil_r. cbv iota beta.
  change (jsq "','slug':'") with (34%N :: jsq ",'slug':'").
  rewrite lex_app, feed_close, rev_involutive, (@unescape_plain s1 H1).
  set (P := then_feed _ (jsq ",'slug':'")). vm_compute in P. subst P.
  cbv iota beta. change getArticle_body_end with (jsq "'}}").
  rewrite (@lex_string_end s2 H2).
  vm_compute. reflexivity.
Qed.

(** ** The order of the numbers *)



Lemma compare_rank (x y : number) :
  is_nan x = false -> is_nan y = false ->
  exists c, SFcompare x y = Some c /\
    match c with
    | Lt => rank_lt (rank x) (rank y)
    | Eq => rank x = rank y
    | Gt => rank_lt (rank y) (rank x)
    end.
Proof.
  intros Hx Hy.
  destruct x as [sx|sx| |sx mx ex], y as [sy|sy| |sy my ey]; try discriminate;
    cbn [SFcompare rank].
  9: { destruct sx, sy; eexists; (split; [reflexivity|]);
         try (cbv beta iota delta [rank_lt]; lia);
         change (Pos.compare_cont Eq mx my) with (mx ?= my)%positive;
         destruct (Z.compare_spec ex ey);
         cbv beta iota delta [rank_lt CompOpp]; try lia;
         destruct (Pos.compare_spec mx my);
         cbv beta iota delta [rank_lt CompOpp]; subst; try reflexivity; lia. }
  all: destruct sx; try destruct sy; eexists; (split; [reflexivity|]);
    cbv beta iota delta [rank_lt]; try reflexivity; lia.
Qed.

Lemma ltb_rank (x y : number) :
  is_nan x = false -> is_nan y = false ->
  (Number.ltb x y = true <-> rank_lt (rank x) (rank y)).
Proof.
  intros Hx Hy. destruct (compare_rank x y Hx Hy) as (c & Hc & Hr).
  unfold Number.ltb, SFltb. rewrite Hc.
  destruct (rank x) as [[a1 a2] a3], (rank y) as [[b1 b2] b3].
  destruct c; cbn in *; split; intros H; try discriminate; try reflexivity;
    try (injection Hr as -> -> ->); lia.
Qed.

Lemma strict_eq_rank (x y : number) :
  is_nan x = false -> is_nan y = false ->
  (Number.strict_eq x y = true <-> rank x = rank y).
Proof.
  intros Hx Hy. destruct (compare_rank x y Hx Hy) as (c & Hc & Hr).
  unfold Number.strict_eq, SFeqb. rewrite Hc.
  destruct (rank x) as [[a1 a2] a3], (rank y) as [[b1 b2] b3].
  destruct c; cbn in *; split; intros H; try discriminate; try reflexivity;
    try assumption; injection H as -> -> ->; lia.
Qed.

Lemma from_json_not_nan (x : number) : from_json x = true -> is_nan x = false.
Proof.
  unfold from_json. intros H. apply andb_true_iff in H as [_ H].
  apply negb_true_iff in H. exact H.
Qed.

Lemma before_rank (p q : number * number) :
  is_nan (fst p) = false -> is_nan (snd p) = false ->
  is_nan (fst q) = false -> is_nan (snd q) = false ->
  (before p q = true <->
   rank_lt (rank (fst p)) (rank (fst q)) \/
   (rank (fst p) = rank (fst q) /\ rank_lt (rank (snd p)) (rank (snd q)))).
Proof.
  intros H1 H2 H3 H4. unfold before.
  rewrite orb_true_iff, andb_true_iff.
  rewrite !ltb_rank, strict_eq_rank by assumption. reflexivity.
Qed.

Lemma before_trans (p q r : number * number) :
  is_nan (fst p) = false -> is_nan (snd p) = false ->
  is_nan (fst q) = false -> is_nan (snd q) = false ->
  is_nan (fst r) = false -> is_nan (snd r) = false ->
  before p q = true -> before q r = true -> before p r = true.
Proof.
  intros H1 H2 H3 H4 H5 H6.
  rewrite !before_rank by assumption.
  destruct (rank (fst p)) as [[a1 a2] a3], (rank (snd p)) as [[a4 a5] a6].
  destruct (rank (fst q)) as [[b1 b2] b3], (rank (snd q)) as [[b4 b5] b6].
  destruct (rank (fst r)) as [[c1 c2] c3], (rank (snd r)) as [[c4 c5] c6].
  cbn. intros [H|[E H]] [H'|[E' H']];
    try (injection E as -> -> ->); try (injection E' as -> -> ->);
    try (left; lia); right; split; try reflexivity; lia.
Qed.

Lemma sub_not_nan (x y : number) :
  from_json x = true -> from_json y = true -> same_infinity x y = false ->
  is_nan (Number.sub x y) = false.
Proof.
  intros Hx Hy Hinf. pose proof (sub_sign _ _ Hx Hy Hinf) as H.
  destruct (compare_defined _ _ Hx Hy) as [c Hc]. rewrite Hc in H.
  destruct (Number.sub x y); try reflexivity. discriminate.
Qed.

Lemma sub_same_infinity (x y : number) :
  same_infinity x y = true -> Number.sub x y = NaN.
Proof. destruct x as [| [|] | |], y as [| [|] | |]; try discriminate; reflexivity. Qed.


Lemma difference_order (ta la tb lb : number) :
  from_json ta = true -> from_json la = true ->
  from_json tb = true -> from_json lb = true ->
  is_negative (difference ta la tb lb) = before (ta, la) (tb, lb) /\
  is_positive (difference ta la tb lb) = before (tb, lb) (ta, la) /\
  is_nan (difference ta la tb lb)
  = Number.strict_eq ta tb && same_infinity la lb.
Proof.
  intros Hta Hla Htb Hlb.
  destruct (Number.strict_eq ta tb && same_infinity la lb) eqn:E.
  - apply andb_true_iff in E as [Et Ei]. unfold difference, before. cbn [fst snd].
    rewrite (equal_sym tb ta), Et, (sub_same_infinity _ _ Ei).
    rewrite (equal_not_before _ _ Et).
    rewrite equal_sym in Et. rewrite (equal_not_before _ _ Et).
    pose proof (same_infinity_equal _ _ Ei) as El.
    rewrite (equal_not_before _ _ El).
    rewrite equal_sym in El. rewrite (equal_not_before _ _ El).
    repeat split.
  - destruct (@result_signs ta la tb lb Hta Hla Htb Hlb E) as (N & P & _).
    cbn zeta in N, P. fold (difference ta la tb lb) in N, P.
    split; [exact N|]. split; [exact P|].
    unfold difference. destruct (Number.strict_eq ta tb) eqn:Et.
    + apply sub_not_nan; assumption.
    + apply sub_not_nan; try assumption.
      destruct (same_infinity ta tb) eqn:S; [|reflexivity].
      apply same_infinity_equal in S. congruence.
Qed.

Section ComparatorFacts.

Variable coerce : JSVal -> number.

Lemma compare_difference (a b : Highlight) (ta la tb lb : number) :
  getHighlightPoint (patch a) = Returns {| left := JNum la; top := JNum ta |} ->
  getHighlightPoint (patch b) = Returns {| left := JNum lb; top := JNum tb |} ->
  compareHighlightsInFile coerce a b = Returns (difference ta la tb lb).
Proof.
  intros Ha Hb. unfold compareHighlightsInFile, difference. rewrite Ha, Hb.
  cbn [bind top left strict_equal minus ToNumber].
  destruct (Number.strict_eq ta tb); reflexivity.
Qed.

End ComparatorFacts.

(** ** Escaped texts and deleted slugs *)

Lemma escape_cons (c : code_unit) (text : jsstring) :
  escapeQuotationMarks (c :: text) =
  if (c =? quotation_mark)%N
  then backslash :: quotation_mark :: escapeQuotationMarks text
  else c :: escapeQuotationMarks text.
Proof. unfold escapeQuotationMarks. cbn [replace_every]. destruct (c =? _)%N; reflexivity. Qed.

Lemma escape_head (text : jsstring) (out : jsstring) :
  escapeQuotationMarks text <> quotation_mark :: out.
Proof.
  destruct text as [|c text]; [discriminate|]. rewrite escape_cons.
  destruct (N.eqb_spec c quotation_mark) as [->|Hc]; [discriminate|].
  intros [= E _]. contradiction.
Qed.

Lemma escape_quote_at (text : jsstring) : forall i,
  nth_error (escapeQuotationMarks text) i = Some quotation_mark ->
  exists before_it after_it,
    escapeQuotationMarks text
    = before_it ++ backslash :: quotation_mark :: after_it /\
    i = S (List.length before_it).
Proof.
  induction text as [|c text IH]; intros i.
  - destruct i; discriminate.
  - rewrite escape_cons. destruct (N.eqb_spec c quotation_mark) as [->|Hc].
    + destruct i as [|[|i]]; cbn [nth_error].
      * discriminate.
      * intros _. exists [], (escapeQuotationMarks text). split; reflexivity.
      * intros H. destruct (IH _ H) as (b & a & E & ->).
        exists (backslash :: quotation_mark :: b), a. rewrite E. split; reflexivity.
    + destruct i as [|i]; cbn [nth_error].
      * intros [= E]. contradiction.
      * intros H. destruct (IH _ H) as (b & a & E & ->).
        exists (c :: b), a. rewrite E. split; reflexivity.
Qed.

Lemma deleted_slugs_count (edges : list UpdatesSince.Edge) (s : jsstring) :
  count_occ (list_eq_dec N.eq_dec) (deleted_slugs edges) s
  = List.length
      (filter (fun edge => deleted edge && JsString.eqb (node_slug edge) s) edges).
Proof.
  induction edges as [|edge edges IH]; [reflexivity|].
  cbn [deleted_slugs filter]. unfold deleted at 1.
  destruct (UpdatesSince.updateReason edge); cbn [is_deleted andb]; try exact IH.
  cbn [count_occ]. unfold JsString.eqb at 1.
  destruct (list_eq_dec N.eq_dec (node_slug edge) s); cbn [List.length];
    rewrite IH; reflexivity.
Qed.

Lemma deleted_slugs_length (edges : list UpdatesSince.Edge) :
  List.length (deleted_slugs edges) = List.length (filter deleted edges) /\
  (List.length (deleted_slugs edges) <= List.length edges)%nat.
Proof.
  induction edges as [|edge edges [IH1 IH2]]; [split; reflexivity|].
  cbn [deleted_slugs filter]. unfold deleted at 1.
  destruct (UpdatesSince.updateReason edge); cbn [is_deleted List.length]; lia.
Qed.

Lemma deleted_slugs_nil (edges : list UpdatesSince.Edge) :
  deleted_slugs edges = [] <->
  forall edge, In edge edges -> UpdatesSince.updateReason edge <> DELETED.
Proof.
  induction edges as [|edge edges IH]; cbn [deleted_slugs].
  - split; [intros _ e []|reflexivity].
  - destruct (UpdatesSince.updateReason edge) eqn:E; rewrite ?IH; split.
    + intros H e [<-|Hin]; [congruence|auto].
    + intros H e Hin. apply H. now right.
    + intros H e [<-|Hin]; [congruence|auto].
    + intros H e Hin. apply H. now right.
    + discriminate.
    + intros H. exfalso. apply (H edge); [now left|assumption].
Qed.

(** ** The comparator as an order *)

Lemma getHighlightPoint_origin (patch : jsstring) (v : JSVal) :
  JSON.parse patch = Returns v -> v <> JNull -> without_box v ->
  getHighlightPoint patch = Returns origin.
Proof.
  intros Hp Hn Hw. unfold getHighlightPoint. rewrite Hp. cbn [bind].
  rewrite destructure_bbox_of; eauto using parse_defined.
  cbn [bind]. rewrite (without_box_guard Hw). reflexivity.
Qed.

Lemma getHighlightPoint_begins_no_value (c : code_unit) (rest : jsstring) :
  begins_no_value c = true ->
  getHighlightPoint (c :: rest) = Throws SyntaxError.
Proof.
  intros H. unfold getHighlightPoint.
  rewrite parse_begins_no_value by assumption. reflexivity.
Qed.

Section ComparatorOrder.

Variable coerce : JSVal -> number.

(** X1.  The comparator is transitive on highlights whose points are
    numeric: if it puts [a] before [b] and [b] before [c], with a
    negative result each time, it puts [a] before [c]. *)
Theorem compareHighlightsInFile_transitive
    (a b c : Highlight) (ta la tb lb tc lc r1 r2 : number) :
  getHighlightPoint (patch a) = Returns {| left := JNum la; top := JNum ta |} ->
  getHighlightPoint (patch b) = Returns {| left := JNum lb; top := JNum tb |} ->
  getHighlightPoint (patch c) = Returns {| left := JNum lc; top := JNum tc |} ->
  compareHighlightsInFile coerce a b = Returns r1 -> is_negative r1 = true ->
  compareHighlightsInFile coerce b c = Returns r2 -> is_negative r2 = true ->
  exists r3,
    compareHighlightsInFile coerce a c = Returns r3 /\ is_negative r3 = true.
Proof.
  intros Ha Hb Hc H1 N1 H2 N2.
  destruct (getHighlightPoint_numbers _ Ha) as [Hla Hta].
  destruct (getHighlightPoint_numbers _ Hb) as [Hlb Htb].
  destruct (getHighlightPoint_numbers _ Hc) as [Hlc Htc].
  rewrite (@compare_difference coerce _ _ _ _ _ _ Ha Hb) in H1. injection H1 as <-.
  rewrite (@compare_difference coerce _ _ _ _ _ _ Hb Hc) in H2. injection H2 as <-.
  exists (difference ta la tc lc).
  split; [apply (@compare_difference coerce _ _ _ _ _ _ Ha Hc)|].
  destruct (@difference_order _ _ _ _ Hta Hla Htb Hlb) as (E1 & _).
  destruct (@difference_order _ _ _ _ Htb Hlb Htc Hlc) as (E2 & _).
  destruct (@difference_order _ _ _ _ Hta Hla Htc Hlc) as (E3 & _).
  rewrite E1 in N1. rewrite E2 in N2. rewrite E3.
  apply (@before_trans (ta, la) (tb, lb) (tc, lc));
    cbn [fst snd]; auto using from_json_not_nan.
Qed.

(** X2.  On two highlights whose points are numeric the comparator
    returns NaN exactly when the tops are equal and the lefts are the
    same infinity; it never does when one of the lefts is finite. *)
Theorem compareHighlightsInFile_nan (a b : Highlight) (ta la tb lb : number) :
  getHighlightPoint (patch a) = Returns {| left := JNum la; top := JNum ta |} ->
  getHighlightPoint (patch b) = Returns {| left := JNum lb; top := JNum tb |} ->
  exists r,
    compareHighlightsInFile coerce a b = Returns r /\
    is_nan r = Number.strict_eq ta tb && same_infinity la lb /\
    (is_finite la = true -> is_nan r = false) /\
    (is_finite lb = true -> is_nan r = false).
Proof.
  intros Ha Hb.
  destruct (getHighlightPoint_numbers _ Ha) as [Hla Hta].
  destruct (getHighlightPoint_numbers _ Hb) as [Hlb Htb].
  exists (difference ta la tb lb).
  split; [apply (@compare_difference coerce _ _ _ _ _ _ Ha Hb)|].
  destruct (@difference_order _ _ _ _ Hta Hla Htb Hlb) as (_ & _ & E).
  rewrite E. split; [reflexivity|]. split; intros F.
  - destruct la; try discriminate; apply andb_false_r.
  - destruct la, lb; try discriminate; apply andb_false_r.
Qed.

(** X6.  The comparator catches nothing: an exception of the decoder on
    the patch of [a] is thrown on, and when that patch decodes, one on
    the patch of [b] is.  In particular the comparison throws a
    [SyntaxError] when the patch of [a] begins with a code unit that
    begins no JSON text, as the [@] of a text diff, and when the patch of
    [a] decodes and the patch of [b] begins with such a code unit. *)
Theorem compareHighlightsInFile_throws (a b : Highlight) :
  (forall e, getHighlightPoint (patch a) = Throws e ->
     compareHighlightsInFile coerce a b = Throws e) /\
  (forall p e, getHighlightPoint (patch a) = Returns p ->
     getHighlightPoint (patch b) = Throws e ->
     compareHighlightsInFile coerce a b = Throws e) /\
  (forall c rest, patch a = c :: rest -> begins_no_value c = true ->
     compareHighlightsInFile coerce a b = Throws SyntaxError) /\
  (forall p c rest, getHighlightPoint (patch a) = Returns p ->
     patch b = c :: rest -> begins_no_value c = true ->
     compareHighlightsInFile coerce a b = Throws SyntaxError).
Proof.
  unfold compareHighlightsInFile. repeat split.
  - intros e ->. reflexivity.
  - intros p e -> ->. reflexivity.
  - intros c rest -> H. rewrite getHighlightPoint_begins_no_value by assumption.
    reflexivity.
  - intros p c rest -> -> H.
    rewrite getHighlightPoint_begins_no_value by assumption. reflexivity.
Qed.

(** X7.  Two highlights whose patches are JSON values other than [null]
    without a bounding box tie, whichever comes first: the comparator
    returns [+0] both ways. *)
Theorem compareHighlightsInFile_without_box (a b : Highlight) (va vb : JSVal) :
  JSON.parse (patch a) = Returns va -> va <> JNull -> without_box va ->
  JSON.parse (patch b) = Returns vb -> vb <> JNull -> without_box vb ->
  compareHighlightsInFile coerce a b = Returns pos_zero /\
  compareHighlightsInFile coerce b a = Returns pos_zero.
Proof.
  intros Ha Na Wa Hb Nb Wb. unfold compareHighlightsInFile.
  rewrite (@getHighlightPoint_origin _ _ Ha Na Wa),
          (@getHighlightPoint_origin _ _ Hb Nb Wb).
  split; reflexivity.
Qed.

End ComparatorOrder.

Lemma compareHighlightsInFile_transitive_witness :
  getHighlightPoint (jsq "{'bbox':[1,5,0,0]}")
    = Returns {| left := JNum (of_Z 1); top := JNum (of_Z 5) |} /\
  getHighlightPoint (jsq "{'bbox':[3,5,0,0]}")
    = Returns {| left := JNum (of_Z 3); top := JNum (of_Z 5) |} /\
  getHighlightPoint (jsq "{'bbox':[0,7,0,0]}")
    = Returns {| left := JNum pos_zero; top := JNum (of_Z 7) |} /\
  exists r3,
    compareHighlightsInFile Standin.coerce
      (Standin.highlight (jsq "{'bbox':[1,5,0,0]}"))
      (Standin.highlight (jsq "{'bbox':[0,7,0,0]}")) = Returns r3 /\
    is_negative r3 = true.
Proof.
  split; [reflexivity|]. split; [reflexivity|]. split; [reflexivity|].
  apply (@compareHighlightsInFile_transitive Standin.coerce
           (Standin.highlight (jsq "{'bbox':[1,5,0,0]}"))
           (Standin.highlight (jsq "{'bbox':[3,5,0,0]}"))
           (Standin.highlight (jsq "{'bbox':[0,7,0,0]}"))
           (of_Z 5) (of_Z 1) (of_Z 5) (of_Z 3) (of_Z 7) pos_zero
           (Number.sub (of_Z 1) (of_Z 3)) (Number.sub (of_Z 5) (of_Z 7)));
    reflexivity.
Defined.

Lemma compareHighlightsInFile_nan_witness :
  getHighlightPoint (jsq "{'bbox':[1e999,4,0,0]}")
    = Returns {| left := JNum (S754_infinity false); top := JNum (of_Z 4) |} /\
  getHighlightPoint (jsq "{'bbox':[2,4,0,0]}")
    = Returns {| left := JNum (of_Z 2); top := JNum (of_Z 4) |} /\
  (exists r,
     compareHighlightsInFile Standin.coerce
       (Standin.highlight (jsq "{'bbox':[1e999,4,0,0]}"))
       (Standin.highlight (jsq "{'bbox':[1e999,4,0,0]}")) = Returns r /\
     is_nan r = true) /\
  (exists r,
     compareHighlightsInFile Standin.coerce
       (Standin.highlight (jsq "{'bbox':[1e999,4,0,0]}"))
       (Standin.highlight (jsq "{'bbox':[2,4,0,0]}")) = Returns r /\
     is_nan r = false).
Proof.
  split; [reflexivity|]. split; [reflexivity|]. split.
  - destruct (@compareHighlightsInFile_nan Standin.coerce
                (Standin.highlight (jsq "{'bbox':[1e999,4,0,0]}"))
                (Standin.highlight (jsq "{'bbox':[1e999,4,0,0]}"))
                (of_Z 4) (S754_infinity false) (of_Z 4) (S754_infinity false)
                eq_refl eq_refl) as (r & Hr & Hn & _).
    exists r. split; [exact Hr|]. rewrite Hn. reflexivity.
  - destruct (@compareHighlightsInFile_nan Standin.coerce
                (Standin.highlight (jsq "{'bbox':[1e999,4,0,0]}"))
                (Standin.highlight (jsq "{'bbox':[2,4,0,0]}"))
                (of_Z 4) (S754_infinity false) (of_Z 4) (of_Z 2)
                eq_refl eq_refl) as (r & Hr & _ & _ & Hf).
    exists r. split; [exact Hr|]. apply Hf. reflexivity.
Defined.

Lemma compareHighlightsInFile_throws_witness :
  compareHighlightsInFile Standin.coerce
    (Standin.highlight (js "@@ -10,4 +10,4 @@"))
    (Standin.highlight (jsq "{'bbox':[1,5,0,0]}")) = Throws SyntaxError /\
  compareHighlightsInFile Standin.coerce
    (Standin.highlight (jsq "{'bbox':[1,5,0,0]}"))
    (Standin.highlight (js "@@ -10,4 +10,4 @@")) = Throws SyntaxError /\
  compareHighlightsInFile Standin.coerce
    (Standin.highlight (js "null"))
    (Standin.highlight (js "@@ -10,4 +10,4 @@")) = Throws TypeError.
Proof.
  refine (conj _ (conj _ _)).
  - apply (proj1 (proj2 (proj2
             (compareHighlightsInFile_throws Standin.coerce
                (Standin.highlight (js "@@ -10,4 +10,4 @@"))
                (Standin.highlight (jsq "{'bbox':[1,5,0,0]}")))))
             64%N (js "@ -10,4 +10,4 @@")); reflexivity.
  - apply (proj2 (proj2 (proj2
             (compareHighlightsInFile_throws Standin.coerce
                (Standin.highlight (jsq "{'bbox':[1,5,0,0]}"))
                (Standin.highlight (js "@@ -10,4 +10,4 @@")))))
             {| left := JNum (of_Z 1); top := JNum (of_Z 5) |}
             64%N (js "@ -10,4 +10,4 @@")); reflexivity.
  - apply (proj1 (compareHighlightsInFile_throws Standin.coerce
                    (Standin.highlight (js "null"))
                    (Standin.highlight (js "@@ -10,4 +10,4 @@")))).
    reflexivity.
Defined.

Lemma compareHighlightsInFile_without_box_witness :
  compareHighlightsInFile Standin.coerce
    (Standin.highlight (jsq "{'quote':'q'}"))
    (Standin.highlight (jsq "{'bbox':[1,2,3]}")) = Returns pos_zero /\
  compareHighlightsInFile Standin.coerce
    (Standin.highlight (jsq "{'bbox':[1,2,3]}"))
    (Standin.highlight (jsq "{'quote':'q'}")) = Returns pos_zero.
Proof.
  apply (@compareHighlightsInFile_without_box Standin.coerce
           (Standin.highlight (jsq "{'quote':'q'}"))
           (Standin.highlight (jsq "{'bbox':[1,2,3]}"))
           (JObj [(js "quote", JStr (js "q"))])
           (JObj [(js "bbox",
                   JArr [JNum (of_Z 1); JNum (of_Z 2); JNum (of_Z 3)])])).
  - reflexivity.
  - discriminate.
  - apply no_bbox_field. intros kv [<-|[]]. discriminate.
  - reflexivity.
  - discriminate.
  - apply array_of_other_length
      with (elems := [JNum (of_Z 1); JNum (of_Z 2); JNum (of_Z 3)]).
    + reflexivity.
    + simpl. lia.
Defined.

(** ** What the decoder of points lets through *)

(** X3.  A patch whose first code unit begins no JSON text (any but
    white space, the quotation mark, the opening bracket, the opening
    brace, the minus, a digit and the letters n, t and f) is refused with
    a [SyntaxError], whatever follows: so is every text diff, which
    begins with [@]. *)
Theorem getHighlightPoint_text_patch (c : code_unit) (rest : jsstring) :
  begins_no_value c = true ->
  getHighlightPoint (c :: rest) = Throws SyntaxError.
Proof.
  intros H. unfold getHighlightPoint.
  rewrite (@parse_begins_no_value c rest H). reflexivity.
Qed.

(** X4.  The elements of the box are not checked to be numbers: of an
    array of any four JSON values the point is made of the first two as
    they are, and of a string of four code units it is made of the first
    two code units, as strings. *)
Theorem getHighlightPoint_unchecked
    (patch : jsstring) (fields : list (jsstring * JSVal)) :
  JSON.parse patch = Returns (JObj fields) ->
  (forall x y w h, get_own fields (js "bbox") = JArr [x; y; w; h] ->
     getHighlightPoint patch = Returns {| left := x; top := y |}) /\
  (forall a b c d, get_own fields (js "bbox") = JStr [a; b; c; d] ->
     getHighlightPoint patch = Returns {| left := JStr [a]; top := JStr [b] |}).
Proof.
  intros Hp. unfold getHighlightPoint. rewrite Hp. cbn [bind Js.destructure_bbox].
  split; intros ? ? ? ? Hb; rewrite Hb; reflexivity.
Qed.

(** X5.  A coordinate of a decoded point that is a number is a double
    that a JSON text denotes: never NaN. *)
Theorem getHighlightPoint_never_nan
    (patch : jsstring) (p : HighlightPoint) (x : number) :
  getHighlightPoint patch = Returns p ->
  left p = JNum x \/ top p = JNum x ->
  from_json x = true /\ is_nan x = false.
Proof.
  intros H Hx. apply getHighlightPoint_ok in H. destruct H as [Hl Ht].
  assert (from_json x = true) as Hf.
  { destruct Hx as [E|E]; rewrite E in *;
      [destruct Hl as [Hl|Hl]|destruct Ht as [Ht|Ht]];
      try discriminate; assumption. }
  split; [assumption|]. apply from_json_not_nan. assumption.
Qed.

Lemma getHighlightPoint_text_patch_witness :
  begins_no_value 64%N = true /\
  getHighlightPoint (js "@@ -10,4 +10,4 @@") = Throws SyntaxError /\
  begins_no_value 58%N = true /\
  getHighlightPoint (js ":1") = Throws SyntaxError /\
  begins_no_value 93%N = true /\
  getHighlightPoint (js "]") = Throws SyntaxError.
Proof.
  refine (conj eq_refl (conj _ (conj eq_refl (conj _ (conj eq_refl _))))).
  - apply (@getHighlightPoint_text_patch 64%N (js "@ -10,4 +10,4 @@")).
    reflexivity.
  - apply (@getHighlightPoint_text_patch 58%N (js "1")). reflexivity.
  - apply (@getHighlightPoint_text_patch 93%N []). reflexivity.
Defined.

Lemma getHighlightPoint_unchecked_witness :
  getHighlightPoint (jsq "{'bbox':['a',null,true,{}]}")
    = Returns {| left := JStr (js "a"); top := JNull |} /\
  getHighlightPoint (jsq "{'bbox':'abcd'}")
    = Returns {| left := JStr (js "a"); top := JStr (js "b") |}.
Proof.
  split.
  - apply (proj1 (@getHighlightPoint_unchecked
                    (jsq "{'bbox':['a',null,true,{}]}")
                    [(js "bbox",
                      JArr [JStr (js "a"); JNull; JBool true; JObj []])]
                    eq_refl)
             (JStr (js "a")) JNull (JBool true) (JObj [])).
    reflexivity.
  - apply (proj2 (@getHighlightPoint_unchecked
                    (jsq "{'bbox':'abcd'}")
                    [(js "bbox", JStr (js "abcd"))] eq_refl)
             97%N 98%N 99%N 100%N).
    reflexivity.
Defined.

Lemma getHighlightPoint_never_nan_witness :
  getHighlightPoint (jsq "{'bbox':[1e999,0.1,0,0]}")
    = Returns {| left := JNum (S754_infinity false);
                 top := JNum (of_decimal false 1 (-1)) |} /\
  from_json (of_decimal false 1 (-1)) = true /\
  is_nan (of_decimal false 1 (-1)) = false.
Proof.
  split; [reflexivity|].
  apply (@getHighlightPoint_never_nan (jsq "{'bbox':[1e999,0.1,0,0]}")
           {| left := JNum (S754_infinity false);
              top := JNum (of_decimal false 1 (-1)) |}
           (of_decimal false 1 (-1))).
  - reflexivity.
  - right. reflexivity.
Defined.

(** ** The location of a highlight *)

Section LocationNumbers.

Variable patch_fromText : jsstring -> outcome (list patch_obj).

(** X8.  A location that is returned is never NaN and never [-0]:
    [start1 || 0] turns both, and a missing start, into [+0]. *)
Theorem getHighlightLocation_never_nan (patch : jsstring) (r : number) :
  getHighlightLocation patch_fromText patch = Returns r ->
  is_nan r = false /\ r <> S754_zero true.
Proof.
  unfold getHighlightLocation.
  destruct (patch_fromText patch) as [patches|]; [|discriminate]. cbn [bind].
  destruct (nth_error patches 0) as [first|]; [|discriminate].
  intros [= <-]. unfold or_zero.
  destruct (start1 first) as [[s|s| |s m e]|]; cbn [Js.truthy is_nan];
    (split; [reflexivity|discriminate]).
Qed.

End LocationNumbers.

Lemma getHighlightLocation_never_nan_witness :
  getHighlightLocation (Standin.one_segment (Some NaN)) (js "@@ -10,4 +10,4 @@")
    = Returns pos_zero /\
  getHighlightLocation (Standin.one_segment (Some (S754_zero true)))
    (js "@@ -10,4 +10,4 @@") = Returns pos_zero /\
  is_nan pos_zero = false /\ pos_zero <> S754_zero true.
Proof.
  split; [reflexivity|]. split; [reflexivity|].
  apply (@getHighlightLocation_never_nan (Standin.one_segment (Some NaN))
           (js "@@ -10,4 +10,4 @@") pos_zero).
  reflexivity.
Defined.

(** ** Escaping of quotation marks *)

(** X9.  Escaping loses nothing: two texts have the same escaped form
    only if they are the same text. *)
Theorem escapeQuotationMarks_injective (s t : jsstring) :
  escapeQuotationMarks s = escapeQuotationMarks t <-> s = t.
Proof.
  split; [|intros ->; reflexivity].
  revert t. induction s as [|c s IH]; intros [|d t].
  - reflexivity.
  - rewrite escape_cons. destruct (d =? _)%N; discriminate.
  - rewrite escape_cons. destruct (c =? _)%N; discriminate.
  - rewrite !escape_cons.
    destruct (N.eqb_spec c quotation_mark) as [->|Hc],
             (N.eqb_spec d quotation_mark) as [->|Hd].
    + intros [= E]. f_equal. apply IH. exact E.
    + intros [= _ E]. exfalso. symmetry in E. exact (escape_head _ E).
    + intros [= _ E]. exfalso. exact (escape_head _ E).
    + intros [= -> E]. f_equal. apply IH. exact E.
Qed.

(** X10.  In the escaped text every quotation mark stands right after a
    backslash, and the text is longer than the original by the number of
    its quotation marks. *)
Theorem escapeQuotationMarks_guards_every_mark (text : jsstring) :
  (forall i, nth_error (escapeQuotationMarks text) i = Some quotation_mark ->
     exists j, i = S j /\
               nth_error (escapeQuotationMarks text) j = Some backslash) /\
  List.length (escapeQuotationMarks text)
  = (List.length text + count_occ N.eq_dec text quotation_mark)%nat.
Proof.
  split.
  - intros i H. destruct (escape_quote_at _ _ H) as (b & a & E & ->).
    exists (List.length b). split; [reflexivity|].
    rewrite E, nth_error_app2, Nat.sub_diag by lia. reflexivity.
  - induction text as [|c text IH]; [reflexivity|].
    rewrite escape_cons. cbn [count_occ List.length].
    destruct (N.eqb_spec c quotation_mark) as [->|Hc].
    + destruct (N.eq_dec quotation_mark quotation_mark); [|contradiction].
      cbn [List.length]. rewrite IH. lia.
    + destruct (N.eq_dec c quotation_mark); [contradiction|].
      cbn [List.length]. rewrite IH. lia.
Qed.

Lemma escapeQuotationMarks_guards_every_mark_witness :
  escapeQuotationMarks (jsq "say 'hi'") = jsq "say \'hi\'"
  /\ nth_error (escapeQuotationMarks (jsq "say 'hi'")) 5 = Some quotation_mark
  /\ nth_error (escapeQuotationMarks (jsq "say 'hi'")) 4 = Some backslash
  /\ List.length (escapeQuotationMarks (jsq "say 'hi'")) = 10%nat.
Proof.
  destruct (escapeQuotationMarks_guards_every_mark (jsq "say 'hi'"))
    as [Hg Hl].
  destruct (Hg 5%nat eq_refl) as (j & Hj & Hb).
  injection Hj as <-.
  refine (conj _ (conj _ (conj _ _))).
  - reflexivity.
  - reflexivity.
  - exact Hb.
  - rewrite Hl. reflexivity.
Defined.

(** ** The requests and the answers of the loaders *)

Section LoaderFacts.

Variable Response : Type.
Variable fetch : jsstring -> RequestInit -> outcome Response.
Variable json_as_GetArticleResponse : Response -> outcome GetArticleResponse.
Variable json_as_SearchResponse : Response -> outcome SearchResponse.
Variable json_as_UpdatesSinceResponse : Response -> outcome UpdatesSinceResponse.
Variable JSON_stringify : JSVal -> jsstring.
Variable Number_toString : number -> jsstring.

(** X11.  The deleted slugs are not deduplicated: a slug is returned as
    many times as there are [DELETED] edges that carry it.  There are
    never more slugs than edges, and none exactly when no edge is
    [DELETED]. *)
Theorem loadDeletedArticleSlugs_multiplicity
    (apiKey : jsstring) (after first : option number)
    (updatedAt : option jsstring) :
  forall res jsonRes,
    fetch ENDPOINT
      (loadDeletedArticleSlugs_request Number_toString apiKey after first
         updatedAt) = Returns res ->
    json_as_UpdatesSinceResponse res = Returns jsonRes ->
    exists slugs,
      loadDeletedArticleSlugs fetch json_as_UpdatesSinceResponse
        Number_toString apiKey after first updatedAt
      = Returns (slugs, updatesSince_hasNextPage jsonRes) /\
      (forall s,
         count_occ (list_eq_dec N.eq_dec) slugs s
         = List.length
             (filter (fun edge => deleted edge && JsString.eqb (node_slug edge) s)
                (updatesSince_edges jsonRes))) /\
      (List.length slugs <= List.length (updatesSince_edges jsonRes))%nat /\
      (slugs = [] <->
       forall edge, In edge (updatesSince_edges jsonRes) ->
                    UpdatesSince.updateReason edge <> DELETED).
Proof.
  intros res jsonRes Hf Hj. exists (deleted_slugs (updatesSince_edges jsonRes)).
  split; [|split; [|split]].
  - unfold loadDeletedArticleSlugs. rewrite Hf. cbn [bind]. rewrite Hj.
    cbn [bind]. rewrite deleted_slugs_filter. reflexivity.
  - intros s. apply deleted_slugs_count.
  - apply deleted_slugs_length.
  - apply deleted_slugs_nil.
Qed.

(** X12.  For a slug of plain code units (no quotation mark, backslash
    or control character) the body of the single-article request is a
    JSON text: an object of the GraphQL document and of the variables
    [username], which is [me], and [slug], which is the caller's slug.
    The article returned is the one of the response to that request, and
    the network is consulted for that request only. *)
Theorem loadArticle_request_round_trip (slug apiKey : jsstring) :
  plain slug = true ->
  let request := loadArticle_request slug apiKey in
  JSON.parse (body request)
  = Returns (JObj [ (js "query", JStr getArticle_document);
                    (js "variables",
                     JObj [ (js "username", JStr (js "me"));
                            (js "slug", JStr slug) ]) ]) /\
  (forall res response,
     fetch ENDPOINT request = Returns res ->
     json_as_GetArticleResponse res = Returns response ->
     loadArticle fetch json_as_GetArticleResponse slug apiKey
     = Returns (GetArticle.article
                  (GetArticle.article_result (GetArticle.data response)))) /\
  (forall fetch' : jsstring -> RequestInit -> outcome Response,
     fetch' ENDPOINT request = fetch ENDPOINT request ->
     loadArticle fetch' json_as_GetArticleResponse slug apiKey
     = loadArticle fetch json_as_GetArticleResponse slug apiKey).
Proof.
  intros Hs request. split; [|split].
  - apply loadArticle_body. exact Hs.
  - intros res response Hf Hj. unfold loadArticle. fold request.
    rewrite Hf. cbn [bind]. rewrite Hj. reflexivity.
  - intros fetch' H. unfold loadArticle. fold request. rewrite H. reflexivity.
Qed.

(** X13.  No loader catches: when the transport fails, or the decoding
    of the response does, each of the three loaders fails with the same
    exception. *)
Theorem loaders_propagate_failure
    (slug apiKey : jsstring) (after first : option number)
    (updatedAt query : option jsstring) (includeContent : option bool)
    (format : option jsstring) (e : exn) :
  (fetch ENDPOINT (loadArticle_request slug apiKey) = Throws e ->
   loadArticle fetch json_as_GetArticleResponse slug apiKey = Throws e) /\
  (forall res,
     fetch ENDPOINT (loadArticle_request slug apiKey) = Returns res ->
     json_as_GetArticleResponse res = Throws e ->
     loadArticle fetch json_as_GetArticleResponse slug apiKey = Throws e) /\
  (fetch ENDPOINT
     (loadArticles_request JSON_stringify Number_toString apiKey after first
        updatedAt query includeContent format) = Throws e ->
   loadArticles fetch json_as_SearchResponse JSON_stringify Number_toString
     apiKey after first updatedAt query includeContent format = Throws e) /\
  (forall res,
     fetch ENDPOINT
       (loadArticles_request JSON_stringify Number_toString apiKey after first
          updatedAt query includeContent format) = Returns res ->
     json_as_SearchResponse res = Throws e ->
     loadArticles fetch json_as_SearchResponse JSON_stringify Number_toString
       apiKey after first updatedAt query includeContent format = Throws e) /\
  (fetch ENDPOINT
     (loadDeletedArticleSlugs_request Number_toString apiKey after first
        updatedAt) = Throws e ->
   loadDeletedArticleSlugs fetch json_as_UpdatesSinceResponse Number_toString
     apiKey after first updatedAt = Throws e) /\
  (forall res,
     fetch ENDPOINT
       (loadDeletedArticleSlugs_request Number_toString apiKey after first
          updatedAt) = Returns res ->
     json_as_UpdatesSinceResponse res = Throws e ->
     loadDeletedArticleSlugs fetch json_as_UpdatesSinceResponse Number_toString
       apiKey after first updatedAt = Throws e).
Proof.
  unfold loadArticle, loadArticles, loadDeletedArticleSlugs.
  refine (conj _ (conj _ (conj _ (conj _ (conj _ _))))).
  - intros ->. reflexivity.
  - intros res -> H. cbn [bind]. rewrite H. reflexivity.
  - intros ->. reflexivity.
  - intros res -> H. cbn [bind]. rewrite H. reflexivity.
  - intros ->. reflexivity.
  - intros res -> H. cbn [bind]. rewrite H. reflexivity.
Qed.

End LoaderFacts.

(** X14.  The slug is put into the body as it is, without escaping.  A
    slug with one quotation mark, after plain code units, makes a body
    that is not JSON; and a slug that closes the string and names a
    second [slug] makes a body in which a server reads that second one. *)
Theorem loadArticle_slug_not_escaped (s1 s2 apiKey : jsstring) :
  plain s1 = true ->
  (no_mark s2 = true ->
   JSON.parse (body (loadArticle_request (s1 ++ quotation_mark :: s2) apiKey))
   = Throws SyntaxError) /\
  (plain s2 = true ->
   exists variables,
     JSON.parse
       (body (loadArticle_request (s1 ++ jsq "','slug':'" ++ s2) apiKey))
     = Returns (JObj [ (js "query", JStr getArticle_document);
                       (js "variables", JObj variables) ]) /\
     get_own variables (js "username") = JStr (js "me") /\
     get_own variables (js "slug") = JStr s2).
Proof.
  intros H1. split; intros H2.
  - apply loadArticle_body_mark; assumption.
  - exists [ (js "username", JStr (js "me")); (js "slug", JStr s1);
             (js "slug", JStr s2) ].
    split; [apply loadArticle_body_second_slug; assumption|].
    split; reflexivity.
Qed.

Section UpdatesBody.

Variable Number_toString : number -> jsstring.

(** X15.  When the offset prints as plain code units, the page size as a
    word, and the date is of plain code units, the body of the
    updates-since request is a JSON text exactly when the page size
    prints as a JSON scalar: it is then an object of the GraphQL document
    and of the variables [after], a string, [first], that scalar, and
    [since], the date sent; otherwise a server meets a [SyntaxError]. *)
Theorem loadDeletedArticleSlugs_body_json
    (apiKey : jsstring) (after first : option number)
    (updatedAt : option jsstring) :
  plain (Number_toString (default pos_zero after)) = true ->
  forallb word_unit (Number_toString (default (of_Z 10) first)) = true ->
  plain (default [] updatedAt) = true ->
  JSON.parse
    (body (loadDeletedArticleSlugs_request Number_toString apiKey after first
             updatedAt))
  = match JSON.scalar (Number_toString (default (of_Z 10) first)) with
    | Some page_size =>
        Returns
          (JObj [ (js "query", JStr updatesSince_document);
                  (js "variables",
                   JObj [ (js "after",
                           JStr (Number_toString (default pos_zero after)));
                          (js "first", page_size);
                          (js "since", JStr (since (default [] updatedAt))) ]) ])
    | None => Throws SyntaxError
    end.
Proof.
  intros Ha Hf Hu.
  exact (@updatesSince_body_parse Number_toString apiKey after first updatedAt
           Ha Hf Hu).
Qed.

End UpdatesBody.

Lemma loadDeletedArticleSlugs_multiplicity_witness :
  exists slugs,
    loadDeletedArticleSlugs (Standin.fetch Sample.deleted_twice)
      Standin.updatesSince_json Standin.print_whole (js "key") None None None
    = Returns (slugs, true) /\
    count_occ (list_eq_dec N.eq_dec) slugs (js "a") = 2%nat /\
    count_occ (list_eq_dec N.eq_dec) slugs (js "b") = 0%nat /\
    (List.length slugs <= 3)%nat.
Proof.
  destruct (@loadDeletedArticleSlugs_multiplicity Standin.server
              (Standin.fetch Sample.deleted_twice) Standin.updatesSince_json
              Standin.print_whole (js "key") None None None
              Sample.deleted_twice (snd Sample.deleted_twice)
              eq_refl eq_refl) as (slugs & Hr & Hc & Hl & _).
  exists slugs. refine (conj Hr (conj _ (conj _ Hl))).
  - rewrite Hc. reflexivity.
  - rewrite Hc. reflexivity.
Defined.

Lemma loadArticle_request_round_trip_witness :
  plain (js "my-article") = true /\
  JSON.parse (body (loadArticle_request (js "my-article") (js "key")))
  = Returns (JObj [ (js "query", JStr getArticle_document);
                    (js "variables",
                     JObj [ (js "username", JStr (js "me"));
                            (js "slug", JStr (js "my-article")) ]) ]) /\
  loadArticle Sample.article_server Sample.article_json (js "my-article")
    (js "key")
  = Returns (Standin.article (js "my-article")).
Proof.
  split; [reflexivity|].
  destruct (@loadArticle_request_round_trip GetArticleResponse
              Sample.article_server Sample.article_json
              (js "my-article") (js "key") eq_refl) as (Hb & Hr & _).
  split; [exact Hb|].
  apply (Hr (Sample.article_response (Standin.article (js "my-article")))
            (Sample.article_response (Standin.article (js "my-article"))));
    reflexivity.
Defined.

Lemma loaders_propagate_failure_witness :
  loadArticle (Sample.offline Standin.server)
    (@Sample.undecodable Standin.server GetArticleResponse)
    (js "my-article") (js "key")
  = Throws (OtherError (js "Failed to fetch")) /\
  loadArticles (Standin.fetch Standin.answers)
    (@Sample.undecodable Standin.server SearchResponse)
    Standin.stringify Standin.print_whole (js "key") None None None None
    None None
  = Throws SyntaxError /\
  loadDeletedArticleSlugs (Sample.offline Standin.server)
    Standin.updatesSince_json Standin.print_whole (js "key") None None None
  = Throws (OtherError (js "Failed to fetch")).
Proof.
  refine (conj _ (conj _ _)).
  - apply (proj1 (@loaders_propagate_failure Standin.server
                    (Sample.offline Standin.server)
                    (@Sample.undecodable Standin.server GetArticleResponse)
                    Standin.search_json Standin.updatesSince_json
                    Standin.stringify Standin.print_whole
                    (js "my-article") (js "key") None None None None None None
                    (OtherError (js "Failed to fetch")))).
    reflexivity.
  - apply (proj1 (proj2 (proj2 (proj2
             (@loaders_propagate_failure Standin.server
                (Standin.fetch Standin.answers)
                (@Sample.undecodable Standin.server GetArticleResponse)
                (@Sample.undecodable Standin.server SearchResponse)
                Standin.updatesSince_json
                Standin.stringify Standin.print_whole
                (js "my-article") (js "key") None None None None None None
                SyntaxError))))
             Standin.answers); reflexivity.
  - apply (proj1 (proj2 (proj2 (proj2 (proj2
             (@loaders_propagate_failure Standin.server
                (Sample.offline Standin.server)
                (@Sample.undecodable Standin.server GetArticleResponse)
                Standin.search_json Standin.updatesSince_json
                Standin.stringify Standin.print_whole
                (js "my-article") (js "key") None None None None None None
                (OtherError (js "Failed to fetch")))))))).
    reflexivity.
Defined.

Lemma loadArticle_slug_not_escaped_witness :
  JSON.parse (body (loadArticle_request (jsq "six' nine") (js "key")))
  = Throws SyntaxError /\
  exists variables,
    JSON.parse
      (body (loadArticle_request (jsq "mine','slug':'yours") (js "key")))
    = Returns (JObj [ (js "query", JStr getArticle_document);
                      (js "variables", JObj variables) ]) /\
    get_own variables (js "username") = JStr (js "me") /\
    get_own variables (js "slug") = JStr (js "yours").
Proof.
  split.
  - apply (proj1 (@loadArticle_slug_not_escaped (js "six") (js " nine")
                    (js "key") eq_refl)).
    reflexivity.
  - apply (proj2 (@loadArticle_slug_not_escaped (js "mine") (js "yours")
                    (js "key") eq_refl)).
    reflexivity.
Defined.

Lemma loadDeletedArticleSlugs_body_json_witness :
  JSON.parse
    (body (loadDeletedArticleSlugs_request Standin.print_whole (js "key")
             (Some (of_Z 20)) None (Some (js "2023-01-05"))))
  = Returns
      (JObj [ (js "query", JStr updatesSince_document);
              (js "variables",
               JObj [ (js "after", JStr (js "20"));
                      (js "first", JNum (of_Z 10));
                      (js "since", JStr (js "2023-01-05")) ]) ]) /\
  JSON.parse
    (body (loadDeletedArticleSlugs_request Standin.print_whole (js "key")
             None (Some NaN) None))
  = Throws SyntaxError.
Proof.
  split.
  - rewrite (@loadDeletedArticleSlugs_body_json Standin.print_whole (js "key")
               (Some (of_Z 20)) None (Some (js "2023-01-05"))
               eq_refl eq_refl eq_refl).
    reflexivity.
  - rewrite (@loadDeletedArticleSlugs_body_json Standin.print_whole (js "key")
               None (Some NaN) None eq_refl eq_refl eq_refl).
    reflexivity.
Defined.
